(** * sapiens-blender: a shallow embedding of [__init__.py]

    The add-on is a set of Blender operators.  The operators are embedded as
    programs of a small state-and-exception monad over a model of the part of
    Blender's data API ([bpy]), of [pathlib] and of [json] the source
    touches:

    - Python floats are kept abstract ([PyFloat]): a carrier, the built-in
      [round(x, 3)] and decimal literals; a socket or an attribute holds the
      float that was assigned to it;
    - JSON values, the Python values [json.load] returns, are [JSON]; a
      [dict] with string keys is a finite map, so that two dictionaries with
      the same items are equal, as they are for Python's [==];
    - [bpy.data] is a store of objects, materials and collections, each
      datablock carrying an identity; an attribute holds the last value that
      was assigned to it (a name is such an attribute), and a collection is
      iterated in store order over the elements present when the loop
      starts;
    - [matrix_world] is the location, rotation and scale it is composed
      from;
    - the glTF exporter records its call and leaves the scene alone;
    - a path is the list of its components and the file system maps paths to
      directories and JSON files;
    - the [context] an operator is run in is the collection and the scene
      objects it designates;
    - [print] is console output only and is left out.

    The definitions come first, each under the name it has in the source;
    the properties follow. *)

From Stdlib Require Import ZArith Lia Ascii String.
From stdpp Require Import base strings pretty gmap list.

Set Default Proof Using "Type".
#[local] Set Warnings "-register-all".
#[local] Open Scope string_scope.
#[local] Open Scope list_scope.

(** ** Python values *)

(** Python floats: [round3 x] is [round(x, 3)], [dec n] is the float written
    as the decimal literal [n / 1000] ([dec 500] is [0.5]). *)
Class PyFloat := {
  float : Type;
  round3 : float -> float;
  dec : Z -> float
}.

(** Exceptions raised by the interpreter or by the host. *)
Inductive exn :=
  | AttributeError | KeyError | TypeError | IndexError | ValueError
  | UnboundLocalError | RuntimeError | ReferenceError
  | FileNotFoundError | FileExistsError | NotADirectoryError | IsADirectoryError.

Inductive result (A : Type) :=
  | Ok (a : A)
  | Raise (e : exn).
Arguments Ok {A} a.
Arguments Raise {A} e.

#[global] Instance result_ret : MRet result := fun A a => Ok a.
#[global] Instance result_bind : MBind result := fun A B f m =>
  match m with
  | Ok a => f a
  | Raise e => Raise e
  end.

(** What [json.load] returns and [json.dump] accepts; [JNull] is [None] and
    [JObj] is a [dict] with string keys. *)
Inductive JSON `{PyFloat} :=
  | JNull
  | JBool (b : bool)
  | JNum (x : float)
  | JStr (s : string)
  | JArr (l : list JSON)
  | JObj (d : gmap string JSON).

(** ** Python built-ins on strings and sequences *)
Module Py.

(** [c in s] for a one-character [c]. *)
Fixpoint contains (c : ascii) (s : string) : bool :=
  match s with
  | EmptyString => false
  | String a s' => Ascii.eqb a c || contains c s'
  end.

(** [s.split(sep)] for a one-character separator: never the empty list. *)
Fixpoint split (sep : ascii) (s : string) : list string :=
  match s with
  | EmptyString => [EmptyString]
  | String a s' =>
      if Ascii.eqb a sep then EmptyString :: split sep s'
      else match split sep s' with
           | x :: xs => String a x :: xs
           | [] => [String a EmptyString]
           end
  end.

(** [l[i]] *)
Definition item {A} (l : list A) (i : nat) : result A :=
  match l !! i with
  | Some x => Ok x
  | None => Raise IndexError
  end.

End Py.

(** The longest prefix of [s] none of whose characters satisfies [stop]:
    the part of [s] before the first occurrence of a stop character. *)
Fixpoint before_first (stop : ascii -> bool) (s : string) : string :=
  match s with
  | EmptyString => EmptyString
  | String a s' => if stop a then EmptyString else String a (before_first stop s')
  end.

Definition is_separator (a : ascii) : bool :=
  Ascii.eqb a "." || Ascii.eqb a "_".

(** ** Paths and the file system *)

(** A [pathlib.Path], as its components. *)
Definition Path := list string.

Inductive entry `{PyFloat} :=
  | Dir
  | File (content : JSON).

Module pathlib.
Section pathlib.
Context `{PyFloat}.

Definition parent (p : Path) : Path := removelast p.
Definition name (p : Path) : string := List.last p "".
Definition joinpath (p : Path) (child : string) : Path := p ++ [child].

Definition exists_ (fs : gmap Path entry) (p : Path) : bool :=
  bool_decide (is_Some (fs !! p)).

(** The non-empty prefixes of [p], shortest first. *)
Definition ancestors (p : Path) : list Path :=
  map (fun n => take n p) (seq 1 (length p)).

(** [p.mkdir(parents=True, exist_ok=True)] *)
Definition mkdir (p : Path) (fs : gmap Path entry) : result (gmap Path entry) :=
  foldl (fun r q =>
           fs ← r;
           match fs !! q with
           | None => Ok (<[q := Dir]> fs)
           | Some Dir => Ok fs
           | Some (File _) =>
               Raise (if bool_decide (q = p) then FileExistsError else NotADirectoryError)
           end)
        (Ok fs) (ancestors p).

(** [json.load(open(p, "r"))] *)
Definition read_json (fs : gmap Path entry) (p : Path) : result JSON :=
  match fs !! p with
  | Some (File content) => Ok content
  | Some Dir => Raise IsADirectoryError
  | None => Raise FileNotFoundError
  end.

(** [json.dump(content, open(p, "w"))]: the directory of [p] must exist. *)
Definition write_json (p : Path) (content : JSON) (fs : gmap Path entry)
  : result (gmap Path entry) :=
  match fs !! p with
  | Some Dir => Raise IsADirectoryError
  | _ =>
      match parent p with
      | [] => Ok (<[p := File content]> fs)
      | d => match fs !! d with
             | Some Dir => Ok (<[p := File content]> fs)
             | Some (File _) => Raise NotADirectoryError
             | None => Raise FileNotFoundError
             end
      end
  end.

(** [str.lower] on the ASCII letters. *)
Definition lower_ascii (a : ascii) : ascii :=
  let n := nat_of_ascii a in
  if (65 <=? n)%nat && (n <=? 90)%nat then ascii_of_nat (n + 32) else a.

Fixpoint lower (s : string) : string :=
  match s with
  | EmptyString => EmptyString
  | String a s' => String (lower_ascii a) (lower s')
  end.

(** Index of the last occurrence of [c] ([str.rfind]). *)
Fixpoint rfind (c : ascii) (s : string) : option nat :=
  match s with
  | EmptyString => None
  | String a s' =>
      match rfind c s' with
      | Some i => Some (S i)
      | None => if Ascii.eqb a c then Some 0%nat else None
      end
  end.

(** [PurePath.stem]: the final component without its last suffix. *)
Definition stem (p : Path) : string :=
  let n := name p in
  match rfind "." n with
  | Some i =>
      if (0 <? i)%nat && (i <? String.length n - 1)%nat
      then String.substring 0 i n else n
  | None => n
  end.

End pathlib.
End pathlib.

(** ** The Blender data model ([bpy]) *)

Definition vec3 `{PyFloat} : Type := float * float * float.

(** [Object.matrix_world], given by the location, rotation and scale it is
    composed from. *)
Record Matrix `{PyFloat} := {
  m_location : vec3;
  m_rotation : vec3;
  m_scale : vec3
}.

(** A [bpy.types.Object]; [ob_id] is the identity of the datablock. *)
Record Object `{PyFloat} := {
  ob_id : nat;
  ob_name : string;
  ob_type : string;
  ob_select : bool;
  ob_location : vec3;
  ob_rotation_euler : vec3;
  ob_scale : vec3;
  ob_parent : option nat;
  ob_hide_viewport : bool;
  ob_hide_render : bool;
  ob_empty_display_type : string;
  ob_empty_display_size : float;
  ob_material_slots : list (option nat)
}.

(** The value an input socket holds in [default_value]. *)
Inductive socket_value `{PyFloat} :=
  | SFloat (x : float)
  | SColor (c : list float)
  | SShader.

Record Node `{PyFloat} := {
  node_type : string;
  node_location : Z * Z;
  node_inputs : gmap string socket_value;
  node_outputs : list string
}.

(** A link joins an output socket of the node at one index of the tree to an
    input socket of the node at another. *)
Record Link := {
  from_node : nat;
  from_socket : string;
  to_node : nat;
  to_socket : string
}.

Record NodeTree `{PyFloat} := {
  nodes : list Node;
  links : list Link
}.

Record Material `{PyFloat} := {
  mat_id : nat;
  mat_name : string;
  use_nodes : bool;
  node_tree : option NodeTree
}.

(** One piece of an f-string. *)
Inductive fpart :=
  | Lit (s : string)
  | FStr (s : string)
  | FList (l : list string)
  | FPath (p : Path)
  | FNat (n : nat).

Record Report := {
  rep_level : string;
  rep_message : list fpart
}.

(** A call of [bpy.ops.export_scene.gltf] with [export_format='GLB'],
    [use_selection=True]: the file path, the options and the selected objects
    as they are at the call. *)
Record Export `{PyFloat} := {
  ex_filepath : Path;
  ex_apply : bool;
  ex_materials : string;
  ex_cameras : bool;
  ex_selection : list Object
}.

(** The state an operator runs in. *)
Record World `{PyFloat} := {
  filepath : Path;                 (* Path(bpy.data.filepath) *)
  fs : gmap Path entry;
  objects : list Object;           (* bpy.data.objects *)
  materials : list Material;       (* bpy.data.materials *)
  collections : list (list nat);   (* the objects linked to each collection *)
  active : option nat;             (* context.view_layer.objects.active *)
  next_id : nat;                   (* identity of the next datablock *)
  reports : list Report;           (* self.report *)
  exports : list Export
}.

Inductive status := FINISHED | CANCELLED.

Section setters.
Context `{PyFloat}.

Definition matrix_world (o : Object) : Matrix :=
  {| m_location := ob_location o; m_rotation := ob_rotation_euler o; m_scale := ob_scale o |}.

Definition set_name (v : string) (o : Object) : Object :=
  {| ob_id := ob_id o; ob_name := v; ob_type := ob_type o; ob_select := ob_select o;
     ob_location := ob_location o; ob_rotation_euler := ob_rotation_euler o;
     ob_scale := ob_scale o; ob_parent := ob_parent o;
     ob_hide_viewport := ob_hide_viewport o; ob_hide_render := ob_hide_render o;
     ob_empty_display_type := ob_empty_display_type o;
     ob_empty_display_size := ob_empty_display_size o;
     ob_material_slots := ob_material_slots o |}.

Definition set_select (v : bool) (o : Object) : Object :=
  {| ob_id := ob_id o; ob_name := ob_name o; ob_type := ob_type o; ob_select := v;
     ob_location := ob_location o; ob_rotation_euler := ob_rotation_euler o;
     ob_scale := ob_scale o; ob_parent := ob_parent o;
     ob_hide_viewport := ob_hide_viewport o; ob_hide_render := ob_hide_render o;
     ob_empty_display_type := ob_empty_display_type o;
     ob_empty_display_size := ob_empty_display_size o;
     ob_material_slots := ob_material_slots o |}.

Definition set_location (v : vec3) (o : Object) : Object :=
  {| ob_id := ob_id o; ob_name := ob_name o; ob_type := ob_type o; ob_select := ob_select o;
     ob_location := v; ob_rotation_euler := ob_rotation_euler o;
     ob_scale := ob_scale o; ob_parent := ob_parent o;
     ob_hide_viewport := ob_hide_viewport o; ob_hide_render := ob_hide_render o;
     ob_empty_display_type := ob_empty_display_type o;
     ob_empty_display_size := ob_empty_display_size o;
     ob_material_slots := ob_material_slots o |}.

Definition set_rotation_euler (v : vec3) (o : Object) : Object :=
  {| ob_id := ob_id o; ob_name := ob_name o; ob_type := ob_type o; ob_select := ob_select o;
     ob_location := ob_location o; ob_rotation_euler := v;
     ob_scale := ob_scale o; ob_parent := ob_parent o;
     ob_hide_viewport := ob_hide_viewport o; ob_hide_render := ob_hide_render o;
     ob_empty_display_type := ob_empty_display_type o;
     ob_empty_display_size := ob_empty_display_size o;
     ob_material_slots := ob_material_slots o |}.

Definition set_scale (v : vec3) (o : Object) : Object :=
  {| ob_id := ob_id o; ob_name := ob_name o; ob_type := ob_type o; ob_select := ob_select o;
     ob_location := ob_location o; ob_rotation_euler := ob_rotation_euler o;
     ob_scale := v; ob_parent := ob_parent o;
     ob_hide_viewport := ob_hide_viewport o; ob_hide_render := ob_hide_render o;
     ob_empty_display_type := ob_empty_display_type o;
     ob_empty_display_size := ob_empty_display_size o;
     ob_material_slots := ob_material_slots o |}.

(** Assigning [matrix_world] assigns the location, rotation and scale. *)
Definition set_matrix_world (m : Matrix) (o : Object) : Object :=
  set_scale (m_scale m) (set_rotation_euler (m_rotation m) (set_location (m_location m) o)).

Definition set_parent (v : option nat) (o : Object) : Object :=
  {| ob_id := ob_id o; ob_name := ob_name o; ob_type := ob_type o; ob_select := ob_select o;
     ob_location := ob_location o; ob_rotation_euler := ob_rotation_euler o;
     ob_scale := ob_scale o; ob_parent := v;
     ob_hide_viewport := ob_hide_viewport o; ob_hide_render := ob_hide_render o;
     ob_empty_display_type := ob_empty_display_type o;
     ob_empty_display_size := ob_empty_display_size o;
     ob_material_slots := ob_material_slots o |}.

Definition set_hide_viewport (v : bool) (o : Object) : Object :=
  {| ob_id := ob_id o; ob_name := ob_name o; ob_type := ob_type o; ob_select := ob_select o;
     ob_location := ob_location o; ob_rotation_euler := ob_rotation_euler o;
     ob_scale := ob_scale o; ob_parent := ob_parent o;
     ob_hide_viewport := v; ob_hide_render := ob_hide_render o;
     ob_empty_display_type := ob_empty_display_type o;
     ob_empty_display_size := ob_empty_display_size o;
     ob_material_slots := ob_material_slots o |}.

Definition set_hide_render (v : bool) (o : Object) : Object :=
  {| ob_id := ob_id o; ob_name := ob_name o; ob_type := ob_type o; ob_select := ob_select o;
     ob_location := ob_location o; ob_rotation_euler := ob_rotation_euler o;
     ob_scale := ob_scale o; ob_parent := ob_parent o;
     ob_hide_viewport := ob_hide_viewport o; ob_hide_render := v;
     ob_empty_display_type := ob_empty_display_type o;
     ob_empty_display_size := ob_empty_display_size o;
     ob_material_slots := ob_material_slots o |}.

Definition set_empty_display_type (v : string) (o : Object) : Object :=
  {| ob_id := ob_id o; ob_name := ob_name o; ob_type := ob_type o; ob_select := ob_select o;
     ob_location := ob_location o; ob_rotation_euler := ob_rotation_euler o;
     ob_scale := ob_scale o; ob_parent := ob_parent o;
     ob_hide_viewport := ob_hide_viewport o; ob_hide_render := ob_hide_render o;
     ob_empty_display_type := v;
     ob_empty_display_size := ob_empty_display_size o;
     ob_material_slots := ob_material_slots o |}.

Definition set_empty_display_size (v : float) (o : Object) : Object :=
  {| ob_id := ob_id o; ob_name := ob_name o; ob_type := ob_type o; ob_select := ob_select o;
     ob_location := ob_location o; ob_rotation_euler := ob_rotation_euler o;
     ob_scale := ob_scale o; ob_parent := ob_parent o;
     ob_hide_viewport := ob_hide_viewport o; ob_hide_render := ob_hide_render o;
     ob_empty_display_type := ob_empty_display_type o;
     ob_empty_display_size := v;
     ob_material_slots := ob_material_slots o |}.

Definition set_material_slots (v : list (option nat)) (o : Object) : Object :=
  {| ob_id := ob_id o; ob_name := ob_name o; ob_type := ob_type o; ob_select := ob_select o;
     ob_location := ob_location o; ob_rotation_euler := ob_rotation_euler o;
     ob_scale := ob_scale o; ob_parent := ob_parent o;
     ob_hide_viewport := ob_hide_viewport o; ob_hide_render := ob_hide_render o;
     ob_empty_display_type := ob_empty_display_type o;
     ob_empty_display_size := ob_empty_display_size o;
     ob_material_slots := v |}.

Definition set_mat_name (v : string) (m : Material) : Material :=
  {| mat_id := mat_id m; mat_name := v; use_nodes := use_nodes m; node_tree := node_tree m |}.

Definition set_node_tree (v : option NodeTree) (m : Material) : Material :=
  {| mat_id := mat_id m; mat_name := mat_name m; use_nodes := use_nodes m; node_tree := v |}.

Definition set_node_location (v : Z * Z) (n : Node) : Node :=
  {| node_type := node_type n; node_location := v;
     node_inputs := node_inputs n; node_outputs := node_outputs n |}.

Definition set_node_inputs (v : gmap string socket_value) (n : Node) : Node :=
  {| node_type := node_type n; node_location := node_location n;
     node_inputs := v; node_outputs := node_outputs n |}.

Definition with_fs (v : gmap Path entry) (w : World) : World :=
  {| filepath := filepath w; fs := v; objects := objects w; materials := materials w;
     collections := collections w; active := active w; next_id := next_id w;
     reports := reports w; exports := exports w |}.

Definition with_objects (v : list Object) (w : World) : World :=
  {| filepath := filepath w; fs := fs w; objects := v; materials := materials w;
     collections := collections w; active := active w; next_id := next_id w;
     reports := reports w; exports := exports w |}.

Definition with_materials (v : list Material) (w : World) : World :=
  {| filepath := filepath w; fs := fs w; objects := objects w; materials := v;
     collections := collections w; active := active w; next_id := next_id w;
     reports := reports w; exports := exports w |}.

Definition with_collections (v : list (list nat)) (w : World) : World :=
  {| filepath := filepath w; fs := fs w; objects := objects w; materials := materials w;
     collections := v; active := active w; next_id := next_id w;
     reports := reports w; exports := exports w |}.

Definition with_active (v : option nat) (w : World) : World :=
  {| filepath := filepath w; fs := fs w; objects := objects w; materials := materials w;
     collections := collections w; active := v; next_id := next_id w;
     reports := reports w; exports := exports w |}.

Definition with_next_id (v : nat) (w : World) : World :=
  {| filepath := filepath w; fs := fs w; objects := objects w; materials := materials w;
     collections := collections w; active := active w; next_id := v;
     reports := reports w; exports := exports w |}.

Definition with_reports (v : list Report) (w : World) : World :=
  {| filepath := filepath w; fs := fs w; objects := objects w; materials := materials w;
     collections := collections w; active := active w; next_id := next_id w;
     reports := v; exports := exports w |}.

Definition with_exports (v : list Export) (w : World) : World :=
  {| filepath := filepath w; fs := fs w; objects := objects w; materials := materials w;
     collections := collections w; active := active w; next_id := next_id w;
     reports := reports w; exports := v |}.

End setters.

(** ** Operators as programs over the world *)

Definition M `{PyFloat} (A : Type) : Type := World -> result (A * World).

#[global] Instance M_ret `{PyFloat} : MRet M := fun A a w => Ok (a, w).
#[global] Instance M_bind `{PyFloat} : MBind M := fun A B f m w =>
  match m w with
  | Ok (a, w') => f a w'
  | Raise e => Raise e
  end.

Section control.
Context `{PyFloat}.

Definition raise {A} (e : exn) : M A := fun _ => Raise e.

Definition lift {A} (r : result A) : M A := fun w =>
  match r with
  | Ok a => Ok (a, w)
  | Raise e => Raise e
  end.

Definition gets {A} (f : World -> A) : M A := fun w => Ok (f w, w).
Definition modify (f : World -> World) : M unit := fun w => Ok (tt, f w).

(** A [for] loop whose body updates the local variables [s]. *)
Fixpoint foldM {A S} (body : S -> A -> M S) (s : S) (l : list A) : M S :=
  match l with
  | [] => mret s
  | x :: l' => s' ← body s x; foldM body s' l'
  end.

Definition for_ {A} (l : list A) (body : A -> M unit) : M unit :=
  foldM (fun _ x => body x) tt l.

(** [self.report({level}, message)] *)
Definition report (level : string) (message : list fpart) : M unit :=
  modify (fun w => with_reports
    (reports w ++ [{| rep_level := level; rep_message := message |}]) w).

End control.

Module bpy.
Section bpy.
Context `{PyFloat}.

(** *** [bpy.data.objects] *)

Fixpoint find_object (i : nat) (l : list Object) : option Object :=
  match l with
  | [] => None
  | o :: l' => if (ob_id o =? i)%nat then Some o else find_object i l'
  end.

Definition update_object (i : nat) (f : Object -> Object) (l : list Object) : list Object :=
  map (fun o => if (ob_id o =? i)%nat then f o else o) l.

(** Reading the attributes of the object [i]. *)
Definition obj_get (i : nat) : M Object := fun w =>
  match find_object i (objects w) with
  | Some o => Ok (o, w)
  | None => Raise ReferenceError
  end.

(** Assigning an attribute of the object [i]. *)
Definition obj_set (i : nat) (f : Object -> Object) : M unit := fun w =>
  match find_object i (objects w) with
  | Some _ => Ok (tt, with_objects (update_object i f (objects w)) w)
  | None => Raise ReferenceError
  end.

(** The objects a loop over [bpy.data.objects] visits. *)
Definition data_objects : M (list nat) := gets (fun w => map ob_id (objects w)).

(** [context.selected_objects.copy()] *)
Definition selected_objects : M (list nat) :=
  gets (fun w => map ob_id (filter (fun o => ob_select o = true) (objects w))).

(** [bpy.ops.object.select_all(action='DESELECT')] *)
Definition select_all_deselect : M unit :=
  modify (fun w => with_objects (map (set_select false) (objects w)) w).

Definition select_set (i : nat) (v : bool) : M unit := obj_set i (set_select v).

Definition get_active : M (option nat) := gets active.
Definition set_active (v : option nat) : M unit := modify (with_active v).

(** [bpy.data.objects.new(name, None)]: an empty. *)
Definition new_empty (i : nat) (name : string) : Object :=
  {| ob_id := i; ob_name := name; ob_type := "EMPTY"; ob_select := false;
     ob_location := (dec 0, dec 0, dec 0);
     ob_rotation_euler := (dec 0, dec 0, dec 0);
     ob_scale := (dec 1000, dec 1000, dec 1000);
     ob_parent := None; ob_hide_viewport := false; ob_hide_render := false;
     ob_empty_display_type := "PLAIN_AXES"; ob_empty_display_size := dec 1000;
     ob_material_slots := [] |}.

Definition objects_new (name : string) : M nat := fun w =>
  let i := next_id w in
  Ok (i, with_next_id (S i) (with_objects (objects w ++ [new_empty i name]) w)).

(** [bpy.data.objects.remove(obj)]: the object leaves the store, the
    collections it is still linked to and the active slot. *)
Definition objects_remove (i : nat) : M unit := fun w =>
  match find_object i (objects w) with
  | Some _ =>
      Ok (tt,
          with_active (if bool_decide (active w = Some i) then None else active w)
            (with_collections (map (filter (fun j => j <> i)) (collections w))
               (with_objects (filter (fun o => ob_id o <> i) (objects w)) w)))
  | None => Raise ReferenceError
  end.

(** [obj.users_collection]: the collections, by index, [i] is linked to. *)
Definition users_collection (i : nat) : M (list nat) :=
  gets (fun w => map fst (filter (fun kc => i ∈ kc.2) (imap pair (collections w)))).

(** [collection.objects.link(obj)] *)
Definition collection_link (c i : nat) : M unit := fun w =>
  match collections w !! c with
  | Some l =>
      if bool_decide (i ∈ l) then Raise RuntimeError
      else Ok (tt, with_collections (<[c := l ++ [i]]> (collections w)) w)
  | None => Raise ReferenceError
  end.

(** [collection.objects.unlink(obj)] *)
Definition collection_unlink (c i : nat) : M unit := fun w =>
  match collections w !! c with
  | Some l =>
      if bool_decide (i ∈ l)
      then Ok (tt, with_collections (<[c := filter (fun j => j <> i) l]> (collections w)) w)
      else Raise RuntimeError
  | None => Raise ReferenceError
  end.

(** [bpy.ops.export_scene.gltf(filepath=..., export_format='GLB',
    use_selection=True, ...)] *)
Definition export_scene_gltf (path : Path) (apply : bool) (mats : string) (cameras : bool)
  : M unit :=
  modify (fun w => with_exports
    (exports w ++ [{| ex_filepath := path; ex_apply := apply; ex_materials := mats;
                      ex_cameras := cameras;
                      ex_selection := filter (fun o => ob_select o = true) (objects w) |}]) w).

(** *** [bpy.data.materials] *)

Fixpoint find_material (i : nat) (l : list Material) : option Material :=
  match l with
  | [] => None
  | m :: l' => if (mat_id m =? i)%nat then Some m else find_material i l'
  end.

(** [bpy.data.materials.get(name)] *)
Fixpoint materials_get (name : string) (l : list Material) : option Material :=
  match l with
  | [] => None
  | m :: l' => if String.eqb (mat_name m) name then Some m else materials_get name l'
  end.

Definition update_material (i : nat) (f : Material -> Material) (l : list Material)
  : list Material :=
  map (fun m => if (mat_id m =? i)%nat then f m else m) l.

Definition mat_get (i : nat) : M Material := fun w =>
  match find_material i (materials w) with
  | Some m => Ok (m, w)
  | None => Raise ReferenceError
  end.

Definition mat_set (i : nat) (f : Material -> Material) : M unit := fun w =>
  match find_material i (materials w) with
  | Some _ => Ok (tt, with_materials (update_material i f (materials w)) w)
  | None => Raise ReferenceError
  end.

(** [bpy.data.materials.new(name=name)] *)
Definition materials_new (name : string) : M nat := fun w =>
  let i := next_id w in
  Ok (i, with_next_id (S i)
           (with_materials
              (materials w ++ [{| mat_id := i; mat_name := name;
                                  use_nodes := false; node_tree := None |}]) w)).

(** [bpy.data.materials.remove(mat)]: the material leaves the store and
    the slots that still use it are emptied. *)
Definition materials_remove (i : nat) : M unit := fun w =>
  match find_material i (materials w) with
  | Some _ =>
      Ok (tt,
          with_objects
            (map (fun o => set_material_slots
                     (map (fun s => if bool_decide (s = Some i) then None else s)
                          (ob_material_slots o)) o)
                 (objects w))
            (with_materials (filter (fun m => mat_id m <> i) (materials w)) w))
  | None => Raise ReferenceError
  end.

(** *** Shader nodes *)

(** [nodes.new(type=idname)]: the node types the add-on creates, with the
    sockets it uses. *)
Definition new_node (idname : string) : result Node :=
  if String.eqb idname "ShaderNodeOutputMaterial" then
    Ok {| node_type := "OUTPUT_MATERIAL"; node_location := (0, 0)%Z;
          node_inputs := {[ "Surface" := SShader ]};
          node_outputs := [] |}
  else if String.eqb idname "ShaderNodeBsdfPrincipled" then
    Ok {| node_type := "BSDF_PRINCIPLED"; node_location := (0, 0)%Z;
          node_inputs :=
            <[ "Base Color" := SColor [dec 800; dec 800; dec 800; dec 1000] ]>
              (<[ "Metallic" := SFloat (dec 0) ]>
                 (<[ "Roughness" := SFloat (dec 500) ]> ∅));
          node_outputs := ["BSDF"] |}
  else Raise RuntimeError.

(** The tree a material gets when [use_nodes] is first switched on. *)
Definition default_node_tree : NodeTree :=
  {| nodes :=
       [ {| node_type := "BSDF_PRINCIPLED"; node_location := (10, 300)%Z;
            node_inputs :=
              <[ "Base Color" := SColor [dec 800; dec 800; dec 800; dec 1000] ]>
                (<[ "Metallic" := SFloat (dec 0) ]>
                   (<[ "Roughness" := SFloat (dec 500) ]> ∅));
            node_outputs := ["BSDF"] |};
         {| node_type := "OUTPUT_MATERIAL"; node_location := (300, 300)%Z;
            node_inputs := {[ "Surface" := SShader ]};
            node_outputs := [] |} ];
     links := [ {| from_node := 0; from_socket := "BSDF";
                   to_node := 1; to_socket := "Surface" |} ] |}.

(** [material.use_nodes = v] *)
Definition set_use_nodes (v : bool) (m : Material) : Material :=
  {| mat_id := mat_id m; mat_name := mat_name m; use_nodes := v;
     node_tree := match node_tree m with
                  | None => if v then Some default_node_tree else None
                  | t => t
                  end |}.

End bpy.
End bpy.

(** ** Module-level helpers of [__init__.py] *)
Section helpers.
Context `{PyFloat}.

Definition path_exists (p : Path) : M bool :=
  gets (fun w => pathlib.exists_ (fs w) p).

Definition path_mkdir (p : Path) : M unit := fun w =>
  match pathlib.mkdir p (fs w) with
  | Ok fs' => Ok (tt, with_fs fs' w)
  | Raise e => Raise e
  end.

(** [with open(p, "r") as f: json.load(f)] *)
Definition load_json (p : Path) : M JSON := fun w =>
  match pathlib.read_json (fs w) p with
  | Ok j => Ok (j, w)
  | Raise e => Raise e
  end.

(** [with open(p, "w") as f: json.dump(content, f)] *)
Definition dump_json (p : Path) (content : JSON) : M unit := fun w =>
  match pathlib.write_json p content (fs w) with
  | Ok fs' => Ok (tt, with_fs fs' w)
  | Raise e => Raise e
  end.

(** The argument is overwritten at once by [bpy.data.filepath]; [None] is
    the [False] the function returns for a missing file. *)
Definition get_export_folder (blend_path : Path) : M (option Path) :=
  blend_path ← gets filepath;
  ex ← path_exists blend_path;
  if negb ex then mret None
  else
    let blend_dir := pathlib.parent blend_path in
    let export_dir :=
      if String.eqb (pathlib.lower (pathlib.name blend_dir)) "blends"
      then pathlib.joinpath (pathlib.parent blend_dir) "models"
      else blend_dir in
    path_mkdir export_dir;;
    mret (Some export_dir).

(** [False / str] is a [TypeError]. *)
Definition get_export_path (blend_path : Path) : M Path :=
  folder ← get_export_folder blend_path;
  let stem := pathlib.stem blend_path in
  match folder with
  | Some folder => mret (pathlib.joinpath folder stem)
  | None => raise TypeError
  end.

Definition get_material_file_path : M Path :=
  blend_path ← gets filepath;
  mret (pathlib.joinpath
          (pathlib.joinpath
             (pathlib.joinpath (pathlib.parent (pathlib.parent blend_path)) "hammerstone")
             "shared")
          "blender_materials.json").

End helpers.

(** ** [class SAPIENS_OT_export_parts] *)
Module SAPIENS_OT_export_parts.
Section export_parts.
Context `{PyFloat}.

Definition get_model_name (mesh_name : string) : result string :=
  mesh_name ← (if Py.contains "." mesh_name
               then Py.item (Py.split "." mesh_name) 0
               else Ok mesh_name);
  mesh_name ← (if Py.contains "_" mesh_name
               then Py.item (Py.split "_" mesh_name) 0
               else Ok mesh_name);
  Ok mesh_name.

(** One turn of the loop over [bpy.data.objects]; the local variables the
    loop assigns are [exported_models] and [export_path], the latter
    unbound ([None]) until a mesh has been exported. *)
Definition export_one (export_root : Path)
    (locals : list string * option Path) (obj : nat)
  : M (list string * option Path) :=
  let '(exported_models, export_path) := locals in
  o ← bpy.obj_get obj;
  if negb (String.eqb (ob_type o) "MESH") then mret (exported_models, export_path)
  else
    model_name ← lift (get_model_name (ob_name o));
    if bool_decide (model_name ∈ exported_models) then mret (exported_models, export_path)
    else
      bpy.select_all_deselect;;
      cached_matrix ← (o ← bpy.obj_get obj; mret (matrix_world o));
      bpy.select_set obj true;;
      bpy.set_active (Some obj);;
      let exported_models := exported_models ++ [model_name] in
      bpy.obj_set obj (set_location (dec 0, dec 0, dec 0));;
      bpy.obj_set obj (set_rotation_euler (dec 0, dec 0, dec 0));;
      bpy.obj_set obj (set_scale (dec 1000, dec 1000, dec 1000));;
      let export_path := pathlib.joinpath export_root (model_name +:+ ".glb") in
      bpy.export_scene_gltf export_path true "EXPORT" false;;
      bpy.obj_set obj (set_matrix_world cached_matrix);;
      mret (exported_models, Some export_path).

Definition execute : M status :=
  blend_path ← gets filepath;
  ex ← path_exists blend_path;
  if negb ex then
    report "ERROR" [Lit "File must be saved before exporting."];;
    mret CANCELLED
  else
    export_root ← get_export_folder blend_path;
    match export_root with
    | None =>
        report "ERROR" [Lit "Failed to resolve export folder."];;
        mret CANCELLED
    | Some export_root =>
        path_mkdir export_root;;
        original_selection ← bpy.selected_objects;
        original_active ← bpy.get_active;
        objs ← bpy.data_objects;
        '(exported_models, export_path) ← foldM (export_one export_root) ([], None) objs;
        (* Restore previous selection *)
        bpy.select_all_deselect;;
        for_ original_selection (fun obj => bpy.select_set obj true);;
        bpy.set_active original_active;;
        match export_path with
        | None => raise UnboundLocalError
        | Some export_path =>
            report "INFO" [Lit "Exported "; FList exported_models; Lit " to '";
                           FPath export_path; Lit "'"];;
            mret FINISHED
        end
    end.

End export_parts.
End SAPIENS_OT_export_parts.

(** ** Python dictionaries and JSON values *)
Module Json.
Section json.
Context `{PyFloat}.

(** [v[key]] *)
Definition subscript (v : JSON) (key : string) : result JSON :=
  match v with
  | JObj d => match d !! key with
              | Some x => Ok x
              | None => Raise KeyError
              end
  | _ => Raise TypeError
  end.

(** [v[key] = x] *)
Definition set_item (v : JSON) (key : string) (x : JSON) : result JSON :=
  match v with
  | JObj d => Ok (JObj (<[key := x]> d))
  | _ => Raise TypeError
  end.

(** [v.get(key, default)] *)
Definition get (v : JSON) (key : string) (default : JSON) : result JSON :=
  match v with
  | JObj d => Ok (match d !! key with
                  | Some x => x
                  | None => default
                  end)
  | _ => Raise AttributeError
  end.

(** The elements a [for] loop (or a [*] unpacking) takes from [v]. *)
Definition iterate (v : JSON) : result (list JSON) :=
  match v with
  | JArr l => Ok l
  | JStr s => Ok (map (fun a => JStr (String a EmptyString)) (list_ascii_of_string s))
  | JObj d => Ok (map (fun kv => JStr kv.1) (map_to_list d))
  | _ => Raise TypeError
  end.

Definition as_str (v : JSON) : result string :=
  match v with
  | JStr s => Ok s
  | _ => Raise TypeError
  end.

Definition as_float (v : JSON) : result float :=
  match v with
  | JNum x => Ok x
  | _ => Raise TypeError
  end.

Fixpoint as_floats (l : list JSON) : result (list float) :=
  match l with
  | [] => Ok []
  | v :: l' => x ← as_float v; xs ← as_floats l'; Ok (x :: xs)
  end.

(** An insertion-ordered [dict] with string keys: [d[k] = v] keeps the
    place of a key that is already present and appends a new one. *)
Fixpoint dict_set {V} (k : string) (v : V) (d : list (string * V)) : list (string * V) :=
  match d with
  | [] => [(k, v)]
  | (k', v') :: d' =>
      if String.eqb k' k then (k, v) :: d' else (k', v') :: dict_set k v d'
  end.

Fixpoint dict_lookup {V} (k : string) (d : list (string * V)) : option V :=
  match d with
  | [] => None
  | (k', v') :: d' => if String.eqb k' k then Some v' else dict_lookup k d'
  end.

End json.
End Json.

(** ** [class MaterialFile] *)
Module MaterialFile.
Section material_file.
Context `{PyFloat}.

(** The instance attributes [self.filepath] and [self.index]. *)
Record t := {
  mf_filepath : Path;
  index : list (string * JSON)
}.

(** One turn of the loop of [build_index].  The keys of the index are the
    identifiers of the file and the names of materials; an identifier that
    is not a string is outside the model and raises. *)
Definition index_step (r : result (list (string * JSON))) (material : JSON)
  : result (list (string * JSON)) :=
  index ← r;
  ident ← Json.subscript material "identifier";
  key ← Json.as_str ident;
  Ok (Json.dict_set key material index).

Definition build_index : M (list (string * JSON)) :=
  path ← get_material_file_path;
  data ← load_json path;
  defs ← lift (Json.subscript data "hammerstone:global_definitions");
  mats ← lift (Json.subscript defs "hs_materials");
  items ← lift (Json.iterate mats);
  lift (foldl index_step (Ok []) items).

Definition get_default_data : JSON :=
  JObj {[ "hammerstone:global_definitions" := JObj {[ "hs_materials" := JArr [] ]} ]}.

Definition ensure_file_exists (filepath : Path) : M unit :=
  ex ← path_exists filepath;
  if (ex : bool) then mret tt
  else
    path_mkdir (pathlib.parent filepath);;
    dump_json filepath get_default_data.

(** [MaterialFile(filepath)] *)
Definition init (filepath : Path) : M t :=
  ensure_file_exists filepath;;
  index ← build_index;
  mret {| mf_filepath := filepath; index := index |}.

Definition get_default_path : M Path :=
  blend_path ← gets filepath;
  mret (pathlib.joinpath
          (pathlib.joinpath
             (pathlib.joinpath (pathlib.parent (pathlib.parent blend_path)) "hammerstone")
             "shared")
          "blender_materials.json").

Definition open : M t :=
  path ← get_default_path;
  init path.

Definition get_materials (self : t) : list JSON :=
  map snd (index self).

Definition save (self : t) : M unit :=
  let data := get_default_data in
  defs ← lift (Json.subscript data "hammerstone:global_definitions");
  defs ← lift (Json.set_item defs "hs_materials" (JArr (get_materials self)));
  data ← lift (Json.set_item data "hammerstone:global_definitions" defs);
  dump_json (mf_filepath self) data.

(** The first node of type ['BSDF_PRINCIPLED'], if any. *)
Fixpoint first_principled (l : list Node) : option Node :=
  match l with
  | [] => None
  | node :: l' =>
      if String.eqb (node_type node) "BSDF_PRINCIPLED" then Some node
      else first_principled l'
  end.

(** [node.inputs[name].default_value] *)
Definition input_value (node : Node) (name : string) : result socket_value :=
  match node_inputs node !! name with
  | Some v => Ok v
  | None => Raise KeyError
  end.

Definition mat_data (identifier : string) (color : list float) (metal roughness : float)
  : gmap string JSON :=
  <[ "identifier" := JStr identifier ]>
    (<[ "color" := JArr (map JNum color) ]>
       (<[ "metal" := JNum metal ]>
          (<[ "roughness" := JNum roughness ]> ∅))).

(** [None] is a possible argument: the guard lets it through and the
    message of the [print] then fails on [material.name]. *)
Definition material_to_json (material : option Material) : result JSON :=
  bsdf ← match material with
         | Some m =>
             if use_nodes m then
               match node_tree m with
               | Some tree => Ok (first_principled (nodes tree))
               | None => Raise AttributeError
               end
             else Ok None
         | None => Ok None
         end;
  match bsdf, material with
  | None, None => Raise AttributeError
  | None, Some _ => Ok JNull
  | Some _, None => Raise AttributeError
  | Some bsdf, Some m =>
      (* Extract values *)
      color ← (v ← input_value bsdf "Base Color";
               match v with
               | SColor c => Ok (take 3 c)     (* RGB only *)
               | _ => Raise TypeError
               end);
      metal ← (v ← input_value bsdf "Metallic";
               match v with
               | SFloat x => Ok x
               | _ => Raise TypeError
               end);
      roughness ← (v ← input_value bsdf "Roughness";
                   match v with
                   | SFloat x => Ok x
                   | _ => Raise TypeError
                   end);
      (* Format data *)
      Ok (JObj (mat_data (mat_name m) (map round3 color) (round3 metal) (round3 roughness)))
  end.

(** [material] is the material as it is at the call. *)
Definition write_material (self : t) (material : Material) : result t :=
  j ← material_to_json (Some material);
  Ok {| mf_filepath := mf_filepath self;
        index := Json.dict_set (mat_name material) j (index self) |}.

(** [nodes.new(type=idname)]: the new node goes last; its index is returned. *)
Definition nodes_new (idname : string) (tree : NodeTree) : result (nat * NodeTree) :=
  node ← bpy.new_node idname;
  Ok (length (nodes tree), {| nodes := nodes tree ++ [node]; links := links tree |}).

Definition update_node (i : nat) (f : Node -> result Node) (tree : NodeTree)
  : result NodeTree :=
  match nodes tree !! i with
  | Some node =>
      node' ← f node;
      Ok {| nodes := <[i := node']> (nodes tree); links := links tree |}
  | None => Raise ReferenceError
  end.

(** [node.inputs[name].default_value = v] *)
Definition set_input (name : string) (v : socket_value) (node : Node) : result Node :=
  match node_inputs node !! name with
  | Some _ => Ok (set_node_inputs (<[name := v]> (node_inputs node)) node)
  | None => Raise KeyError
  end.

(** [links.new(a.outputs[out], b.inputs[inp])] *)
Definition links_new (a : nat) (out : string) (b : nat) (inp : string) (tree : NodeTree)
  : result NodeTree :=
  match nodes tree !! a, nodes tree !! b with
  | Some na, Some nb =>
      if bool_decide (out ∈ node_outputs na) then
        match node_inputs nb !! inp with
        | Some _ =>
            Ok {| nodes := nodes tree;
                  links := links tree ++ [{| from_node := a; from_socket := out;
                                             to_node := b; to_socket := inp |}] |}
        | None => Raise KeyError
        end
      else Raise KeyError
  | _, _ => Raise ReferenceError
  end.

(** The work of [json_to_material] on the node tree of the material. *)
Definition rebuild_tree (color : JSON) (metal roughness : JSON) (tree : NodeTree)
  : result NodeTree :=
  (* Clear existing nodes *)
  let tree := {| nodes := []; links := [] |} in
  (* Create necessary nodes *)
  '(output_node, tree) ← nodes_new "ShaderNodeOutputMaterial" tree;
  tree ← update_node output_node (fun n => Ok (set_node_location (300, 0)%Z n)) tree;
  '(bsdf_node, tree) ← nodes_new "ShaderNodeBsdfPrincipled" tree;
  tree ← update_node bsdf_node (fun n => Ok (set_node_location (0, 0)%Z n)) tree;
  (* Set values *)
  rgba ← (items ← Json.iterate color;
          rgb ← Json.as_floats items;
          Ok (rgb ++ [dec 1000]));          (* RGBA *)
  tree ← update_node bsdf_node (set_input "Base Color" (SColor rgba)) tree;
  metal ← Json.as_float metal;
  tree ← update_node bsdf_node (set_input "Metallic" (SFloat metal)) tree;
  roughness ← Json.as_float roughness;
  tree ← update_node bsdf_node (set_input "Roughness" (SFloat roughness)) tree;
  (* Link BSDF to Output *)
  links_new bsdf_node "BSDF" output_node "Surface" tree.

Definition json_to_material (data : JSON) : M nat :=
  name ← lift (Json.get data "identifier" (JStr "Material"));
  color ← lift (Json.get data "color" (JArr [JNum (dec 1000); JNum (dec 1000); JNum (dec 1000)]));
  metal ← lift (Json.get data "metal" (JNum (dec 0)));
  roughness ← lift (Json.get data "roughness" (JNum (dec 500)));
  (* Get or create the material *)
  name ← lift (Json.as_str name);
  found ← gets (fun w => bpy.materials_get name (materials w));
  material ← match found with
             | Some m => mret (mat_id m)
             | None =>
                 material ← bpy.materials_new name;
                 bpy.mat_set material (bpy.set_use_nodes true);;
                 mret material
             end;
  (* Get the node tree *)
  m ← bpy.mat_get material;
  tree ← lift (match node_tree m with
               | Some tree => Ok tree
               | None => Raise AttributeError
               end);
  tree ← lift (rebuild_tree color metal roughness tree);
  bpy.mat_set material (set_node_tree (Some tree));;
  mret material.


(** A sequence of [write_material] calls. *)
Fixpoint write_materials (self : t) (l : list Material) : result t :=
  match l with
  | [] => Ok self
  | material :: l' => self ← write_material self material; write_materials self l'
  end.

End material_file.
End MaterialFile.

(** ** Notions the properties are stated with *)
Section measures.
Context `{PyFloat}.






Definition not_principled (x : Node) : Prop := node_type x <> "BSDF_PRINCIPLED".

(** The identifier of a material record. *)
Definition identifier_of (v : JSON) : option string :=
  match v with
  | JObj d => match d !! "identifier" with
              | Some (JStr s) => Some s
              | _ => None
              end
  | _ => None
  end.

(** The records of the array [arr] whose identifier is [n]. *)
Definition records_named (n : string) (arr : list JSON) : list JSON :=
  filter (fun v => identifier_of v = Some n) arr.

(** The last material named [n] in a sequence of writes. *)
Definition last_write (n : string) (l : list Material) : option Material :=
  last (filter (fun m => mat_name m = n) l).

(** What [save] writes: the default data with [arr] for ["hs_materials"]. *)
Definition materials_file (arr : list JSON) : JSON :=
  JObj {[ "hammerstone:global_definitions" := JObj {[ "hs_materials" := JArr arr ]} ]}.

(** The value a program returns, without the state. *)
Definition value {A} (r : result (A * World)) : result A :=
  match r with
  | Ok (a, _) => Ok a
  | Raise e => Raise e
  end.

End measures.

(** ** [class SAPIENS_OT_import_materials], [class SAPIENS_OT_export_materials] *)
Module SAPIENS_OT_import_materials.
Section import_materials.
Context `{PyFloat}.

Definition execute : M status :=
  material_file ← MaterialFile.open;
  for_ (MaterialFile.get_materials material_file)
       (fun material => MaterialFile.json_to_material material;; mret tt);;
  mret FINISHED.

End import_materials.
End SAPIENS_OT_import_materials.

Module SAPIENS_OT_export_materials.
Section export_materials.
Context `{PyFloat}.

Definition execute : M status :=
  material_file ← MaterialFile.open;
  mats ← gets (fun w => map mat_id (materials w));
  material_file ← foldM (fun material_file material =>
                           m ← bpy.mat_get material;
                           lift (MaterialFile.write_material material_file m))
                        material_file mats;
  MaterialFile.save material_file;;
  mret FINISHED.

End export_materials.
End SAPIENS_OT_export_materials.

(** ** [class SAPIENS_OT_remove_duplicate_materials] *)
Module SAPIENS_OT_remove_duplicate_materials.
Section remove_duplicate_materials.
Context `{PyFloat}.

Definition is_digit (a : ascii) : bool :=
  let n := nat_of_ascii a in (48 <=? n)%nat && (n <=? 57)%nat.

Definition newline : ascii := ascii_of_nat 10.

(** [s] is [base + "." + three digits] and [base] has no line break:
    the [base], which is [match.group(1)]. *)
Definition match_core (s : list ascii) : option string :=
  let n := length s in
  if (n <? 4)%nat then None
  else
    let base := take (n - 4) s in
    match drop (n - 4) s with
    | [dot; d1; d2; d3] =>
        if Ascii.eqb dot "." && is_digit d1 && is_digit d2 && is_digit d3
           && forallb (fun a => negb (Ascii.eqb a newline)) base
        then Some (string_of_list_ascii base)
        else None
    | _ => None
    end.

(** [suffix_pattern.match(name)], as the first group of the match.  The
    pattern is any text without a line break, a dot, three digits and the
    end of the name, which is also found before a line break that ends the
    name.  The digits are the ASCII ones. *)
Definition suffix_pattern (name : string) : option string :=
  let s := list_ascii_of_string name in
  match match_core s with
  | Some base => Some base
  | None =>
      match List.last s "."%char, s with
      | _, [] => None
      | c, _ => if Ascii.eqb c newline then match_core (removelast s) else None
      end
  end.

(** The inner loops: in every mesh, the slots that use [mat] get [base_mat]. *)
Definition replace_users (mat base_mat : nat) : M unit :=
  objs ← bpy.data_objects;
  for_ objs (fun obj =>
    o ← bpy.obj_get obj;
    if String.eqb (ob_type o) "MESH" then
      bpy.obj_set obj
        (fun o => set_material_slots
                    (map (fun slot => if bool_decide (slot = Some mat)
                                      then Some base_mat else slot)
                         (ob_material_slots o)) o)
    else mret tt).

Definition mat_name_of (mat : nat) : M string :=
  m ← bpy.mat_get mat; mret (mat_name m).

(** One turn of the loop over [list(bpy.data.materials)]. *)
Definition process (renamed_materials : gmap string string) (mat : nat)
  : M (gmap string string) :=
  name ← mat_name_of mat;
  match suffix_pattern name with
  | Some base_name =>
      base_mat ← gets (fun w => bpy.materials_get base_name (materials w));
      match base_mat with
      | Some base_mat =>
          (* Replace users of the duplicate material *)
          replace_users mat (mat_id base_mat);;
          name ← mat_name_of mat;
          let renamed_materials :=
            <[name := "Replaced with '" +:+ base_name +:+ "' and removed"]>
              renamed_materials in
          (* Remove the duplicate material *)
          bpy.materials_remove mat;;
          mret renamed_materials
      | None =>
          again ← gets (fun w => bpy.materials_get base_name (materials w));
          match again with
          | None =>
              bpy.mat_set mat (set_mat_name base_name);;
              name ← mat_name_of mat;
              mret (<[name := "Renamed (no original existed)"]> renamed_materials)
          | Some _ =>
              name ← mat_name_of mat;
              mret (<[name := "Name conflict; not renamed"]> renamed_materials)
          end
      end
  | None => mret renamed_materials
  end.

Definition execute : M status :=
  mats ← gets (fun w => map mat_id (materials w));
  renamed_materials ← foldM process ∅ mats;
  report "INFO" [Lit "Processed "; FNat (size renamed_materials); Lit " materials."];;
  mret FINISHED.

End remove_duplicate_materials.
End SAPIENS_OT_remove_duplicate_materials.

(** ** [class SAPIENS_OT_export_empties] *)
Module SAPIENS_OT_export_empties.
Section export_empties.
Context `{PyFloat}.

Definition get_empty_name (mesh_name : string) (model_counts : gmap string nat)
  : result (string * gmap string nat) :=
  mesh_name ← (if Py.contains "." mesh_name
               then Py.item (Py.split "." mesh_name) 0
               else Ok mesh_name);
  mesh_name ← (if Py.contains "_" mesh_name
               then Py.item (Py.split "_" mesh_name) 1
               else Ok mesh_name);
  let index := (default 0 (model_counts !! mesh_name) + 1)%nat in
  let model_counts := <[mesh_name := index]> model_counts in
  Ok (mesh_name +:+ "_" +:+ pretty index, model_counts).

(** One turn of the first loop; the local variables are [replacements],
    [new_empties] and [counts]. *)
Definition replace_one
    (locals : list (nat * nat * string) * list nat * gmap string nat) (obj : nat)
  : M (list (nat * nat * string) * list nat * gmap string nat) :=
  let '(replacements, new_empties, counts) := locals in
  o ← bpy.obj_get obj;
  if String.eqb (ob_type o) "MESH" then
    let original_name := ob_name o in
    let renamed_name := original_name +:+ "_original" in
    bpy.obj_set obj (set_name renamed_name);;
    '(empty_name, counts) ← lift (get_empty_name original_name counts);
    empty ← bpy.objects_new empty_name;
    bpy.obj_set empty (set_empty_display_type "PLAIN_AXES");;
    bpy.obj_set empty (set_empty_display_size (dec 500));;
    o ← bpy.obj_get obj;
    bpy.obj_set empty (set_matrix_world (matrix_world o));;
    bpy.obj_set empty (set_parent (ob_parent o));;
    bpy.obj_set empty (set_hide_viewport (ob_hide_viewport o));;
    bpy.obj_set empty (set_hide_render (ob_hide_render o));;
    cols ← bpy.users_collection obj;
    for_ cols (fun collection => bpy.collection_link collection empty);;
    mret (replacements ++ [(obj, empty, original_name)], new_empties ++ [empty], counts)
  else mret (replacements, new_empties, counts).

(** One turn of the loop that restores the scene. *)
Definition restore_one (r : nat * nat * string) : M unit :=
  let '(mesh_obj, empty, original_name) := r in
  (* Remove the empty *)
  cols ← bpy.users_collection empty;
  for_ cols (fun collection => bpy.collection_unlink collection empty);;
  bpy.objects_remove empty;;
  (* Rename mesh back *)
  bpy.obj_set mesh_obj (set_name original_name).

(** A [Path] is never falsy, so the [return {'CANCELLED'}] that follows
    [get_export_path] is not taken. *)
Definition execute : M status :=
  blend_path ← gets filepath;
  export_path ← get_export_path blend_path;
  (* Replace all mesh objects with empties *)
  objs ← bpy.data_objects;
  '(replacements, new_empties, counts) ← foldM replace_one ([], [], ∅) objs;
  (* Deselect all *)
  bpy.select_all_deselect;;
  (* Select only empties (new and existing) and cameras *)
  objs ← bpy.data_objects;
  for_ objs (fun obj =>
    o ← bpy.obj_get obj;
    if String.eqb (ob_type o) "EMPTY" || String.eqb (ob_type o) "CAMERA"
    then bpy.select_set obj true
    else mret tt);;
  bpy.set_active (head new_empties);;
  bpy.export_scene_gltf export_path true "PLACEHOLDER" true;;
  (* Restore scene *)
  for_ replacements restore_one;;
  report "INFO" [Lit "Exported to "; FPath export_path];;
  mret FINISHED.

End export_empties.
End SAPIENS_OT_export_empties.

(** ** The operators of the panel that work on the scene as it is *)

(** [sub in s] for two strings, by way of [s.startswith(sub)]. *)
Fixpoint startswith (sub s : string) : bool :=
  match sub, s with
  | EmptyString, _ => true
  | String a sub', String b s' => Ascii.eqb a b && startswith sub' s'
  | String _ _, EmptyString => false
  end.

Fixpoint str_in (sub s : string) : bool :=
  startswith sub s ||
  match s with
  | EmptyString => false
  | String _ s' => str_in sub s'
  end.

(** [bool(p)] for a [pathlib.Path]: the class defines neither [__bool__]
    nor [__len__], so every path is true. *)
Definition path_bool (p : Path) : bool := true.

(** The [context] an operator is run in, as far as the operators read it. *)
Record bContext := {
  ctx_collection : nat;             (* context.collection, by index *)
  ctx_scene_objects : list nat      (* context.scene.objects *)
}.

(** ** [class SAPIENS_OT_add_buildables] *)
Module SAPIENS_OT_add_buildables.
Section add_buildables.
Context `{PyFloat}.

(** [bpy.context] is the context the operator is run in. *)
Definition execute (context : bContext) : M status :=
  bounding_radius ← bpy.objects_new "bounding_radius";
  bpy.obj_set bounding_radius (set_empty_display_type "SPHERE");;
  bpy.collection_link (ctx_collection context) bounding_radius;;

  attach_box ← bpy.objects_new "placeAttach_box_1";
  bpy.obj_set attach_box (set_empty_display_type "CUBE");;
  bpy.collection_link (ctx_collection context) attach_box;;

  static_box ← bpy.objects_new "static_box";
  bpy.obj_set static_box (set_empty_display_type "CUBE");;
  bpy.collection_link (ctx_collection context) static_box;;

  report "INFO" [Lit "Done."];;
  mret FINISHED.

End add_buildables.
End SAPIENS_OT_add_buildables.

(** ** [class SAPIENS_OT_export] *)
Module SAPIENS_OT_export.
Section export.
Context `{PyFloat}.

Definition execute : M status :=
  blend_path ← gets filepath;
  export_path ← get_export_path blend_path;
  if negb (path_bool export_path) then mret CANCELLED
  else
    bpy.export_scene_gltf export_path false "EXPORT" false;;
    report "INFO" [Lit "Exported to "; FPath export_path];;
    mret FINISHED.

End export.
End SAPIENS_OT_export.

(** ** [class SAPIENS_OT_scale_empties] *)
Module SAPIENS_OT_scale_empties.
Section scale_empties.
Context `{PyFloat}.

Definition execute (context : bContext) : M status :=
  for_ (ctx_scene_objects context) (fun obj =>
    o ← bpy.obj_get obj;
    if String.eqb (ob_type o) "EMPTY"
    then bpy.obj_set obj (set_empty_display_size (dec 1000))
    else mret tt);;
  mret FINISHED.

End scale_empties.
End SAPIENS_OT_scale_empties.

(** ** [class SAPIENS_OT_set_empty_types] *)
Module SAPIENS_OT_set_empty_types.
Section set_empty_types.
Context `{PyFloat}.

Definition get_empty_type (obj : Object) : string :=
  let name := pathlib.lower (ob_name obj) in
  if str_in "box" name || str_in "cube" name then "CUBE"
  else if str_in "sphere" name || str_in "seat" name || str_in "radius" name then "SPHERE"
  else if str_in "store" name then "PLAIN_AXES"
  else ob_empty_display_type obj.

Definition execute (context : bContext) : M status :=
  for_ (ctx_scene_objects context) (fun obj =>
    o ← bpy.obj_get obj;
    if String.eqb (ob_type o) "EMPTY" then
      empty_type ← (o ← bpy.obj_get obj; mret (get_empty_type o));
      bpy.obj_set obj (set_empty_display_type empty_type)
    else mret tt);;
  mret FINISHED.

End set_empty_types.
End SAPIENS_OT_set_empty_types.

(** ** The scene as [export_empties] will restore it

    A replacement [(mesh, empty, name)] records that the object [mesh] is to
    get back the name [name] and the object [empty] is to be removed. *)
Section restoring.
Context `{PyFloat}.

Definition rep_mesh (r : nat * nat * string) : nat := r.1.1.
Definition rep_name (r : nat * nat * string) : string := r.2.

(** The name the first replacement of the object [i] records. *)
Fixpoint original_name (R : list (nat * nat * string)) (i : nat) : option string :=
  match R with
  | [] => None
  | r :: R' => if (rep_mesh r =? i)%nat then Some (rep_name r) else original_name R' i
  end.




(** The store is well formed: identities are distinct and below the next
    one. *)
Definition fresh_store (w : World) : Prop :=
  NoDup (map ob_id (objects w))
  /\ Forall (fun o => (ob_id o < next_id w)%nat) (objects w)
  /\ Forall (Forall (fun j => (j < next_id w)%nat)) (collections w).


End restoring.

(** ** The index of a material file *)
Section index.
Context `{PyFloat}.

(** Every key occurs once and keeps a record of that identifier, or [None]. *)
Definition keyed (d : list (string * JSON)) : Prop :=
  NoDup (map fst d)
  /\ Forall (fun kv => kv.2 = JNull \/ identifier_of kv.2 = Some kv.1) d.

End index.

(** ** What [remove_duplicate_materials] makes of the data *)
Section duplicates.
Context `{PyFloat}.



End duplicates.

(** ** Notions for the operators on the scene *)
Section scene.
Context `{PyFloat}.

(** [sub] occurs in [s]. *)
Definition occurs (sub s : string) : Prop :=
  exists pre post, s = pre +:+ sub +:+ post.

(** The empties of the scene of [context]: what the loops of
    [scale_empties] and [set_empty_types] assign to. *)
Definition scene_empty (context : bContext) (o : Object) : bool :=
  bool_decide (ob_id o ∈ ctx_scene_objects context) && String.eqb (ob_type o) "EMPTY".

(** The context fits the data: its scene lists objects of the store, each
    once, and the objects of the store have distinct identities. *)
Definition scene_of (context : bContext) (w : World) : Prop :=
  NoDup (ctx_scene_objects context)
  /\ Forall (fun i => i ∈ map ob_id (objects w)) (ctx_scene_objects context)
  /\ NoDup (map ob_id (objects w)).

(** The world once an empty named [name] has been made, given the display
    type [display] and linked to the collection [c]. *)
Definition with_empty (name display : string) (c : nat) (w : World) : World :=
  with_collections
    (alter (fun l => l ++ [next_id w]) c (collections w))
    (with_next_id (S (next_id w))
       (with_objects
          (objects w ++ [set_empty_display_type display (bpy.new_empty (next_id w) name)]) w)).

End scene.

(** ** Notions for Export Parts *)
Section parts.
Context `{PyFloat}.

(** The model an object is a part of: its name up to the first separator. *)
Definition model_of (o : Object) : string := before_first is_separator (ob_name o).

(** The meshes of [l] that are the first of their model, [models] being the
    models met before [l]. *)
Fixpoint first_of_model (models : list string) (l : list Object) : list Object :=
  match l with
  | [] => []
  | o :: l' =>
      if String.eqb (ob_type o) "MESH" && negb (bool_decide (model_of o ∈ models))
      then o :: first_of_model (models ++ [model_of o]) l'
      else first_of_model models l'
  end.

(** An object selected and without a transform of its own: at the origin,
    not rotated, not scaled. *)
Definition at_origin (o : Object) : Object :=
  set_scale (dec 1000, dec 1000, dec 1000)
    (set_rotation_euler (dec 0, dec 0, dec 0)
       (set_location (dec 0, dec 0, dec 0) (set_select true o))).

(** The call of the exporter for the part [o]: the file of its model, and
    [o] alone selected. *)
Definition part_export (export_root : Path) (o : Object) : Export :=
  {| ex_filepath := export_root ++ [model_of o +:+ ".glb"];
     ex_apply := true; ex_materials := "EXPORT"; ex_cameras := false;
     ex_selection := [at_origin o] |}.

End parts.

(** ** Notions for the names of parts *)

(** What follows the first character of [s] that satisfies [stop]; nothing
    if there is none. *)
Fixpoint after_first (stop : ascii -> bool) (s : string) : string :=
  match s with
  | EmptyString => EmptyString
  | String a s' => if stop a then s' else after_first stop s'
  end.

(** The part of a mesh name an empty is named after: of the name up to its
    first ["."], what lies between the first and the second ["_"], or all of
    it if it has no ["_"]. *)
Definition part_of (mesh_name : string) : string :=
  let stem := before_first (fun a => Ascii.eqb a ".") mesh_name in
  if Py.contains "_" stem
  then before_first (fun a => Ascii.eqb a "_") (after_first (fun a => Ascii.eqb a "_") stem)
  else stem.

(** The count [counts] holds for [key], as [counts.get(key, 0)]. *)
Definition count_of (counts : gmap string nat) (key : string) : nat :=
  default 0 (counts !! key).

(** ** Notions for Export Empties *)
Section empties_export.
Context `{PyFloat}.


End empties_export.

(** ** Notions for the material file *)
Section material_file_path.
Context `{PyFloat}.

(** The path of the material file of the project of the blend file. *)
Definition materials_path (w : World) : Path :=
  pathlib.joinpath
    (pathlib.joinpath
       (pathlib.joinpath (pathlib.parent (pathlib.parent (filepath w))) "hammerstone")
       "shared")
    "blender_materials.json".

(** A record of a material file: a dictionary with an identifier. *)
Definition is_record (v : JSON) : Prop := exists n, identifier_of v = Some n.

End material_file_path.

(** ** Notions for what an operator leaves alone *)
Section frames.
Context `{PyFloat}.

(** [w'] is [w] but for the materials (and the identities that have been
    handed out). *)
Definition same_but_materials (w w' : World) : Prop :=
  w' = with_next_id (next_id w') (with_materials (materials w') w).

End frames.

(** ** Notions for reading a material record *)
Section records.
Context `{PyFloat}.

(** The record of the default values of [json_to_material]. *)
Definition default_record : gmap string JSON :=
  MaterialFile.mat_data "Material" [dec 1000; dec 1000; dec 1000] (dec 0) (dec 500).


End records.

(** ** The scene Export Empties exports *)
Section stand_ins.
Context `{PyFloat}.





End stand_ins.

(** ** A concrete float for running the model

    A number is held in millionths; [round3] rounds to a multiple of a
    thousandth, ties to the even one. *)
Definition round3_micro (x : Z) : Z :=
  let q := (x / 1000)%Z in
  let r := (x mod 1000)%Z in
  if (r <? 500)%Z then (1000 * q)%Z
  else if (500 <? r)%Z then (1000 * (q + 1))%Z
  else if Z.even q then (1000 * q)%Z else (1000 * (q + 1))%Z.

Definition micro : PyFloat :=
  {| float := Z; round3 := round3_micro; dec := fun n => (1000 * n)%Z |}.

(** ** Sample data *)
Section samples.
#[local] Existing Instance micro.

Definition sample_record : gmap string JSON :=
  MaterialFile.mat_data "bone" [812000; 400000; 125000]%Z 0%Z 500000%Z.

Definition sample_bsdf (r g b a metal roughness : Z) : Node :=
  {| node_type := "BSDF_PRINCIPLED"; node_location := (0, 0)%Z;
     node_inputs := <[ "Base Color" := SColor [r; g; b; a] ]>
                      (<[ "Metallic" := SFloat metal ]>
                         (<[ "Roughness" := SFloat roughness ]> ∅));
     node_outputs := ["BSDF"] |}.

Definition sample_output : Node :=
  {| node_type := "OUTPUT_MATERIAL"; node_location := (300, 0)%Z;
     node_inputs := {[ "Surface" := SShader ]}; node_outputs := [] |}.

Definition sample_material (i : nat) (name : string) (nodes_on : bool) (l : list Node)
  : Material :=
  {| mat_id := i; mat_name := name; use_nodes := nodes_on;
     node_tree := Some {| nodes := l; links := [] |} |}.

Definition empty_world : World :=
  {| filepath := ["project"; "blends"; "chair.blend"];
     fs := <[ ["project"; "blends"; "chair.blend"] := File JNull ]>
             (<[ ["project"; "blends"] := Dir ]> {[ ["project"] := Dir ]});
     objects := []; materials := []; collections := [[]];
     active := None; next_id := 0; reports := []; exports := [] |}.

Definition sample_object (i : nat) (name type : string) (selected : bool)
    (location : vec3) (slots : list (option nat)) : Object :=
  {| ob_id := i; ob_name := name; ob_type := type; ob_select := selected;
     ob_location := location; ob_rotation_euler := (0, 0, 0)%Z;
     ob_scale := (1000000, 1000000, 1000000)%Z;
     ob_parent := None; ob_hide_viewport := false; ob_hide_render := false;
     ob_empty_display_type := "PLAIN_AXES"; ob_empty_display_size := 1000000%Z;
     ob_material_slots := slots |}.

(** A saved file with three meshes (two of one model) and a camera. *)
Definition sample_scene : World :=
  {| filepath := ["project"; "blends"; "chair.blend"];
     fs := <[ ["project"; "blends"; "chair.blend"] := File JNull ]>
             (<[ ["project"; "blends"] := Dir ]> {[ ["project"] := Dir ]});
     objects := [ sample_object 0 "chair_seat.001" "MESH" true (5000, 6000, 7000)%Z [];
                  sample_object 1 "icon_camera" "CAMERA" false (0, 0, 0)%Z [];
                  sample_object 2 "chair_leg" "MESH" false (0, 0, 0)%Z [];
                  sample_object 3 "table" "MESH" true (1000, 1000, 1000)%Z [] ];
     materials := [];
     collections := [[0; 1; 2; 3]; [0; 3]];
     active := Some 3; next_id := 4; reports := []; exports := [] |}.

(** Three writes, two of them under one name. *)
Definition sample_writes : list Material :=
  [ sample_material 0 "bone" true [sample_bsdf 812345 400000 125000 1000000 0 500000];
    {| mat_id := 1; mat_name := "wood"; use_nodes := false; node_tree := None |};
    sample_material 2 "bone" true
      [sample_output; sample_bsdf 100000 200000 300000 1000000 1000000 250000] ].


End samples.

(** ** Sample scenes for the operators on empties *)
Section more_samples.
#[local] Existing Instance micro.

Definition sample_empty (i : nat) (name display : string) (size : Z) : Object :=
  {| ob_id := i; ob_name := name; ob_type := "EMPTY"; ob_select := false;
     ob_location := (0, 0, 0)%Z; ob_rotation_euler := (0, 0, 0)%Z;
     ob_scale := (1000000, 1000000, 1000000)%Z;
     ob_parent := None; ob_hide_viewport := false; ob_hide_render := false;
     ob_empty_display_type := display; ob_empty_display_size := size;
     ob_material_slots := [] |}.

(** Empties named after what they stand for, a mesh, and an empty that is
    not in the scene. *)
Definition empties_scene : World :=
  {| filepath := ["project"; "blends"; "chair.blend"];
     fs := ∅;
     objects := [ sample_empty 0 "static_Box" "PLAIN_AXES" 250000;
                  sample_empty 1 "Seat_sphere_box" "ARROWS" 500000;
                  sample_object 2 "box" "MESH" false (0, 0, 0)%Z [];
                  sample_empty 3 "resource_store" "CUBE" 1000000;
                  sample_empty 4 "handle" "CONE" 2000000;
                  sample_empty 5 "bounding_radius" "PLAIN_AXES" 750000 ];
     materials := [];
     collections := [[0; 1; 2; 3; 4]; [5]];
     active := None; next_id := 6; reports := []; exports := [] |}.

Definition empties_context : bContext :=
  {| ctx_collection := 0; ctx_scene_objects := [4; 0; 1; 2; 3] |}.

(** A saved file with a camera and an empty, and no mesh. *)
Definition no_mesh_scene : World :=
  with_objects [ sample_object 1 "icon_camera" "CAMERA" true (0, 0, 0)%Z [];
                 sample_empty 2 "static_box" "CUBE" 1000000 ]
    sample_scene.

(** The sample project with its material file in place, holding the
    sample record. *)
Definition project_with_materials : World :=
  with_fs
    (<[ ["project"; "hammerstone"; "shared"; "blender_materials.json"]
        := File (materials_file [JObj sample_record]) ]>
       (<[ ["project"; "hammerstone"; "shared"] := Dir ]>
          (<[ ["project"; "hammerstone"] := Dir ]> (fs empty_world))))
    empty_world.

(** The same project with two materials in the blend file, one of them
    without nodes. *)
Definition project_with_two_materials : World :=
  with_materials
    [ sample_material 0 "bone" true [sample_bsdf 812345 400000 125000 1000000 0 500000];
      {| mat_id := 1; mat_name := "wood"; use_nodes := false; node_tree := None |} ]
    project_with_materials.

(** The same project with one material, of another name than the record
    of the file. *)
Definition project_with_steel : World :=
  with_materials
    [ sample_material 5 "steel" true [sample_bsdf 500000 500000 500000 1000000 1000000 250000] ]
    project_with_materials.


End more_samples.

(** * Properties *)

(** ** Stepping through programs *)

Ltac munfold :=
  unfold mbind, mret, M_bind, M_ret, result_bind, result_ret, lift, gets, modify, raise in *.

#[local] Arguments with_fs {_} _ _ /.
#[local] Arguments with_objects {_} _ _ /.
#[local] Arguments with_materials {_} _ _ /.
#[local] Arguments with_collections {_} _ _ /.
#[local] Arguments with_active {_} _ _ /.
#[local] Arguments with_next_id {_} _ _ /.
#[local] Arguments with_reports {_} _ _ /.
#[local] Arguments with_exports {_} _ _ /.

(** ** The model name *)
Section strings.

Lemma split_nonempty sep s : Py.split sep s <> [].
Proof.
  destruct s as [|a s]; simpl; [done|].
  destruct (Ascii.eqb a sep); [done|]. by destruct (Py.split sep s).
Qed.

Lemma split_item0 sep s :
  Py.item (Py.split sep s) 0 = Ok (before_first (fun a => Ascii.eqb a sep) s).
Proof.
  induction s as [|a s IH]; simpl; [done|].
  destruct (Ascii.eqb a sep); [done|].
  revert IH. unfold Py.item. destruct (Py.split sep s) as [|x xs] eqn:E; simpl.
  - by apply split_nonempty in E.
  - intros [= ->]. done.
Qed.

Lemma contains_false_before_first c s :
  Py.contains c s = false -> before_first (fun a => Ascii.eqb a c) s = s.
Proof.
  induction s as [|a s IH]; simpl; [done|].
  destruct (Ascii.eqb a c); simpl; [done|]. intros ?. by rewrite IH.
Qed.

Lemma before_first_twice s :
  before_first (fun a => Ascii.eqb a "_"%char)
    (before_first (fun a => Ascii.eqb a "."%char) s)
  = before_first is_separator s.
Proof.
  induction s as [|a s IH]; simpl; [done|]. unfold is_separator.
  destruct (Ascii.eqb a ".") eqn:E1; simpl; [done|].
  destruct (Ascii.eqb a "_") eqn:E2; simpl; [done|]. by rewrite IH.
Qed.

Lemma before_first_contains stop c s :
  stop c = true -> Py.contains c (before_first stop s) = false.
Proof.
  intros Hc. induction s as [|b s IH]; simpl; [done|].
  destruct (stop b) eqn:E; simpl; [done|].
  rewrite IH, orb_false_r. apply Ascii.eqb_neq. intros ->. congruence.
Qed.

Lemma before_first_split stop s :
  before_first stop s = s \/
  exists a rest, stop a = true /\ s = before_first stop s +:+ String a rest.
Proof.
  induction s as [|b s IH]; simpl; [by left|].
  destruct (stop b) eqn:E; simpl.
  - right. by exists b, s.
  - destruct IH as [->|(a & rest & Ha & Hs)]; [by left|].
    right. exists a, rest. split; [done|].
    change (String b s = String b (before_first stop s +:+ String a rest)).
    by f_equal.
Qed.

Lemma first_segment c s :
  (if Py.contains c s then Py.item (Py.split c s) 0 else Ok s)
  = Ok (before_first (fun a => Ascii.eqb a c) s).
Proof.
  destruct (Py.contains c s) eqn:E; [apply split_item0|].
  by rewrite contains_false_before_first.
Qed.

Lemma get_model_name_eq s :
  SAPIENS_OT_export_parts.get_model_name s = Ok (before_first is_separator s).
Proof.
  unfold SAPIENS_OT_export_parts.get_model_name.
  rewrite first_segment. simpl. unfold mbind, result_bind.
  rewrite first_segment. by rewrite before_first_twice.
Qed.

Lemma is_separator_true a : is_separator a = true <-> a = "."%char \/ a = "_"%char.
Proof.
  unfold is_separator. rewrite orb_true_iff, !Ascii.eqb_eq. done.
Qed.

End strings.

(** C2. For every object name, [get_model_name] returns the part of the name
    before the first ["."] or ["_"]: it is the first segment of the split on
    ["_"] of the first segment of the split on ["."], it is the whole name
    when the name has neither character and otherwise the name continues
    with one of them, and it contains neither. *)
Theorem C2_get_model_name_is_prefix_before_first_separator (mesh_name : string) :
  exists r,
    SAPIENS_OT_export_parts.get_model_name mesh_name = Ok r
    /\ r = before_first is_separator mesh_name
    /\ (first_seg ← Py.item (Py.split "." mesh_name) 0; Py.item (Py.split "_" first_seg) 0) = Ok r
    /\ (r = mesh_name \/
        exists a rest, (a = "."%char \/ a = "_"%char) /\ mesh_name = r +:+ String a rest)
    /\ Py.contains "." r = false
    /\ Py.contains "_" r = false.
Proof.
  exists (before_first is_separator mesh_name).
  split; [apply get_model_name_eq|]. split; [done|]. split.
  { rewrite split_item0. simpl. unfold mbind, result_bind.
    rewrite split_item0. by rewrite before_first_twice. }
  split.
  { destruct (before_first_split is_separator mesh_name) as [?|(a & rest & Ha & Hs)]; [by left|].
    right. exists a, rest. by rewrite <- is_separator_true. }
  split; apply before_first_contains; reflexivity.
Qed.

(** ** Materials and JSON records *)
Section materials.
Context `{PyFloat}.


Lemma first_principled_none l :
  Forall not_principled l -> MaterialFile.first_principled l = None.
Proof.
  induction 1 as [|x l Hx _ IH]; simpl; [done|].
  by destruct (String.eqb_spec (node_type x) "BSDF_PRINCIPLED").
Qed.


Lemma material_to_json_null m :
  use_nodes m = false \/
  (exists tree, node_tree m = Some tree /\ Forall not_principled (nodes tree)) ->
  MaterialFile.material_to_json (Some m) = Ok JNull.
Proof.
  unfold MaterialFile.material_to_json.
  intros [->|(tree & -> & Hn)]; [done|].
  rewrite (first_principled_none _ Hn). by destruct (use_nodes m).
Qed.





End materials.

(** ** The material store *)
Section material_store.
Context `{PyFloat}.


Lemma materials_get_None name l m :
  bpy.materials_get name l = None -> m ∈ l -> mat_name m <> name.
Proof.
  induction l as [|x l IH]; simpl; [by intros _ ?%elem_of_nil|].
  destruct (String.eqb_spec (mat_name x) name); [done|].
  intros Hl [->|?]%elem_of_cons; auto.
Qed.

Lemma find_material_Some i l m :
  bpy.find_material i l = Some m -> m ∈ l /\ mat_id m = i.
Proof.
  induction l as [|x l IH]; simpl; [done|].
  destruct (Nat.eqb_spec (mat_id x) i).
  - intros [= <-]. split; [left|done].
  - intros [? ?]%IH. split; [by right|done].
Qed.

Lemma find_material_None i l :
  i ∉ map mat_id l -> bpy.find_material i l = None.
Proof.
  induction l as [|x l IH]; simpl; [done|].
  intros Hi. destruct (Nat.eqb_spec (mat_id x) i) as [<-|].
  - destruct Hi. left.
  - apply IH. intros ?. apply Hi. by right.
Qed.

Lemma find_material_elem l m :
  NoDup (map mat_id l) -> m ∈ l -> bpy.find_material (mat_id m) l = Some m.
Proof.
  induction l as [|x l IH]; simpl; [by intros _ ?%elem_of_nil|].
  intros [Hx Hl]%NoDup_cons [->|Hm]%elem_of_cons.
  - by rewrite Nat.eqb_refl.
  - destruct (Nat.eqb_spec (mat_id x) (mat_id m)) as [E|]; [|by apply IH].
    destruct Hx. rewrite E. apply list_elem_of_fmap. by exists m.
Qed.






End material_store.



(** ** The round trip of a material record *)




(** ** The floats of a record *)




(** ** First match wins *)



(** ** No shader *)

(** C7.  For every material that does not use nodes, or whose node tree has
    no Principled BSDF node, [material_to_json] raises nothing and returns
    [None]. *)
Theorem C7_no_principled_bsdf_returns_none `{PyFloat} (m : Material) :
  use_nodes m = false \/
  (exists tree, node_tree m = Some tree /\ Forall not_principled (nodes tree)) ->
  MaterialFile.material_to_json (Some m) = Ok JNull.
Proof. apply material_to_json_null. Qed.

(** A material with an output node only, and a material without nodes. *)
Lemma C7_no_principled_witness :
  @MaterialFile.material_to_json micro
    (Some (sample_material 0 "bone" true [sample_output])) = Ok JNull
  /\ @MaterialFile.material_to_json micro
       (Some {| mat_id := 1; mat_name := "wood"; use_nodes := false; node_tree := None |})
     = Ok JNull.
Proof.
  split.
  - apply (@C7_no_principled_bsdf_returns_none micro). right.
    eexists. split; [reflexivity|].
    constructor; [|constructor]. unfold not_principled. simpl. discriminate.
  - apply (@C7_no_principled_bsdf_returns_none micro). left. reflexivity.
Defined.

(** ** The object store *)
Section object_store.
Context `{PyFloat}.

Lemma find_object_Some i l o :
  bpy.find_object i l = Some o -> o ∈ l /\ ob_id o = i.
Proof.
  induction l as [|x l IH]; simpl; [done|].
  destruct (Nat.eqb_spec (ob_id x) i).
  - intros [= <-]. split; [left|done].
  - intros [? ?]%IH. split; [by right|done].
Qed.

Lemma find_object_None i l :
  i ∉ map ob_id l -> bpy.find_object i l = None.
Proof.
  induction l as [|x l IH]; simpl; [done|].
  intros Hi. destruct (Nat.eqb_spec (ob_id x) i) as [<-|].
  - destruct Hi. left.
  - apply IH. intros ?. apply Hi. by right.
Qed.

Lemma find_object_is_Some i l :
  i ∈ map ob_id l -> is_Some (bpy.find_object i l).
Proof.
  induction l as [|x l IH]; simpl; [by intros ?%elem_of_nil|].
  destruct (Nat.eqb_spec (ob_id x) i) as [<-|]; [by eexists|].
  intros [?|?]%elem_of_cons; [congruence|by apply IH].
Qed.

Lemma find_object_elem l o :
  NoDup (map ob_id l) -> o ∈ l -> bpy.find_object (ob_id o) l = Some o.
Proof.
  induction l as [|x l IH]; simpl; [by intros _ ?%elem_of_nil|].
  intros [Hx Hl]%NoDup_cons [->|Ho]%elem_of_cons.
  - by rewrite Nat.eqb_refl.
  - destruct (Nat.eqb_spec (ob_id x) (ob_id o)) as [E|]; [|by apply IH].
    destruct Hx. rewrite E. apply list_elem_of_fmap. by exists o.
Qed.

Lemma find_object_map i f l :
  (forall o, ob_id (f o) = ob_id o) ->
  bpy.find_object i (map f l) = f <$> bpy.find_object i l.
Proof.
  intros Hf. induction l as [|x l IH]; simpl; [done|].
  rewrite Hf. by destruct (ob_id x =? i)%nat.
Qed.

Lemma find_object_update i j f l :
  (forall o, ob_id (f o) = ob_id o) ->
  bpy.find_object i (bpy.update_object j f l)
  = (fun o => if (ob_id o =? j)%nat then f o else o) <$> bpy.find_object i l.
Proof.
  intros Hf. unfold bpy.update_object. apply find_object_map.
  intros o. by destruct (ob_id o =? j)%nat.
Qed.

Lemma update_object_ids i f l :
  (forall o, ob_id (f o) = ob_id o) ->
  map ob_id (bpy.update_object i f l) = map ob_id l.
Proof.
  intros Hf. unfold bpy.update_object. rewrite map_map. apply map_ext.
  intros o. by destruct (ob_id o =? i)%nat.
Qed.

Lemma update_object_twice i f g l :
  (forall o, ob_id (g o) = ob_id o) ->
  bpy.update_object i f (bpy.update_object i g l)
  = bpy.update_object i (fun o => f (g o)) l.
Proof.
  intros Hg. unfold bpy.update_object. rewrite map_map. apply map_ext.
  intros o. destruct (ob_id o =? i)%nat eqn:E; [|by rewrite E].
  by rewrite Hg, E.
Qed.

(** An update that a view [h] of the objects does not see. *)
Lemma map_update_object_hidden {B} (h : Object -> B) i f l :
  (forall o, o ∈ l -> ob_id o = i -> h (f o) = h o) ->
  map h (bpy.update_object i f l) = map h l.
Proof.
  intros Hf. unfold bpy.update_object. rewrite map_map.
  apply map_ext_in. intros o Ho%list_elem_of_In.
  destruct (Nat.eqb_spec (ob_id o) i); [by apply Hf|done].
Qed.

Lemma erase_ids (l : list Object) : map ob_id (map (set_select false) l) = map ob_id l.
Proof. rewrite map_map. by apply map_ext. Qed.

Lemma erase_twice (l : list Object) :
  map (set_select false) (map (set_select false) l) = map (set_select false) l.
Proof. rewrite map_map. by apply map_ext. Qed.

Lemma with_objects_same (w : World) : with_objects (objects w) w = w.
Proof. by destruct w. Qed.

(** A loop that assigns the same attribute of each object of a list. *)
Lemma for_obj_set ids f w :
  (forall o, ob_id (f o) = ob_id o) ->
  NoDup ids -> (forall i, i ∈ ids -> i ∈ map ob_id (objects w)) ->
  for_ ids (fun i => bpy.obj_set i f) w
  = Ok (tt, with_objects
              (map (fun o => if bool_decide (ob_id o ∈ ids) then f o else o) (objects w))
              w).
Proof.
  intros Hf. revert w. induction ids as [|i ids IH]; intros w Hnd Hin.
  - assert (E : map (fun o => if bool_decide (ob_id o ∈ @nil nat) then f o else o)
                    (objects w) = objects w).
    { rewrite <- (map_id (objects w)) at 2. apply map_ext. intros o.
      rewrite bool_decide_eq_false_2; [done|]. apply not_elem_of_nil. }
    rewrite E, with_objects_same. reflexivity.
  - apply NoDup_cons in Hnd as [Hi Hnd].
    unfold for_ in *. simpl. munfold. unfold bpy.obj_set at 1.
    destruct (find_object_is_Some i (objects w)) as [o Ho]; [apply Hin; left|].
    rewrite Ho. rewrite IH; simpl; [|done|].
    + do 3 f_equal. unfold bpy.update_object. rewrite map_map. apply map_ext.
      intros x. destruct (Nat.eqb_spec (ob_id x) i) as [E|E].
      * rewrite Hf, E. rewrite bool_decide_eq_false_2 by done.
        rewrite bool_decide_eq_true_2; [done|left].
      * destruct (decide (ob_id x ∈ ids)) as [Hx|Hx].
        -- rewrite !bool_decide_eq_true_2; [done|by right|done].
        -- rewrite !bool_decide_eq_false_2; [done| |done].
           intros [?|?]%elem_of_cons; done.
    + intros j Hj. rewrite update_object_ids by done. apply Hin. by right.
Qed.

End object_store.

(** ** Export Parts *)
Section export_parts.
Context `{PyFloat}.

(** One turn of the loop leaves every object as it was, but for its
    selection flag. *)
Lemma export_one_objects root locals i w locals' w' :
  NoDup (map ob_id (objects w)) ->
  SAPIENS_OT_export_parts.export_one root locals i w = Ok (locals', w') ->
  map (set_select false) (objects w') = map (set_select false) (objects w).
Proof.
  intros Hnd. unfold SAPIENS_OT_export_parts.export_one.
  destruct locals as [exported_models export_path]. munfold.
  unfold bpy.obj_get at 1.
  destruct (bpy.find_object i (objects w)) as [o|] eqn:Ho; [|done].
  destruct (find_object_Some _ _ _ Ho) as [Hin Hid].
  destruct (negb _); [intros ?; by simplify_eq|].
  rewrite get_model_name_eq. simpl.
  case_bool_decide; [intros ?; by simplify_eq|].
  unfold bpy.select_all_deselect, bpy.select_set, bpy.set_active, bpy.obj_set,
    bpy.obj_get, bpy.export_scene_gltf. munfold. simpl.
  repeat (progress (rewrite ?find_object_update, ?(find_object_map i (set_select false)),
                      ?Ho by done; simpl)).
  intros ?. simplify_eq. simpl.
  rewrite !update_object_twice by done.
  rewrite map_update_object_hidden; [apply erase_twice|].
  intros x (x0 & -> & Hx0)%list_elem_of_fmap Hx. simpl in Hx.
  assert (x0 = o) as ->.
  { pose proof (find_object_elem _ _ Hnd Hx0) as E.
    rewrite Hx, Ho in E. congruence. }
  by destruct o.
Qed.

Lemma export_loop_objects root ids locals w locals' w' :
  NoDup (map ob_id (objects w)) ->
  foldM (SAPIENS_OT_export_parts.export_one root) locals ids w = Ok (locals', w') ->
  map (set_select false) (objects w') = map (set_select false) (objects w).
Proof.
  revert locals w. induction ids as [|i ids IH]; intros locals w Hnd; simpl.
  - munfold. by intros [= _ <-].
  - munfold.
    destruct (SAPIENS_OT_export_parts.export_one root locals i w)
      as [[locals1 w1]|] eqn:E1; [|done].
    pose proof (export_one_objects _ _ _ _ _ _ Hnd E1) as H1.
    intros E2. apply IH in E2.
    + by rewrite E2.
    + rewrite <- erase_ids, H1, erase_ids. done.
Qed.

(** Selecting again the objects that were selected gives the objects back. *)
Lemma reselect (l l1 : list Object) :
  NoDup (map ob_id l) ->
  map (set_select false) l1 = map (set_select false) l ->
  map (fun o => if bool_decide (ob_id o ∈ map ob_id (filter (fun o => ob_select o = true) l))
                then set_select true o else o)
      (map (set_select false) l1)
  = l.
Proof.
  intros Hnd ->. rewrite map_map. rewrite <- (map_id l) at 2.
  apply map_ext_in. intros o Ho%list_elem_of_In. simpl.
  case_bool_decide as Hsel.
  - apply list_elem_of_fmap in Hsel as (o' & Hid & [Hs Ho']%list_elem_of_filter).
    assert (o' = o) as ->.
    { pose proof (find_object_elem _ _ Hnd Ho') as E.
      rewrite <- Hid, (find_object_elem _ _ Hnd Ho) in E. congruence. }
    destruct o. simpl in *. by subst.
  - destruct (ob_select o) eqn:Hs.
    + destruct Hsel. apply list_elem_of_fmap. exists o. split; [done|].
      by apply list_elem_of_filter.
    + destruct o. simpl in *. by subst.
Qed.

End export_parts.



(** C4.  In every scene with distinct objects in which [execute] returns
    [FINISHED], the objects are afterwards what they were before: each has
    the world matrix (location, rotation, scale) and the selection flag it
    had, so the selected objects are the original selection, and the active
    object is the original one. *)
Theorem C4_export_parts_restores_scene `{PyFloat} (w w' : World) :
  NoDup (map ob_id (objects w)) ->
  SAPIENS_OT_export_parts.execute w = Ok (FINISHED, w') ->
  objects w' = objects w
  /\ map matrix_world (objects w') = map matrix_world (objects w)
  /\ filter (fun o => ob_select o = true) (objects w')
     = filter (fun o => ob_select o = true) (objects w)
  /\ active w' = active w.
Proof.
  intros Hnd Hrun.
  enough (objects w' = objects w /\ active w' = active w) as [E1 E2]
    by (by rewrite E1, E2).
  revert Hrun. unfold SAPIENS_OT_export_parts.execute, path_exists. munfold.
  destruct (negb _); [by unfold report; munfold|].
  unfold get_export_folder, path_exists, path_mkdir. munfold.
  destruct (negb _); [by unfold report; munfold|].
  destruct (pathlib.mkdir _ (fs w)) as [fs1|]; [|done].
  simpl. destruct (pathlib.mkdir _ fs1) as [fs2|]; [|done].
  unfold bpy.selected_objects, bpy.get_active, bpy.data_objects,
    bpy.select_all_deselect, bpy.set_active, bpy.select_set. munfold. simpl.
  match goal with
  | |- context [foldM ?b ?s ?l ?w0] => destruct (foldM b s l w0) as [[[models path] w1]|] eqn:Eloop
  end; [|done].
  apply export_loop_objects in Eloop; [|done]. simpl in Eloop.
  rewrite for_obj_set; simpl; try done.
  - destruct path; [|done]. unfold report. munfold. intros [= <-]. simpl.
    split; [|done]. by apply reselect.
  - apply (sublist_NoDup _ (map ob_id (objects w))); [exact Hnd|].
    apply (fmap_sublist ob_id), sublist_filter.
  - intros i (o & -> & [_ Ho]%list_elem_of_filter)%list_elem_of_fmap.
    rewrite Eloop, erase_ids.
    apply list_elem_of_fmap. by exists o.
Qed.

(** A run on the sample scene: it finishes and the scene is restored. *)
Lemma C4_export_parts_witness :
  exists w',
    @SAPIENS_OT_export_parts.execute micro sample_scene = Ok (FINISHED, w')
    /\ (objects w' = objects sample_scene
        /\ map matrix_world (objects w') = map matrix_world (objects sample_scene)
        /\ filter (fun o => ob_select o = true) (objects w')
           = filter (fun o => ob_select o = true) (objects sample_scene)
        /\ active w' = active sample_scene).
Proof.
  assert (Hv : value (@SAPIENS_OT_export_parts.execute micro sample_scene) = Ok FINISHED)
    by (vm_compute; reflexivity).
  destruct (@SAPIENS_OT_export_parts.execute micro sample_scene) as [[s w']|e] eqn:E;
    [|discriminate Hv].
  injection Hv as ->. exists w'. split; [reflexivity|].
  apply (@C4_export_parts_restores_scene micro sample_scene w'); [|exact E].
  apply (bool_decide_unpack _). vm_compute. exact I.
Defined.

(** ** Loops and their invariants *)
Section loops.
Context `{PyFloat}.

Lemma bind_ok {A B} (m : M A) (f : A -> M B) w b w' :
  (m ≫= f) w = Ok (b, w') ->
  exists a w1, m w = Ok (a, w1) /\ f a w1 = Ok (b, w').
Proof.
  unfold mbind, M_bind. destruct (m w) as [[a w1]|]; [|done]. eauto.
Qed.

Lemma for_inv {A} (I : World -> Prop) (body : A -> M unit) l :
  (forall x w w', x ∈ l -> I w -> body x w = Ok (tt, w') -> I w') ->
  forall w w', I w -> for_ l body w = Ok (tt, w') -> I w'.
Proof.
  unfold for_. induction l as [|x l IH]; intros Hbody w w' Hw; simpl.
  - munfold. by intros [= <-].
  - intros (u & w1 & H1 & H2)%bind_ok. destruct u.
    eapply IH; [|eapply Hbody; [left|done..]|done].
    intros y w2 w3 Hy. apply Hbody. by right.
Qed.



Lemma update_object_absent i f l :
  i ∉ map ob_id l -> bpy.update_object i f l = l.
Proof.
  intros Hi. unfold bpy.update_object. rewrite <- (map_id l) at 2.
  apply map_ext_in. intros o Ho%list_elem_of_In.
  destruct (Nat.eqb_spec (ob_id o) i) as [<-|]; [|done].
  destruct Hi. apply list_elem_of_fmap. by exists o.
Qed.

End loops.

(** ** Export Empties *)
Section export_empties.
Context `{PyFloat}.
Implicit Types (R : list (nat * nat * string)) (l : list Object).









End export_empties.

Section export_empties_run.
Context `{PyFloat}.
Implicit Types (R : list (nat * nat * string)) (l : list Object).
Variables (L0 : list Object) (C0 : list (list nat)).

Lemma lift_ok {A} (r : result A) w a w' :
  lift r w = Ok (a, w') -> r = Ok a /\ w' = w.
Proof. unfold lift. destruct r; [|done]. by intros [= -> ->]. Qed.

Lemma gets_ok {A} (f : World -> A) w a w' :
  gets f w = Ok (a, w') -> a = f w /\ w' = w.
Proof. unfold gets. by intros [= <- <-]. Qed.


Lemma mret_ok {A} (a : A) w b w' :
  (mret a : M A) w = Ok (b, w') -> b = a /\ w' = w.
Proof. unfold mret, M_ret. by intros [= <- <-]. Qed.



(** *** Changes of the selection only *)





(** *** The first loop *)






(** *** The loop that restores the scene *)







End export_empties_run.



(** ** The material file *)
Section material_index.
Context `{PyFloat}.
Implicit Types (d : list (string * JSON)) (v : JSON).

Lemma dict_lookup_set_eq k v d : Json.dict_lookup k (Json.dict_set k v d) = Some v.
Proof.
  induction d as [|[k' v'] d IH]; simpl.
  - by rewrite String.eqb_refl.
  - destruct (String.eqb_spec k' k) as [->|E]; simpl.
    + by rewrite String.eqb_refl.
    + apply String.eqb_neq in E. by rewrite E.
Qed.

Lemma dict_lookup_set_ne k k' v d :
  k <> k' -> Json.dict_lookup k (Json.dict_set k' v d) = Json.dict_lookup k d.
Proof.
  intros Hk. induction d as [|[k1 v1] d IH]; simpl.
  - apply not_eq_sym in Hk. apply String.eqb_neq in Hk. by rewrite Hk.
  - destruct (String.eqb_spec k1 k') as [->|E]; simpl.
    + apply not_eq_sym in Hk. apply String.eqb_neq in Hk. by rewrite Hk.
    + by rewrite IH.
Qed.

Lemma dict_set_elem k v d kv :
  kv ∈ Json.dict_set k v d -> kv = (k, v) \/ kv ∈ d.
Proof.
  induction d as [|[k1 v1] d IH]; simpl.
  - intros ->%list_elem_of_singleton. by left.
  - destruct (String.eqb k1 k).
    + intros [->|?]%elem_of_cons; [by left|]. right. by right.
    + intros [->|Hin]%elem_of_cons; [right; left|].
      destruct (IH Hin) as [?|?]; [by left|]. right. by right.
Qed.

Lemma dict_set_keys k v d k1 :
  k1 ∈ map fst (Json.dict_set k v d) -> k1 = k \/ k1 ∈ map fst d.
Proof.
  intros ([k2 v2] & -> & Hin)%list_elem_of_fmap.
  destruct (dict_set_elem _ _ _ _ Hin) as [[= -> ->]|Hd]; [by left|].
  right. apply list_elem_of_fmap. by exists (k2, v2).
Qed.

Lemma keyed_set k v d :
  keyed d -> v = JNull \/ identifier_of v = Some k -> keyed (Json.dict_set k v d).
Proof.
  intros [Hnd Hall] Hv. split.
  - clear Hall. induction d as [|[k1 v1] d IH]; simpl.
    + apply NoDup_singleton.
    + cbn [map fst] in Hnd. apply NoDup_cons in Hnd as [Hk1 Hnd].
      destruct (String.eqb_spec k1 k) as [->|E]; cbn [map fst].
      * by apply NoDup_cons.
      * apply NoDup_cons. split; [|by apply IH].
        intros [?|?]%dict_set_keys; done.
  - apply Forall_forall. intros kv [->|Hin]%dict_set_elem; [done|].
    rewrite Forall_forall in Hall. by apply Hall.
Qed.

Lemma keyed_lookup d k v :
  keyed d -> (k, v) ∈ d -> Json.dict_lookup k d = Some v.
Proof.
  intros [Hnd _]. induction d as [|[k1 v1] d IH]; [by intros ?%elem_of_nil|].
  cbn [map fst] in Hnd. apply NoDup_cons in Hnd as [Hk1 Hnd].
  intros [[= -> ->]|Hin]%elem_of_cons; simpl.
  - by rewrite String.eqb_refl.
  - destruct (String.eqb_spec k1 k) as [->|E]; [|by apply IH].
    destruct Hk1. apply list_elem_of_fmap. by exists (k, v).
Qed.

(** A record of the array is found at the key that is its identifier. *)
Lemma keyed_record d v n :
  keyed d -> v ∈ map snd d -> identifier_of v = Some n -> (n, v) ∈ d.
Proof.
  intros [_ Hall] ([k v'] & -> & Hin)%list_elem_of_fmap Hid.
  rewrite Forall_forall in Hall. destruct (Hall _ Hin) as [E|E]; simpl in *.
  - by rewrite E in Hid.
  - rewrite E in Hid. by simplify_eq.
Qed.

Lemma keyed_at_most_one d n :
  keyed d -> (length (records_named n (map snd d)) <= 1)%nat.
Proof.
  intros Hd. unfold records_named.
  induction d as [|[k v] d IH]; [simpl; lia|].
  destruct Hd as [Hnd Hall]. cbn [map fst] in Hnd.
  apply NoDup_cons in Hnd as [Hk Hnd]. apply Forall_cons in Hall as [Hv Hall].
  assert (Hd' : keyed d) by done.
  cbn [map snd]. rewrite filter_cons.
  destruct (decide (identifier_of v = Some n)) as [Hid|Hid]; [|by apply IH].
  assert (k = n) as ->.
  { simpl in Hv. destruct Hv as [E|E]; rewrite E in Hid; [done|by simplify_eq]. }
  assert (Hnone : filter (fun v0 => identifier_of v0 = Some n) (map snd d) = []).
  { destruct (filter _ (map snd d)) as [|v1 rest] eqn:E; [done|].
    assert (Hin : v1 ∈ filter (fun v0 => identifier_of v0 = Some n) (map snd d))
      by (rewrite E; left).
    apply list_elem_of_filter in Hin as [Hid1 Hin1].
    pose proof (keyed_record d v1 n Hd' Hin1 Hid1) as Hk1.
    destruct Hk. apply list_elem_of_fmap. by exists (n, v1). }
  rewrite Hnone. simpl. lia.
Qed.

(** *** Writes *)

Lemma material_to_json_keyed m v :
  MaterialFile.material_to_json (Some m) = Ok v ->
  v = JNull \/ identifier_of v = Some (mat_name m).
Proof.
  unfold MaterialFile.material_to_json.
  destruct (use_nodes m); [destruct (node_tree m) as [tree|]; [|done]|];
    simpl; [|intros [= <-]; by left].
  destruct (MaterialFile.first_principled (nodes tree)) as [n|];
    [|intros [= <-]; by left].
  destruct (MaterialFile.input_value n "Base Color") as [[]|]; simpl; try done.
  destruct (MaterialFile.input_value n "Metallic") as [[]|]; simpl; try done.
  destruct (MaterialFile.input_value n "Roughness") as [[]|]; simpl; try done.
  intros [= <-]. by right.
Qed.

Lemma write_material_ok self m self' :
  MaterialFile.write_material self m = Ok self' ->
  exists v,
    MaterialFile.material_to_json (Some m) = Ok v
    /\ (v = JNull \/ identifier_of v = Some (mat_name m))
    /\ MaterialFile.mf_filepath self' = MaterialFile.mf_filepath self
    /\ MaterialFile.index self' = Json.dict_set (mat_name m) v (MaterialFile.index self).
Proof.
  unfold MaterialFile.write_material.
  destruct (MaterialFile.material_to_json (Some m)) as [v|] eqn:E; [|done].
  simpl. intros [= <-]. exists v. split; [done|].
  split; [by apply material_to_json_keyed|done].
Qed.

Lemma write_materials_keyed ms :
  forall self self',
    MaterialFile.write_materials self ms = Ok self' ->
    keyed (MaterialFile.index self) ->
    keyed (MaterialFile.index self')
    /\ MaterialFile.mf_filepath self' = MaterialFile.mf_filepath self.
Proof.
  induction ms as [|m ms IH]; intros self self'; simpl.
  - by intros [= <-].
  - destruct (MaterialFile.write_material self m) as [self1|] eqn:E; [|done].
    simpl. intros Hrest Hk.
    apply write_material_ok in E as (v & _ & Hv & Hp & Hi).
    apply IH in Hrest as [? ?]; [|rewrite Hi; by apply keyed_set].
    split; [done|congruence].
Qed.

(** Writes under other names leave the entry of [n] alone. *)
Lemma write_materials_other n ms :
  forall self self',
    MaterialFile.write_materials self ms = Ok self' ->
    Forall (fun m => mat_name m <> n) ms ->
    Json.dict_lookup n (MaterialFile.index self')
    = Json.dict_lookup n (MaterialFile.index self).
Proof.
  induction ms as [|m ms IH]; intros self self'; simpl.
  - by intros [= <-].
  - destruct (MaterialFile.write_material self m) as [self1|] eqn:E; [|done].
    simpl. intros Hrest [Hm Hms]%Forall_cons.
    apply write_material_ok in E as (v & _ & _ & _ & Hi).
    rewrite (IH _ _ Hrest Hms), Hi. apply dict_lookup_set_ne. congruence.
Qed.

(** The last write of a name is what the index holds for it. *)
Lemma write_materials_last n ms :
  forall self self' m,
    MaterialFile.write_materials self ms = Ok self' ->
    last_write n ms = Some m ->
    exists v,
      MaterialFile.material_to_json (Some m) = Ok v
      /\ Json.dict_lookup n (MaterialFile.index self') = Some v.
Proof.
  unfold last_write.
  induction ms as [|m0 ms IH]; intros self self' m; simpl; [done|].
  destruct (MaterialFile.write_material self m0) as [self1|] eqn:E; [|done].
  simpl. intros Hrest. rewrite filter_cons.
  destruct (filter (fun m1 => mat_name m1 = n) ms) as [|m1 rest] eqn:Hf.
  - destruct (decide (mat_name m0 = n)) as [Hn|Hn]; [|done].
    intros [= <-]. apply write_material_ok in E as (v & Hv & _ & _ & Hi).
    exists v. split; [done|].
    rewrite (write_materials_other n ms _ _ Hrest).
    + rewrite Hi, Hn. apply dict_lookup_set_eq.
    + apply Forall_forall. intros x Hx Hxn.
      assert (Hin : x ∈ filter (fun m1 => mat_name m1 = n) ms)
        by (by apply list_elem_of_filter).
      rewrite Hf in Hin. by apply elem_of_nil in Hin.
  - intros Hlast. apply (IH self1 self' m Hrest).
    destruct (decide (mat_name m0 = n)); [|done].
    by rewrite last_cons_cons in Hlast.
Qed.

(** *** Reading and saving *)

Lemma index_fold_raise items e : foldl MaterialFile.index_step (Raise e) items = Raise e.
Proof. induction items as [|x items IH]; [done|]. cbn [foldl]. apply IH. Qed.

Lemma index_fold_keyed items :
  forall acc idx,
    foldl MaterialFile.index_step (Ok acc) items = Ok idx -> keyed acc -> keyed idx.
Proof.
  induction items as [|material items IH]; intros acc idx; cbn [foldl].
  - by intros [= <-].
  - destruct (MaterialFile.index_step (Ok acc) material) as [acc1|e] eqn:E;
      [|by rewrite index_fold_raise].
    intros Hrest Hk. apply (IH _ _ Hrest).
    revert E. unfold MaterialFile.index_step. simpl. unfold Json.subscript.
    destruct material as [| | | | |d]; try done.
    destruct (d !! "identifier") as [ident|] eqn:Hid; [|done]. simpl.
    destruct ident as [| | |key| |]; try done. simpl. intros [= <-].
    apply keyed_set; [done|]. right. simpl. by rewrite Hid.
Qed.

Lemma build_index_keyed w idx w' :
  MaterialFile.build_index w = Ok (idx, w') -> keyed idx.
Proof.
  unfold MaterialFile.build_index.
  intros (path & w1 & _ & Hrun)%bind_ok.
  apply bind_ok in Hrun as (data & w2 & _ & Hrun).
  apply bind_ok in Hrun as (defs & w3 & _ & Hrun).
  apply bind_ok in Hrun as (mats & w4 & _ & Hrun).
  apply bind_ok in Hrun as (items & w5 & _ & Hrun).
  apply lift_ok in Hrun as [Hfold _].
  apply (index_fold_keyed items [] idx Hfold).
  split; [apply NoDup_nil_2|apply Forall_nil_2].
Qed.

Lemma open_keyed w self w' :
  MaterialFile.open w = Ok (self, w') -> keyed (MaterialFile.index self).
Proof.
  unfold MaterialFile.open, MaterialFile.init.
  intros (path & w1 & _ & Hrun)%bind_ok.
  apply bind_ok in Hrun as ([] & w2 & _ & Hrun).
  apply bind_ok in Hrun as (idx & w3 & Hidx%build_index_keyed & [-> _]%mret_ok).
  done.
Qed.

Lemma write_json_ok p content fs0 fs1 :
  pathlib.write_json p content fs0 = Ok fs1 -> fs1 = <[p := File content]> fs0.
Proof.
  unfold pathlib.write_json.
  destruct (fs0 !! p) as [[]|]; try done;
    destruct (pathlib.parent p); try (by intros [= <-]);
    destruct (fs0 !! _) as [[]|]; try done; by intros [= <-].
Qed.

Lemma save_ok self w u w' :
  MaterialFile.save self w = Ok (u, w') ->
  fs w' !! MaterialFile.mf_filepath self
  = Some (File (materials_file (MaterialFile.get_materials self))).
Proof.
  unfold MaterialFile.save, MaterialFile.get_default_data.
  intros (defs & w1 & [Hdefs ->]%lift_ok & Hrun)%bind_ok.
  unfold Json.subscript in Hdefs. rewrite lookup_singleton_eq in Hdefs.
  injection Hdefs as <-.
  apply bind_ok in Hrun as (defs' & w2 & [Hd ->]%lift_ok & Hrun).
  unfold Json.set_item in Hd. rewrite insert_singleton_eq in Hd. injection Hd as <-.
  apply bind_ok in Hrun as (data & w3 & [Hd ->]%lift_ok & Hrun).
  unfold Json.set_item in Hd. rewrite insert_singleton_eq in Hd. injection Hd as <-.
  unfold dump_json in Hrun.
  destruct (pathlib.write_json _ _ _) as [fs1|] eqn:E; [|done].
  injection Hrun as _ <-. apply write_json_ok in E as ->. simpl.
  by rewrite lookup_insert_eq.
Qed.

End material_index.

(** C10.  For a material file opened from disk, any sequence of
    [write_material] calls and the [save] that follows: the file then holds
    the ["hs_materials"] array of the index, the array has at most one record
    of any identifier, and for a name that was written, what the last write
    of that name produced is in the array and is the only record in it with
    that name. *)
Theorem C10_one_record_per_name_last_write_wins `{PyFloat}
    (w w1 w2 : World) (self self' : MaterialFile.t) (writes : list Material) :
  MaterialFile.open w = Ok (self, w1) ->
  MaterialFile.write_materials self writes = Ok self' ->
  MaterialFile.save self' w1 = Ok (tt, w2) ->
  let arr := MaterialFile.get_materials self' in
  fs w2 !! MaterialFile.mf_filepath self = Some (File (materials_file arr))
  /\ (forall n, (length (records_named n arr) <= 1)%nat)
  /\ (forall n m, last_write n writes = Some m ->
       exists v,
         MaterialFile.material_to_json (Some m) = Ok v
         /\ v ∈ arr
         /\ forall v', v' ∈ arr -> identifier_of v' = Some n -> v' = v).
Proof.
  intros Hopen Hwrites Hsave arr.
  pose proof (open_keyed _ _ _ Hopen) as Hk.
  destruct (write_materials_keyed _ _ _ Hwrites Hk) as [Hk' Hpath].
  split; [rewrite <- Hpath; by eapply save_ok|].
  split; [intros n; by apply keyed_at_most_one|].
  intros n m Hlast.
  destruct (write_materials_last n writes _ _ m Hwrites Hlast) as (v & Hv & Hlook).
  exists v. split; [done|]. split.
  - clear -Hlook. unfold arr, MaterialFile.get_materials.
    induction (MaterialFile.index self') as [|[k1 v1] d IH]; [done|].
    simpl in Hlook. cbn [map snd]. destruct (String.eqb k1 n).
    + injection Hlook as ->. left.
    + right. by apply IH.
  - intros v' Hin Hid.
    pose proof (keyed_record _ _ _ Hk' Hin Hid) as Hkv.
    pose proof (keyed_lookup _ _ _ Hk' Hkv) as E. congruence.
Qed.

(** Opening the material file of the sample project, three writes and a
    save. *)
Lemma C10_material_file_witness :
  exists self w1 self' w2,
    @MaterialFile.open micro empty_world = Ok (self, w1)
    /\ MaterialFile.write_materials self sample_writes = Ok self'
    /\ MaterialFile.save self' w1 = Ok (tt, w2)
    /\ (let arr := MaterialFile.get_materials self' in
        fs w2 !! MaterialFile.mf_filepath self = Some (File (materials_file arr))
        /\ (forall n, (length (records_named n arr) <= 1)%nat)
        /\ (forall n m, last_write n sample_writes = Some m ->
             exists v,
               MaterialFile.material_to_json (Some m) = Ok v
               /\ v ∈ arr
               /\ forall v', v' ∈ arr -> identifier_of v' = Some n -> v' = v)).
Proof.
  pose (prog := (self ← @MaterialFile.open micro;
                 self' ← lift (MaterialFile.write_materials self sample_writes);
                 MaterialFile.save self';;
                 mret FINISHED) : M status).
  assert (Hv : value (prog empty_world) = Ok FINISHED) by (vm_compute; reflexivity).
  destruct (prog empty_world) as [[s wf]|e] eqn:E; [|discriminate Hv].
  unfold prog in E.
  apply bind_ok in E as (self & w1 & Hopen & E).
  apply bind_ok in E as (self' & w1' & [Hwrites ->]%lift_ok & E).
  apply bind_ok in E as ([] & w2 & Hsave & _).
  exists self, w1, self', w2.
  split; [exact Hopen|]. split; [exact Hwrites|]. split; [exact Hsave|].
  exact (@C10_one_record_per_name_last_write_wins micro empty_world w1 w2 self self'
           sample_writes Hopen Hwrites Hsave).
Defined.

(** ** Remove Duplicates *)
Section store_positions.
Context `{PyFloat}.








End store_positions.

Section remove_duplicates.
Context `{PyFloat}.
Import SAPIENS_OT_remove_duplicate_materials.













End remove_duplicates.





(** ** Substrings *)
Section substrings.

Lemma startswith_spec sub s :
  startswith sub s = true <-> exists post, s = sub +:+ post.
Proof.
  revert s. induction sub as [|a sub IH]; intros s; simpl.
  - split; [intros _; by exists s|done].
  - destruct s as [|b s].
    + split; [done|]. by intros [post ?].
    + rewrite andb_true_iff, Ascii.eqb_eq, IH. split.
      * intros [-> [post ->]]. by exists post.
      * intros [post E]. injection E as -> ->. split; [done|]. by exists post.
Qed.

Lemma str_in_spec sub s : str_in sub s = true <-> occurs sub s.
Proof.
  unfold occurs. induction s as [|b s IH]; simpl.
  - rewrite orb_false_r, startswith_spec. split.
    + intros [post E]. by exists "", post.
    + intros (pre & post & E). destruct pre as [|? ?]; [|done]. by exists post.
  - rewrite orb_true_iff, IH, startswith_spec. split.
    + intros [[post E]|(pre & post & E)].
      * by exists "", post.
      * exists (String b pre), post. simpl. by rewrite E.
    + intros (pre & post & E). destruct pre as [|c pre]; simpl in E.
      * left. by exists post.
      * right. injection E as -> ->. by exists pre, post.
Qed.

Lemma str_in_false sub s : str_in sub s = false <-> ~ occurs sub s.
Proof. rewrite <- str_in_spec. by destruct (str_in sub s). Qed.

End substrings.

(** ** Loops over the objects of the scene *)
Section scene_loops.
Context `{PyFloat}.

Lemma map_ext_elem {A B} (f g : A -> B) (l : list A) :
  (forall x, x ∈ l -> f x = g x) -> map f l = map g l.
Proof.
  intros E. induction l as [|x l IH]; simpl; [done|].
  rewrite E by left. rewrite IH; [done|]. intros y ?. apply E. by right.
Qed.

Lemma map_id_elem {A} (f : A -> A) (l : list A) :
  (forall x, x ∈ l -> f x = x) -> map f l = l.
Proof.
  intros E. rewrite (map_ext_elem f id); [apply map_id|done].
Qed.

(** With distinct identities, the object found under an identity is the
    only one that bears it. *)
Lemma find_object_unique i l o o' :
  NoDup (map ob_id l) -> bpy.find_object i l = Some o -> o' ∈ l -> ob_id o' = i -> o' = o.
Proof.
  intros Hnd Ho Hin <-. rewrite (find_object_elem l o' Hnd Hin) in Ho. congruence.
Qed.

(** One turn: the object [i] is read and, if it passes the test [P],
    assigned what [g] computes from it. *)
Lemma scene_step (P : Object -> bool) (g : Object -> Object -> Object) i w :
  NoDup (map ob_id (objects w)) -> i ∈ map ob_id (objects w) ->
  (o ← bpy.obj_get i; if P o then bpy.obj_set i (g o) else mret tt) w
  = Ok (tt, with_objects
              (bpy.update_object i (fun o' => if P o' then g o' o' else o') (objects w)) w).
Proof.
  intros Hnd Hin. destruct (find_object_is_Some i (objects w) Hin) as [o Ho].
  assert (Hu : forall f, (forall o', o' = o -> f o' = if P o' then g o' o' else o') ->
           bpy.update_object i f (objects w)
           = bpy.update_object i (fun o' => if P o' then g o' o' else o') (objects w)).
  { intros f Hf. unfold bpy.update_object. apply map_ext_elem. intros o' Hk.
    destruct (ob_id o' =? i)%nat eqn:E; [|done]. apply Nat.eqb_eq in E.
    apply Hf. by eapply find_object_unique. }
  unfold bpy.obj_get, bpy.obj_set. munfold. rewrite Ho.
  destruct (P o) eqn:EP.
  - rewrite Ho. do 3 f_equal. apply Hu. intros o' ->. by rewrite EP.
  - do 2 f_equal. rewrite <- (with_objects_same w) at 1. f_equal.
    rewrite <- (Hu id); [|intros o' ->; by rewrite EP].
    unfold bpy.update_object. symmetry. apply map_id_elem. intros o' _.
    by destruct (ob_id o' =? i)%nat.
Qed.

(** A loop over objects of the store, each visited once, that assigns to
    those that pass the test [P] what [g] computes from the object. *)
Lemma for_scene (P : Object -> bool) (g : Object -> Object -> Object) ids :
  (forall o o', ob_id (g o o') = ob_id o') ->
  NoDup ids ->
  forall w,
    NoDup (map ob_id (objects w)) ->
    (forall i, i ∈ ids -> i ∈ map ob_id (objects w)) ->
    for_ ids (fun i => o ← bpy.obj_get i; if P o then bpy.obj_set i (g o) else mret tt) w
    = Ok (tt, with_objects
                (map (fun o => if bool_decide (ob_id o ∈ ids) && P o then g o o else o)
                     (objects w))
                w).
Proof.
  intros Hid Hids. induction Hids as [|i ids Hi Hids IH]; intros w Hnd Hin.
  - unfold for_. cbn [foldM]. unfold mret, M_ret. do 2 f_equal.
    rewrite map_id_elem; [symmetry; apply with_objects_same|]. intros o _.
    rewrite bool_decide_eq_false_2; [done|]. apply not_elem_of_nil.
  - unfold for_ in *. cbn [foldM].
    unfold mbind at 1. unfold M_bind at 1.
    rewrite scene_step; [|done|apply Hin; left].
    assert (Hpres : forall o', ob_id (if P o' then g o' o' else o') = ob_id o').
    { intros o'. destruct (P o'); [apply Hid|done]. }
    rewrite IH.
    + do 2 f_equal. simpl. f_equal.
      unfold bpy.update_object. rewrite map_map.
      apply map_ext_elem. intros o' Hk.
      destruct (ob_id o' =? i)%nat eqn:E.
      * apply Nat.eqb_eq in E. subst i.
        rewrite Hpres. rewrite (bool_decide_eq_false_2 _ Hi). simpl.
        rewrite bool_decide_eq_true_2 by left. simpl. done.
      * apply Nat.eqb_neq in E.
        destruct (decide (ob_id o' ∈ ids)) as [Hm|Hm].
        -- rewrite !bool_decide_eq_true_2; [done|by right|done].
        -- rewrite !bool_decide_eq_false_2; [done| |done].
           rewrite elem_of_cons. intros [?|?]; done.
    + simpl. rewrite update_object_ids; done.
    + intros j Hj. simpl. rewrite update_object_ids by done. apply Hin. by right.
Qed.

End scene_loops.

(** ** Apply Type and Apply Scale *)
Section empties.
Context `{PyFloat}.
Import SAPIENS_OT_set_empty_types.

Lemma for_ext {A} (body body' : A -> M unit) l :
  (forall x w, body x w = body' x w) -> forall w, for_ l body w = for_ l body' w.
Proof.
  intros E. unfold for_. induction l as [|x l IH]; intros w; cbn [foldM]; [done|].
  unfold mbind, M_bind. rewrite E. destruct (body' x w) as [[[] w1]|e]; [apply IH|done].
Qed.

Lemma scene_of_ids context w f :
  (forall o, ob_id (f o) = ob_id o) ->
  scene_of context w -> scene_of context (with_objects (map f (objects w)) w).
Proof.
  intros Hf (H1 & H2 & H3). unfold scene_of. simpl.
  assert (E : map ob_id (map f (objects w)) = map ob_id (objects w)).
  { rewrite map_map. by apply map_ext_elem. }
  by rewrite E.
Qed.

(** The type [get_empty_type] gives is the type it gives again once it has
    been assigned. *)
Lemma get_empty_type_assigned o :
  get_empty_type (set_empty_display_type (get_empty_type o) o) = get_empty_type o.
Proof.
  unfold get_empty_type. simpl.
  destruct (str_in "box" _ || str_in "cube" _); [done|].
  destruct (str_in "sphere" _ || str_in "seat" _ || str_in "radius" _); [done|].
  by destruct (str_in "store" _).
Qed.

Lemma set_empty_types_run context w :
  scene_of context w ->
  execute context w
  = Ok (FINISHED,
        with_objects
          (map (fun o => if scene_empty context o
                         then set_empty_display_type (get_empty_type o) o else o)
               (objects w)) w).
Proof.
  intros (Hids & Hin & Hnd). unfold execute.
  unfold mbind at 1. unfold M_bind at 1.
  rewrite (for_ext _ (fun i => o ← bpy.obj_get i;
                               if String.eqb (ob_type o) "EMPTY"
                               then bpy.obj_set i
                                      ((fun o o' => set_empty_display_type (get_empty_type o) o') o)
                               else mret tt)).
  - rewrite for_scene; [done|done|done|done|]. by apply Forall_forall.
  - intros i w0. unfold bpy.obj_get, bpy.obj_set. munfold.
    destruct (bpy.find_object i (objects w0)) as [o|] eqn:Ho; [|done].
    destruct (String.eqb (ob_type o) "EMPTY"); [|done]. by rewrite !Ho.
Qed.

Lemma scale_empties_run context w :
  scene_of context w ->
  SAPIENS_OT_scale_empties.execute context w
  = Ok (FINISHED,
        with_objects
          (map (fun o => if scene_empty context o
                         then set_empty_display_size (dec 1000) o else o)
               (objects w)) w).
Proof.
  intros (Hids & Hin & Hnd). unfold SAPIENS_OT_scale_empties.execute.
  unfold mbind at 1. unfold M_bind at 1.
  rewrite (for_scene (fun o => String.eqb (ob_type o) "EMPTY")
             (fun _ o' => set_empty_display_size (dec 1000) o'));
    [done|done|done|done|]. by apply Forall_forall.
Qed.

End empties.

(** X1.  [get_empty_type] reads the name of the object without regard to
    case and goes by the first group of keywords of which one occurs in it:
    ["box"] or ["cube"] gives ['CUBE'], whatever else the name holds; failing
    that ["sphere"], ["seat"] or ["radius"] gives ['SPHERE']; failing that
    ["store"] gives ['PLAIN_AXES']; with no keyword the display type of the
    object is returned as it is.  Two names that differ in case only give the
    same type. *)
Theorem X1_get_empty_type_goes_by_first_keyword `{PyFloat} (obj : Object) :
  let name := pathlib.lower (ob_name obj) in
  let cube := occurs "box" name \/ occurs "cube" name in
  let sphere := occurs "sphere" name \/ occurs "seat" name \/ occurs "radius" name in
  let store := occurs "store" name in
  (cube -> SAPIENS_OT_set_empty_types.get_empty_type obj = "CUBE")
  /\ (~ cube -> sphere -> SAPIENS_OT_set_empty_types.get_empty_type obj = "SPHERE")
  /\ (~ cube -> ~ sphere -> store ->
      SAPIENS_OT_set_empty_types.get_empty_type obj = "PLAIN_AXES")
  /\ (~ cube -> ~ sphere -> ~ store ->
      SAPIENS_OT_set_empty_types.get_empty_type obj = ob_empty_display_type obj)
  /\ (forall other, pathlib.lower other = name ->
      SAPIENS_OT_set_empty_types.get_empty_type (set_name other obj)
      = SAPIENS_OT_set_empty_types.get_empty_type obj).
Proof.
  intros name cube sphere store.
  assert (Hcube : str_in "box" name || str_in "cube" name = true <-> cube).
  { unfold cube. by rewrite orb_true_iff, !str_in_spec. }
  assert (Hsphere : str_in "sphere" name || str_in "seat" name || str_in "radius" name = true
                    <-> sphere).
  { unfold sphere. rewrite !orb_true_iff, !str_in_spec. tauto. }
  assert (Hstore : str_in "store" name = true <-> store).
  { unfold store. by rewrite str_in_spec. }
  unfold SAPIENS_OT_set_empty_types.get_empty_type. fold name.
  destruct (str_in "box" name || str_in "cube" name) eqn:E1;
    destruct (str_in "sphere" name || str_in "seat" name || str_in "radius" name) eqn:E2;
    destruct (str_in "store" name) eqn:E3;
    (split_and!; [try done; intros; exfalso; intuition congruence ..|]);
    intros other Hother; simpl; rewrite Hother; fold name; by rewrite E1, ?E2, ?E3.
Qed.

(** X2.  In a scene that lists objects of the file, each once, Apply Type
    finishes, and it changes nothing but the display type of the empties of
    the scene: each gets the type [get_empty_type] gives for it; the objects
    of other types, the empties outside the scene and everything else of the
    file are as they were. *)
Theorem X2_set_empty_types_assigns_the_scene_empties `{PyFloat}
    (context : bContext) (w : World) :
  scene_of context w ->
  SAPIENS_OT_set_empty_types.execute context w
  = Ok (FINISHED,
        with_objects
          (map (fun o => if scene_empty context o
                         then set_empty_display_type
                                (SAPIENS_OT_set_empty_types.get_empty_type o) o
                         else o)
               (objects w)) w).
Proof. apply set_empty_types_run. Qed.

(** Apply Type on the sample scene: the box and the sphere-and-box become
    cubes, the store plain axes, the handle keeps its cone; the mesh named
    box and the empty outside the scene are not touched. *)
Lemma X2_set_empty_types_witness :
  scene_of empties_context empties_scene
  /\ @SAPIENS_OT_set_empty_types.execute micro empties_context empties_scene
     = Ok (FINISHED,
           with_objects
             [ sample_empty 0 "static_Box" "CUBE" 250000;
               sample_empty 1 "Seat_sphere_box" "CUBE" 500000;
               sample_object 2 "box" "MESH" false (0, 0, 0)%Z [];
               sample_empty 3 "resource_store" "PLAIN_AXES" 1000000;
               sample_empty 4 "handle" "CONE" 2000000;
               sample_empty 5 "bounding_radius" "PLAIN_AXES" 750000 ]
             empties_scene).
Proof.
  assert (Hs : scene_of empties_context empties_scene).
  { unfold scene_of. split_and!; apply (bool_decide_unpack _); vm_compute; exact I. }
  split; [exact Hs|].
  rewrite (@X2_set_empty_types_assigns_the_scene_empties micro _ _ Hs). reflexivity.
Defined.

(** X3.  Apply Type run twice is Apply Type run once: the second run finds
    every empty with the type it would give it. *)
Theorem X3_set_empty_types_twice_is_once `{PyFloat} (context : bContext) (w : World) :
  scene_of context w ->
  (SAPIENS_OT_set_empty_types.execute context;;
   SAPIENS_OT_set_empty_types.execute context) w
  = SAPIENS_OT_set_empty_types.execute context w.
Proof.
  intros Hs. unfold mbind at 1. unfold M_bind at 1.
  rewrite (set_empty_types_run context w Hs).
  rewrite set_empty_types_run by (apply scene_of_ids; [|done]; intros o; by destruct (scene_empty _ _)).
  do 2 f_equal. simpl. f_equal. rewrite map_map. apply map_ext_elem. intros o _.
  destruct (scene_empty context o) eqn:E; [|by rewrite E].
  change (scene_empty context (set_empty_display_type ?t o)) with (scene_empty context o).
  rewrite E. by rewrite get_empty_type_assigned.
Qed.

Lemma X3_set_empty_types_twice_witness :
  scene_of empties_context empties_scene
  /\ (@SAPIENS_OT_set_empty_types.execute micro empties_context;;
      SAPIENS_OT_set_empty_types.execute empties_context) empties_scene
     = SAPIENS_OT_set_empty_types.execute empties_context empties_scene.
Proof.
  assert (Hs : scene_of empties_context empties_scene).
  { unfold scene_of. split_and!; apply (bool_decide_unpack _); vm_compute; exact I. }
  split; [exact Hs|].
  exact (@X3_set_empty_types_twice_is_once micro _ _ Hs).
Defined.

(** X4.  In a scene that lists objects of the file, each once, Apply Scale
    finishes, and it changes nothing but the display size of the empties of
    the scene, which becomes [1.0]; run again it changes nothing. *)
Theorem X4_scale_empties_sets_the_scene_empties_to_one `{PyFloat}
    (context : bContext) (w : World) :
  scene_of context w ->
  let w' := with_objects
              (map (fun o => if scene_empty context o
                             then set_empty_display_size (dec 1000) o else o)
                   (objects w)) w in
  SAPIENS_OT_scale_empties.execute context w = Ok (FINISHED, w')
  /\ SAPIENS_OT_scale_empties.execute context w' = Ok (FINISHED, w').
Proof.
  intros Hs w'. split; [by apply scale_empties_run|].
  unfold w'. rewrite scale_empties_run
    by (apply scene_of_ids; [|done]; intros o; by destruct (scene_empty _ _)).
  do 2 f_equal. simpl. f_equal. rewrite map_map. apply map_ext_elem. intros o _.
  destruct (scene_empty context o) eqn:E; [|by rewrite E].
  change (scene_empty context (set_empty_display_size ?t o)) with (scene_empty context o).
  by rewrite E.
Qed.

Lemma X4_scale_empties_witness :
  scene_of empties_context empties_scene
  /\ (let w' := with_objects
                  [ sample_empty 0 "static_Box" "PLAIN_AXES" 1000000;
                    sample_empty 1 "Seat_sphere_box" "ARROWS" 1000000;
                    sample_object 2 "box" "MESH" false (0, 0, 0)%Z [];
                    sample_empty 3 "resource_store" "CUBE" 1000000;
                    sample_empty 4 "handle" "CONE" 1000000;
                    sample_empty 5 "bounding_radius" "PLAIN_AXES" 750000 ]
                  empties_scene in
      @SAPIENS_OT_scale_empties.execute micro empties_context empties_scene
      = Ok (FINISHED, w')
      /\ SAPIENS_OT_scale_empties.execute empties_context w' = Ok (FINISHED, w')).
Proof.
  assert (Hs : scene_of empties_context empties_scene).
  { unfold scene_of. split_and!; apply (bool_decide_unpack _); vm_compute; exact I. }
  split; [exact Hs|].
  exact (@X4_scale_empties_sets_the_scene_empties_to_one micro _ _ Hs).
Defined.

(** X5.  Apply Scale and Apply Type do not interfere: in either order they
    leave the same file. *)
Theorem X5_scale_and_type_commute `{PyFloat} (context : bContext) (w : World) :
  scene_of context w ->
  (SAPIENS_OT_scale_empties.execute context;;
   SAPIENS_OT_set_empty_types.execute context) w
  = (SAPIENS_OT_set_empty_types.execute context;;
     SAPIENS_OT_scale_empties.execute context) w.
Proof.
  intros Hs. unfold mbind, M_bind.
  rewrite (set_empty_types_run context w Hs), (scale_empties_run context w Hs).
  rewrite set_empty_types_run
    by (apply scene_of_ids; [|done]; intros o; by destruct (scene_empty _ _)).
  rewrite scale_empties_run
    by (apply scene_of_ids; [|done]; intros o; by destruct (scene_empty _ _)).
  do 2 f_equal. simpl. f_equal. rewrite !map_map. apply map_ext_elem. intros o _.
  destruct (scene_empty context o) eqn:E; [|by rewrite !E].
  change (scene_empty context (set_empty_display_size ?t o)) with (scene_empty context o).
  change (scene_empty context (set_empty_display_type ?t o)) with (scene_empty context o).
  by rewrite E.
Qed.

Lemma X5_scale_and_type_witness :
  scene_of empties_context empties_scene
  /\ (@SAPIENS_OT_scale_empties.execute micro empties_context;;
      SAPIENS_OT_set_empty_types.execute empties_context) empties_scene
     = (SAPIENS_OT_set_empty_types.execute empties_context;;
        SAPIENS_OT_scale_empties.execute empties_context) empties_scene.
Proof.
  assert (Hs : scene_of empties_context empties_scene).
  { unfold scene_of. split_and!; apply (bool_decide_unpack _); vm_compute; exact I. }
  split; [exact Hs|].
  exact (@X5_scale_and_type_commute micro _ _ Hs).
Defined.

(** ** Add Buildables *)
Section add_buildables.
Context `{PyFloat}.

Lemma find_object_app_fresh i l o :
  i ∉ map ob_id l -> ob_id o = i -> bpy.find_object i (l ++ [o]) = Some o.
Proof.
  intros Hi Ho. induction l as [|x l IH]; simpl.
  - by rewrite Ho, Nat.eqb_refl.
  - simpl in Hi. apply not_elem_of_cons in Hi as [Hx Hi].
    destruct (ob_id x =? i)%nat eqn:E; [apply Nat.eqb_eq in E; congruence|]. by apply IH.
Qed.

Lemma update_object_app_fresh i f l o :
  i ∉ map ob_id l -> ob_id o = i -> bpy.update_object i f (l ++ [o]) = l ++ [f o].
Proof.
  intros Hi Ho. unfold bpy.update_object. rewrite map_app. simpl.
  rewrite Ho, Nat.eqb_refl. f_equal. by apply update_object_absent.
Qed.

Lemma fresh_store_next w : fresh_store w -> next_id w ∉ map ob_id (objects w).
Proof.
  intros (_ & Hlt & _) Hin. apply list_elem_of_fmap in Hin as (o & Ho & Hin).
  rewrite Forall_forall in Hlt. specialize (Hlt o Hin). lia.
Qed.

Lemma with_empty_fresh name display c w :
  fresh_store w -> fresh_store (with_empty name display c w).
Proof.
  intros (Hnd & Hlt & Hcol). unfold fresh_store, with_empty. simpl. split_and!.
  - rewrite map_app. simpl. apply NoDup_app. split_and!; [done| |apply NoDup_singleton].
    intros i Hi ->%list_elem_of_singleton. by apply (fresh_store_next w).
  - apply Forall_app. split.
    + eapply Forall_impl; [exact Hlt|]. simpl. lia.
    + apply Forall_singleton. simpl. lia.
  - apply Forall_forall. intros k Hk.
    apply list_elem_of_lookup_1 in Hk as [j Hj].
    destruct (decide (j = c)) as [->|Hne].
    + rewrite list_lookup_alter_eq in Hj.
      destruct (collections w !! c) as [l|] eqn:El; [|done]. simpl in Hj.
      injection Hj as <-. apply Forall_app. split.
      * rewrite Forall_forall in Hcol. eapply Forall_impl.
        -- apply Hcol. by eapply list_elem_of_lookup_2.
        -- simpl. lia.
      * apply Forall_singleton. lia.
    + rewrite list_lookup_alter_ne in Hj by done.
      rewrite Forall_forall in Hcol. eapply Forall_impl.
      * apply Hcol. by eapply list_elem_of_lookup_2.
      * simpl. lia.
Qed.

(** The three calls that make one empty. *)
Lemma add_empty {A} name display c (k : M A) w :
  fresh_store w -> is_Some (collections w !! c) ->
  (e ← bpy.objects_new name;
   bpy.obj_set e (set_empty_display_type display);;
   bpy.collection_link c e;; k) w
  = k (with_empty name display c w).
Proof.
  intros Hf [l Hl]. pose proof (fresh_store_next w Hf) as Hn.
  destruct Hf as (Hnd & Hlt & Hcol).
  unfold bpy.objects_new, bpy.obj_set, bpy.collection_link. munfold. simpl.
  rewrite find_object_app_fresh by done. simpl. rewrite Hl.
  rewrite bool_decide_eq_false_2.
  - unfold with_empty. simpl. rewrite update_object_app_fresh by done.
    do 2 f_equal. apply list_eq. intros j.
    destruct (decide (j = c)) as [->|Hne].
    + rewrite list_lookup_alter_eq, Hl. simpl. symmetry.
      symmetry. apply list_lookup_insert_eq. by eapply lookup_lt_Some.
    + by rewrite list_lookup_alter_ne, list_lookup_insert_ne.
  - intros Hin. rewrite Forall_forall in Hcol.
    assert (Hc : Forall (fun j => (j < next_id w)%nat) l).
    { apply Hcol. by eapply list_elem_of_lookup_2. }
    rewrite Forall_forall in Hc. specialize (Hc _ Hin). lia.
Qed.

Lemma with_empty_collection name display c w :
  is_Some (collections w !! c) -> is_Some (collections (with_empty name display c w) !! c).
Proof.
  intros [l Hl]. unfold with_empty. simpl. rewrite list_lookup_alter_eq, Hl. by eexists.
Qed.

Lemma add_buildables_run context w :
  fresh_store w -> is_Some (collections w !! ctx_collection context) ->
  SAPIENS_OT_add_buildables.execute context w
  = Ok (FINISHED,
        with_reports (reports w ++ [{| rep_level := "INFO"; rep_message := [Lit "Done."] |}])
          (with_empty "static_box" "CUBE" (ctx_collection context)
             (with_empty "placeAttach_box_1" "CUBE" (ctx_collection context)
                (with_empty "bounding_radius" "SPHERE" (ctx_collection context) w)))).
Proof.
  intros Hf Hc. unfold SAPIENS_OT_add_buildables.execute.
  rewrite add_empty by done.
  rewrite add_empty by (by apply with_empty_fresh || by apply with_empty_collection).
  rewrite add_empty
    by (by repeat apply with_empty_fresh || by repeat apply with_empty_collection).
  reflexivity.
Qed.

End add_buildables.

Section add_buildables_facts.
Context `{PyFloat}.



(** The objects of the file after Add Buildables. *)
Lemma add_buildables_objects context w :
  objects (with_empty "static_box" "CUBE" (ctx_collection context)
             (with_empty "placeAttach_box_1" "CUBE" (ctx_collection context)
                (with_empty "bounding_radius" "SPHERE" (ctx_collection context) w)))
  = objects w ++
      [ set_empty_display_type "SPHERE" (bpy.new_empty (next_id w) "bounding_radius");
        set_empty_display_type "CUBE" (bpy.new_empty (next_id w + 1) "placeAttach_box_1");
        set_empty_display_type "CUBE" (bpy.new_empty (next_id w + 2) "static_box") ].
Proof.
  simpl. rewrite <- !app_assoc. simpl.
  by replace (next_id w + 1)%nat with (S (next_id w)) by lia;
     replace (next_id w + 2)%nat with (S (S (next_id w))) by lia.
Qed.

End add_buildables_facts.



(** X7.  Apply Type agrees with Add Buildables: for each of the three
    empties Add Buildables makes, [get_empty_type] gives the display type the
    empty was made with, so that Apply Type, in whatever scene, leaves the
    three as they are. *)
Theorem X7_apply_type_keeps_the_buildables `{PyFloat}
    (context : bContext) (w : World) :
  fresh_store w ->
  is_Some (collections w !! ctx_collection context) ->
  exists w',
    SAPIENS_OT_add_buildables.execute context w = Ok (FINISHED, w')
    /\ (forall o, o ∈ drop (length (objects w)) (objects w') ->
          SAPIENS_OT_set_empty_types.get_empty_type o = ob_empty_display_type o)
    /\ (forall scene, scene_of scene w' ->
          exists w'',
            SAPIENS_OT_set_empty_types.execute scene w' = Ok (FINISHED, w'')
            /\ drop (length (objects w)) (objects w'')
               = drop (length (objects w)) (objects w')).
Proof.
  intros Hf Hc. eexists. split; [by apply add_buildables_run|].
  assert (Hnew : forall o,
    o ∈ drop (length (objects w))
          (objects (with_reports (reports w ++ [{| rep_level := "INFO";
                                                   rep_message := [Lit "Done."] |}])
             (with_empty "static_box" "CUBE" (ctx_collection context)
                (with_empty "placeAttach_box_1" "CUBE" (ctx_collection context)
                   (with_empty "bounding_radius" "SPHERE" (ctx_collection context) w))))) ->
    SAPIENS_OT_set_empty_types.get_empty_type o = ob_empty_display_type o).
  { intros o. change (objects (with_reports ?r ?x)) with (objects x).
    rewrite add_buildables_objects, drop_app_length.
    rewrite !elem_of_cons, elem_of_nil. intros [->|[->|[->|[]]]]; reflexivity. }
  split; [exact Hnew|].
  intros scene Hs. eexists. split; [by apply set_empty_types_run|].
  cbn [objects with_objects]. rewrite skipn_map.
  apply map_id_elem. intros o Ho.
  destruct (scene_empty scene o); [|done].
  rewrite (Hnew o Ho). by destruct o.
Qed.

Lemma X7_apply_type_witness :
  exists w',
    @SAPIENS_OT_add_buildables.execute micro empties_context sample_scene = Ok (FINISHED, w')
    /\ (forall o, o ∈ drop (length (objects sample_scene)) (objects w') ->
          SAPIENS_OT_set_empty_types.get_empty_type o = ob_empty_display_type o).
Proof.
  destruct (@X7_apply_type_keeps_the_buildables micro empties_context sample_scene)
    as (w' & Hrun & Hnew & _).
  - unfold fresh_store. split_and!; apply (bool_decide_unpack _); vm_compute; exact I.
  - eexists. reflexivity.
  - exists w'. split; [exact Hrun|exact Hnew].
Defined.

(** ** The export folder *)
Section export_folder.
Context `{PyFloat}.

Lemma mkdir_fold (p : Path) (qs : list Path) :
  forall fs0 fs1 : gmap Path entry,
    foldl (fun r q =>
             fs ← r;
             match fs !! q with
             | None => Ok (<[q := Dir]> fs)
             | Some Dir => Ok fs
             | Some (File _) =>
                 Raise (if bool_decide (q = p) then FileExistsError else NotADirectoryError)
             end)
          (Ok fs0) qs = Ok fs1 ->
    fs0 ⊆ fs1
    /\ Forall (fun q => fs1 !! q = Some Dir) qs
    /\ (forall q, q ∉ qs -> fs1 !! q = fs0 !! q).
Proof.
  induction qs as [|q qs IH]; intros fs0 fs1; cbn [foldl].
  - intros [= ->]. split; [done|]. split; [constructor|done].
  - unfold mbind at 2. unfold result_bind at 2.
    destruct (fs0 !! q) as [[|content]|] eqn:Eq.
    + intros Hrun. destruct (IH _ _ Hrun) as (Hsub & Hdirs & Hrest).
      split; [done|]. split.
      * constructor; [|done]. by eapply lookup_weaken.
      * intros q' Hq'. apply Hrest. intros ?. apply Hq'. by right.
    + intros Hrun. exfalso. revert Hrun. clear.
      generalize (if bool_decide (q = p) then FileExistsError else NotADirectoryError).
      intros e. induction qs as [|q' qs IH]; cbn [foldl]; [done|]. exact IH.
    + intros Hrun. destruct (IH _ _ Hrun) as (Hsub & Hdirs & Hrest).
      assert (Hsub0 : fs0 ⊆ <[q := Dir]> fs0) by (by apply insert_subseteq).
      split; [by etrans|]. split.
      * constructor; [|done]. eapply lookup_weaken; [|done]. by rewrite lookup_insert_eq.
      * intros q' Hq'. rewrite Hrest.
        -- apply lookup_insert_ne. intros ->. apply Hq'. by left.
        -- intros ?. apply Hq'. by right.
Qed.

Lemma ancestors_self (p : Path) : p <> [] -> p ∈ pathlib.ancestors p.
Proof.
  intros Hp. unfold pathlib.ancestors. apply list_elem_of_fmap.
  exists (length p). split; [by rewrite firstn_all|].
  apply elem_of_seq. destruct p; [done|]. simpl. lia.
Qed.

(** [mkdir(parents=True, exist_ok=True)] adds directories and nothing
    else: what was on the disk stays, and the path is a directory. *)
Lemma mkdir_ok (p : Path) (fs0 fs1 : gmap Path entry) :
  pathlib.mkdir p fs0 = Ok fs1 ->
  fs0 ⊆ fs1
  /\ (p <> [] -> fs1 !! p = Some Dir)
  /\ (forall q, q ∉ pathlib.ancestors p -> fs1 !! q = fs0 !! q).
Proof.
  intros Hrun. destruct (mkdir_fold p _ _ _ Hrun) as (Hsub & Hdirs & Hrest).
  split; [done|]. split; [|done].
  intros Hp. rewrite Forall_forall in Hdirs. by apply Hdirs, ancestors_self.
Qed.

(** The directory [get_export_folder] resolves for a blend file. *)
Lemma get_export_folder_ok blend_path w r w' :
  get_export_folder blend_path w = Ok (r, w') ->
  if pathlib.exists_ (fs w) (filepath w) then
    exists fs1,
      let blend_dir := pathlib.parent (filepath w) in
      let export_dir :=
        if String.eqb (pathlib.lower (pathlib.name blend_dir)) "blends"
        then pathlib.joinpath (pathlib.parent blend_dir) "models" else blend_dir in
      r = Some export_dir /\ w' = with_fs fs1 w
      /\ pathlib.mkdir export_dir (fs w) = Ok fs1
  else r = None /\ w' = w.
Proof.
  unfold get_export_folder, path_exists, path_mkdir. munfold.
  destruct (pathlib.exists_ (fs w) (filepath w)); simpl.
  - destruct (pathlib.mkdir _ (fs w)) as [fs1|e] eqn:E; [|done].
    intros [= <- <-]. by exists fs1.
  - by intros [= <- <-].
Qed.

End export_folder.

(** X8.  [get_export_folder] looks at the path of the blend file, never at
    its argument.  If no file is there it answers [False] and changes
    nothing.  Otherwise the folder is the directory of the blend file, or,
    when that directory is named ["blends"] in any case, the sibling
    ["models"]; when the call returns, the folder is a directory on the disk
    and the disk holds all it held before, unchanged: only missing
    directories on the way to the folder have been added. *)
Theorem X8_get_export_folder_resolves_and_creates `{PyFloat}
    (blend_path : Path) (w : World) (r : option Path) (w' : World) :
  get_export_folder blend_path w = Ok (r, w') ->
  (forall other, get_export_folder other w = Ok (r, w'))
  /\ (pathlib.exists_ (fs w) (filepath w) = false -> r = None /\ w' = w)
  /\ (pathlib.exists_ (fs w) (filepath w) = true ->
      let blend_dir := pathlib.parent (filepath w) in
      exists export_dir,
        r = Some export_dir
        /\ (pathlib.lower (pathlib.name blend_dir) = "blends" ->
            export_dir = pathlib.parent blend_dir ++ ["models"])
        /\ (pathlib.lower (pathlib.name blend_dir) <> "blends" -> export_dir = blend_dir)
        /\ w' = with_fs (fs w') w
        /\ fs w ⊆ fs w'
        /\ (export_dir <> [] -> fs w' !! export_dir = Some Dir)
        /\ (forall q, q ∉ pathlib.ancestors export_dir -> fs w' !! q = fs w !! q)).
Proof.
  intros Hrun. split; [intros other; exact Hrun|].
  apply get_export_folder_ok in Hrun.
  destruct (pathlib.exists_ (fs w) (filepath w)).
  - split; [done|]. intros _ blend_dir.
    destruct Hrun as (fs1 & -> & -> & Hmk). cbv zeta in Hmk. subst blend_dir.
    apply mkdir_ok in Hmk as (Hsub & Hdir & Hrest).
    destruct (String.eqb (pathlib.lower (pathlib.name (pathlib.parent (filepath w))))
                "blends") eqn:E;
      [apply String.eqb_eq in E|apply String.eqb_neq in E];
      (eexists; split; [reflexivity|]; split_and!; done).
  - split; [by intros _|done].
Qed.

(** The sample project: the blend file is in [blends], the folder is the
    sibling [models]. *)
Lemma X8_get_export_folder_witness :
  exists w',
    @get_export_folder micro [] sample_scene = Ok (Some ["project"; "models"], w')
    /\ fs sample_scene ⊆ fs w'
    /\ fs w' !! ["project"; "models"] = Some Dir.
Proof.
  assert (Hv : value (@get_export_folder micro [] sample_scene)
               = Ok (Some ["project"; "models"])) by (vm_compute; reflexivity).
  destruct (@get_export_folder micro [] sample_scene) as [[r w']|e] eqn:E;
    [|discriminate Hv].
  injection Hv as ->. exists w'. split; [reflexivity|].
  destruct (@X8_get_export_folder_resolves_and_creates micro [] sample_scene _ w' E)
    as (_ & _ & Hex).
  destruct Hex as (d & Hd & _ & _ & _ & Hsub & Hdir & _); [vm_compute; reflexivity|].
  injection Hd as <-. split; [exact Hsub|]. apply Hdir. discriminate.
Defined.

(** ** Export *)
Section export.
Context `{PyFloat}.

Lemma get_export_path_ok blend_path w p w' :
  get_export_path blend_path w = Ok (p, w') ->
  exists export_dir,
    get_export_folder blend_path w = Ok (Some export_dir, w')
    /\ p = export_dir ++ [pathlib.stem blend_path].
Proof.
  unfold get_export_path. munfold.
  destruct (get_export_folder blend_path w) as [[[d|] w1]|e]; [|done..].
  intros [= <- <-]. by exists d.
Qed.

Lemma get_export_path_missing blend_path w :
  pathlib.exists_ (fs w) (filepath w) = false ->
  get_export_path blend_path w = Raise TypeError.
Proof.
  intros Hex. unfold get_export_path, get_export_folder, path_exists. munfold.
  by rewrite Hex.
Qed.

End export.

(** X9.  When the path of the blend file does not exist, [get_export_path]
    divides the [False] of [get_export_folder] by a string: it raises
    [TypeError].  Export and Export Empties, which test its result only
    afterwards, raise that error and do not return [CANCELLED]. *)
Theorem X9_export_of_a_missing_file_raises `{PyFloat} (w : World) :
  pathlib.exists_ (fs w) (filepath w) = false ->
  (forall blend_path, get_export_path blend_path w = Raise TypeError)
  /\ SAPIENS_OT_export.execute w = Raise TypeError
  /\ SAPIENS_OT_export_empties.execute w = Raise TypeError.
Proof.
  intros Hex. split; [intros p; by apply get_export_path_missing|].
  split.
  - unfold SAPIENS_OT_export.execute.
    unfold mbind at 1. unfold M_bind at 1. unfold gets at 1.
    unfold mbind at 1. unfold M_bind at 1. by rewrite get_export_path_missing.
  - unfold SAPIENS_OT_export_empties.execute.
    unfold mbind at 1. unfold M_bind at 1. unfold gets at 1.
    unfold mbind at 1. unfold M_bind at 1. by rewrite get_export_path_missing.
Qed.

(** The sample scene with nothing on the disk. *)
Lemma X9_export_missing_witness :
  pathlib.exists_ (fs (with_fs ∅ sample_scene)) (filepath (with_fs ∅ sample_scene)) = false
  /\ @SAPIENS_OT_export.execute micro (with_fs ∅ sample_scene) = Raise TypeError
  /\ @SAPIENS_OT_export_empties.execute micro (with_fs ∅ sample_scene) = Raise TypeError.
Proof.
  assert (Hex : pathlib.exists_ (fs (with_fs ∅ sample_scene))
                  (filepath (with_fs ∅ sample_scene)) = false) by reflexivity.
  split; [exact Hex|].
  exact (proj2 (@X9_export_of_a_missing_file_raises micro _ Hex)).
Defined.

(** X10.  Whenever Export returns, it returns [FINISHED]: the blend file was
    there, the exporter has been called once, on the objects that were
    selected, for the file named by the stem of the blend file in the folder
    [get_export_folder] resolves, and the call has been reported.  The
    objects, the selection, the active object, the materials and the
    collections are untouched, and the disk holds all it held before. *)
Theorem X10_export_exports_the_selection_once `{PyFloat} (w w' : World) (s : status) :
  SAPIENS_OT_export.execute w = Ok (s, w') ->
  s = FINISHED
  /\ pathlib.exists_ (fs w) (filepath w) = true
  /\ exists export_dir w1,
       get_export_folder (filepath w) w = Ok (Some export_dir, w1)
       /\ exports w'
          = exports w ++
              [{| ex_filepath := export_dir ++ [pathlib.stem (filepath w)];
                  ex_apply := false; ex_materials := "EXPORT"; ex_cameras := false;
                  ex_selection := filter (fun o => ob_select o = true) (objects w) |}]
       /\ reports w'
          = reports w ++
              [{| rep_level := "INFO";
                  rep_message := [Lit "Exported to ";
                                  FPath (export_dir ++ [pathlib.stem (filepath w)])] |}]
       /\ objects w' = objects w /\ active w' = active w
       /\ materials w' = materials w /\ collections w' = collections w
       /\ fs w ⊆ fs w'.
Proof.
  unfold SAPIENS_OT_export.execute.
  intros (blend_path & w0 & [-> ->]%gets_ok & Hrun)%bind_ok.
  apply bind_ok in Hrun as (p & w1 & Hpath & Hrun).
  apply get_export_path_ok in Hpath as (d & Hfolder & ->).
  pose proof (get_export_folder_ok _ _ _ _ Hfolder) as Hok.
  destruct (pathlib.exists_ (fs w) (filepath w)); [|by destruct Hok].
  destruct Hok as (fs1 & _ & -> & Hmk). apply mkdir_ok in Hmk as (Hsub & _).
  unfold path_bool in Hrun. simpl in Hrun.
  unfold bpy.export_scene_gltf, report in Hrun. munfold.
  injection Hrun as <- <-.
  split; [done|]. split; [done|]. exists d, (with_fs fs1 w). by split_and!.
Qed.

(** Export on the sample scene: the selected meshes go to
    [project/models/chair]. *)
Lemma X10_export_witness :
  exists w',
    @SAPIENS_OT_export.execute micro sample_scene = Ok (FINISHED, w')
    /\ map ex_filepath (exports w') = [["project"; "models"; "chair"]]
    /\ map (fun e => map ob_id (ex_selection e)) (exports w') = [[0; 3]]%nat
    /\ objects w' = objects sample_scene.
Proof.
  assert (Hv : value (@SAPIENS_OT_export.execute micro sample_scene) = Ok FINISHED)
    by (vm_compute; reflexivity).
  destruct (@SAPIENS_OT_export.execute micro sample_scene) as [[s w']|e] eqn:E;
    [|discriminate Hv].
  injection Hv as ->. exists w'. split; [reflexivity|].
  destruct (@X10_export_exports_the_selection_once micro sample_scene w' FINISHED E)
    as (_ & _ & d & w1 & Hfolder & Hexp & _ & Hobjs & _).
  assert (Hd : value (@get_export_folder micro (filepath sample_scene) sample_scene)
               = Ok (Some ["project"; "models"])) by (vm_compute; reflexivity).
  rewrite Hfolder in Hd. injection Hd as ->.
  rewrite Hexp. split; [reflexivity|]. split; [reflexivity|]. exact Hobjs.
Defined.

(** ** Export Parts, turn by turn *)
Section export_parts_run.
Context `{PyFloat}.
Import SAPIENS_OT_export_parts.

(** Objects that differ in their selection only. *)
Lemma select_erased (o o0 : Object) :
  set_select false o = set_select false o0 ->
  ob_id o = ob_id o0 /\ ob_type o = ob_type o0 /\ ob_name o = ob_name o0
  /\ forall v, set_select v o = set_select v o0.
Proof.
  intros E. destruct o, o0. simpl in *. by simplify_eq.
Qed.

(** An object that is not a mesh, or a mesh of a model that has been
    exported, is passed over. *)
Lemma export_one_skip root models path i w o :
  bpy.find_object i (objects w) = Some o ->
  ob_type o <> "MESH" \/ model_of o ∈ models ->
  export_one root (models, path) i w = Ok ((models, path), w).
Proof.
  intros Ho Hskip. unfold export_one. munfold. unfold bpy.obj_get at 1. rewrite Ho.
  destruct (String.eqb (ob_type o) "MESH") eqn:Et; simpl; [|done].
  apply String.eqb_eq in Et. destruct Hskip as [?|Hin]; [done|].
  rewrite get_model_name_eq. simpl. by rewrite bool_decide_eq_true_2.
Qed.

(** With distinct identities, the one object that is selected is the only
    one a filter on the selection finds. *)
Lemma filter_selected_one (g : Object -> Object) i l o :
  NoDup (map ob_id l) -> bpy.find_object i l = Some o ->
  ob_select (g o) = true ->
  filter (fun o => ob_select o = true)
         (map (fun x => if (ob_id x =? i)%nat then g x else set_select false x) l)
  = [g o].
Proof.
  intros Hnd Ho Hg. induction l as [|x l IH]; simpl in *; [done|].
  apply NoDup_cons in Hnd as [Hx Hnd].
  destruct (ob_id x =? i)%nat eqn:E.
  - injection Ho as ->. rewrite filter_cons_True by done. f_equal.
    apply Nat.eqb_eq in E. subst i.
    clear IH. induction l as [|y l IH]; simpl; [done|].
    simpl in Hx. apply not_elem_of_cons in Hx as [Hne Hx].
    apply NoDup_cons in Hnd as [_ Hnd].
    destruct (ob_id y =? ob_id o)%nat eqn:E; [apply Nat.eqb_eq in E; congruence|].
    rewrite filter_cons_False by (simpl; congruence). by apply IH.
  - rewrite filter_cons_False by (simpl; congruence). by apply IH.
Qed.

(** A mesh of a model that has not been exported: it alone is selected, it
    is exported without its transform, and it gets its transform back. *)
Lemma export_one_mesh root models path i w o :
  NoDup (map ob_id (objects w)) ->
  bpy.find_object i (objects w) = Some o ->
  ob_type o = "MESH" -> model_of o ∉ models ->
  export_one root (models, path) i w
  = Ok ((models ++ [model_of o], Some (root ++ [model_of o +:+ ".glb"])),
        with_exports (exports w ++ [part_export root o])
          (with_active (Some i)
             (with_objects
                (map (fun x => if (ob_id x =? i)%nat then set_select true x
                               else set_select false x) (objects w)) w))).
Proof.
  intros Hnd Ho Ht Hnew. unfold export_one. munfold. unfold bpy.obj_get at 1. rewrite Ho.
  rewrite Ht. simpl. rewrite get_model_name_eq. simpl.
  fold (model_of o). rewrite bool_decide_eq_false_2 by done.
  unfold bpy.select_all_deselect, bpy.select_set, bpy.set_active, bpy.obj_set,
    bpy.obj_get, bpy.export_scene_gltf. munfold. simpl.
  repeat (progress (rewrite ?find_object_update, ?(find_object_map i (set_select false)),
                      ?Ho by done; simpl)).
  rewrite !update_object_twice by done.
  unfold bpy.update_object. rewrite !map_map. simpl.
  erewrite filter_selected_one; [|done|exact Ho|done].
  rewrite (map_ext_elem _ (fun x => if (ob_id x =? i)%nat then set_select true x
                                    else set_select false x) (objects w)).
  - unfold part_export, at_origin, pathlib.joinpath. by destruct o.
  - intros x Hx. destruct (ob_id x =? i)%nat eqn:E; [|done].
    apply Nat.eqb_eq in E.
    assert (x = o) as -> by (by eapply find_object_unique). by destruct o.
Qed.

Lemma find_object_erased (L0 : list Object) w o0 :
  NoDup (map ob_id L0) ->
  map (set_select false) (objects w) = map (set_select false) L0 ->
  o0 ∈ L0 ->
  exists o, bpy.find_object (ob_id o0) (objects w) = Some o
            /\ set_select false o = set_select false o0.
Proof.
  intros Hnd Hw Hin.
  pose proof (find_object_map (ob_id o0) (set_select false) (objects w) (fun _ => eq_refl)) as E.
  rewrite Hw, (find_object_map (ob_id o0) (set_select false) L0 (fun _ => eq_refl)) in E.
  rewrite (find_object_elem L0 o0 Hnd Hin) in E.
  destruct (bpy.find_object (ob_id o0) (objects w)) as [o|]; [|done].
  exists o. split; [done|]. simpl in E. by apply (inj Some) in E.
Qed.

Lemma part_export_erased root (o o0 : Object) :
  set_select false o = set_select false o0 ->
  part_export root o = part_export root o0 /\ model_of o = model_of o0.
Proof.
  intros E. destruct o, o0. unfold part_export, at_origin, model_of. simpl in *.
  by simplify_eq.
Qed.

(** The loop over the objects [todo] of the file: the first mesh of every
    model not met before is exported. *)
Lemma export_loop root (L0 : list Object) :
  NoDup (map ob_id L0) ->
  forall todo models path w,
    (forall o, o ∈ todo -> o ∈ L0) ->
    map (set_select false) (objects w) = map (set_select false) L0 ->
    exists w',
      foldM (export_one root) (models, path) (map ob_id todo) w
      = Ok ((models ++ map model_of (first_of_model models todo),
             match last (first_of_model models todo) with
             | Some o => Some (root ++ [model_of o +:+ ".glb"])
             | None => path
             end), w')
      /\ exports w' = exports w ++ map (part_export root) (first_of_model models todo)
      /\ map (set_select false) (objects w') = map (set_select false) L0
      /\ fs w' = fs w /\ reports w' = reports w /\ materials w' = materials w
      /\ collections w' = collections w /\ next_id w' = next_id w
      /\ filepath w' = filepath w.
Proof.
  intros Hnd. induction todo as [|o0 todo IH]; intros models path w Hin Hw.
  - exists w. cbn [map foldM first_of_model last]. rewrite !app_nil_r. by split_and!.
  - destruct (find_object_erased L0 w o0 Hnd Hw) as (o & Ho & Eo); [apply Hin; left|].
    destruct (select_erased _ _ Eo) as (Eid & Etype & Ename & _).
    destruct (part_export_erased root _ _ Eo) as [Epart Emodel].
    assert (Hndw : NoDup (map ob_id (objects w))).
    { by rewrite <- erase_ids, Hw, erase_ids. }
    cbn [map foldM first_of_model].
    unfold mbind at 1. unfold M_bind at 1.
    destruct (String.eqb (ob_type o0) "MESH" && negb (bool_decide (model_of o0 ∈ models)))
      eqn:Ecase.
    + apply andb_true_iff in Ecase as [Et Hnew].
      apply String.eqb_eq in Et. apply negb_true_iff, bool_decide_eq_false in Hnew.
      rewrite (export_one_mesh root models path (ob_id o0) w o) by congruence.
      rewrite Emodel, Epart.
      edestruct (IH (models ++ [model_of o0]) (Some (root ++ [model_of o0 +:+ ".glb"])))
        as (w' & Hrun & Hexp & Hobjs & Hfs & Hrep & Hmat & Hcol & Hnext & Hfp);
        [| |rewrite Hrun].
      * intros x Hx. apply Hin. by right.
      * cbn [objects with_exports with_active with_objects]. rewrite <- Hw, map_map.
        apply map_ext_elem. intros x _. by destruct (ob_id x =? ob_id o0)%nat.
      * exists w'. split.
        -- do 2 f_equal. f_equal.
           ++ by rewrite <- app_assoc.
           ++ rewrite last_cons. by destruct (last _).
        -- rewrite Hexp. cbn [exports with_exports map]. rewrite <- app_assoc.
           by split_and!.
    + rewrite (export_one_skip root models path (ob_id o0) w o Ho).
      * apply IH; [|done]. intros x Hx. apply Hin. by right.
      * rewrite Emodel, Etype.
        apply andb_false_iff in Ecase as [Et|Hold].
        -- left. by apply String.eqb_neq.
        -- right. by apply negb_false_iff, bool_decide_eq_true in Hold.
Qed.

Lemma mkdir_dirs (p : Path) (qs : list Path) (fs0 : gmap Path entry) :
  Forall (fun q => fs0 !! q = Some Dir) qs ->
  foldl (fun r q =>
           fs ← r;
           match fs !! q with
           | None => Ok (<[q := Dir]> fs)
           | Some Dir => Ok fs
           | Some (File _) =>
               Raise (if bool_decide (q = p) then FileExistsError else NotADirectoryError)
           end)
        (Ok fs0) qs = Ok fs0.
Proof.
  induction 1 as [|q qs Hq _ IH]; cbn [foldl]; [done|].
  unfold mbind at 2. unfold result_bind at 2. by rewrite Hq.
Qed.

(** Making a directory that has just been made changes nothing. *)
Lemma mkdir_again (p : Path) (fs0 fs1 : gmap Path entry) :
  pathlib.mkdir p fs0 = Ok fs1 -> pathlib.mkdir p fs1 = Ok fs1.
Proof.
  intros Hrun. destruct (mkdir_fold p _ _ _ Hrun) as (_ & Hdirs & _).
  by apply mkdir_dirs.
Qed.

(** What Export Parts does with a blend file that is there. *)
Lemma export_parts_run w root w1 :
  get_export_folder (filepath w) w = Ok (Some root, w1) ->
  NoDup (map ob_id (objects w)) ->
  execute w
  = match last (first_of_model [] (objects w)) with
    | Some o =>
        Ok (FINISHED,
            with_reports
              (reports w ++
                 [{| rep_level := "INFO";
                     rep_message :=
                       [Lit "Exported ";
                        FList (map model_of (first_of_model [] (objects w)));
                        Lit " to '"; FPath (root ++ [model_of o +:+ ".glb"]); Lit "'"] |}])
              (with_exports
                 (exports w ++ map (part_export root) (first_of_model [] (objects w))) w1))
    | None => Raise UnboundLocalError
    end.
Proof.
  intros Hfolder Hnd.
  pose proof (get_export_folder_ok _ _ _ _ Hfolder) as Hok.
  destruct (pathlib.exists_ (fs w) (filepath w)) eqn:Hex; [|by destruct Hok].
  destruct Hok as (fs1 & Hroot & -> & Hmk). cbv zeta in Hroot, Hmk.
  injection Hroot as Hroot. rewrite <- Hroot in Hmk.
  unfold execute, path_exists. munfold. rewrite Hex. simpl. rewrite Hfolder.
  unfold path_mkdir. cbn [fs with_fs]. rewrite (mkdir_again _ _ _ Hmk).
  unfold bpy.selected_objects, bpy.get_active, bpy.data_objects,
    bpy.select_all_deselect, bpy.set_active, bpy.select_set. munfold. simpl.
  destruct (export_loop root (objects w) Hnd (objects w) [] None
              {| filepath := filepath w; fs := fs1; objects := objects w;
                 materials := materials w; collections := collections w;
                 active := active w; next_id := next_id w; reports := reports w;
                 exports := exports w |})
    as (w2 & Hrun & Hexp & Hobjs & Hfs & Hrep & Hmat & Hcol & Hnext & Hfp); [done..|].
  rewrite Hrun. simpl in *.
  rewrite for_obj_set; simpl; try done.
  - rewrite (reselect (objects w) (objects w2) Hnd Hobjs).
    destruct (last (first_of_model [] (objects w))) as [o|]; [|done].
    unfold report. munfold. do 2 f_equal.
    destruct w2. simpl in *. by subst.
  - apply (sublist_NoDup _ (map ob_id (objects w))); [exact Hnd|].
    apply (fmap_sublist ob_id), sublist_filter.
  - intros i (o & -> & [_ Ho]%list_elem_of_filter)%list_elem_of_fmap.
    rewrite Hobjs, erase_ids.
    apply list_elem_of_fmap. by exists o.
Qed.

(** *** The meshes that are exported *)

Lemma first_of_model_elem models l o :
  o ∈ first_of_model models l ->
  o ∈ l /\ ob_type o = "MESH" /\ model_of o ∉ models.
Proof.
  revert models. induction l as [|x l IH]; intros models; cbn [first_of_model].
  - by intros ?%elem_of_nil.
  - destruct (String.eqb (ob_type x) "MESH" && negb (bool_decide (model_of x ∈ models)))
      eqn:E.
    + apply andb_true_iff in E as [Et Hnew].
      apply String.eqb_eq in Et. apply negb_true_iff, bool_decide_eq_false in Hnew.
      intros [->|Hin]%elem_of_cons.
      * split; [by left|done].
      * apply IH in Hin as (? & ? & Hm). split; [by right|]. split; [done|].
        intros ?. apply Hm. apply elem_of_app. by left.
    + intros Hin. apply IH in Hin as (? & ? & ?). split; [by right|done].
Qed.


Lemma first_of_model_covers models l o :
  o ∈ l -> ob_type o = "MESH" ->
  model_of o ∈ models ++ map model_of (first_of_model models l).
Proof.
  revert models. induction l as [|x l IH]; intros models; cbn [first_of_model].
  - by intros ?%elem_of_nil.
  - intros Hin Ht.
    destruct (String.eqb (ob_type x) "MESH" && negb (bool_decide (model_of x ∈ models)))
      eqn:E.
    + cbn [map]. apply elem_of_cons in Hin as [->|Hin].
      * apply elem_of_app. right. by left.
      * specialize (IH (models ++ [model_of x]) Hin Ht).
        by rewrite <- app_assoc in IH.
    + apply elem_of_cons in Hin as [->|Hin]; [|by apply IH].
      rewrite Ht in E. simpl in E.
      apply negb_false_iff, bool_decide_eq_true in E.
      apply elem_of_app. by left.
Qed.


Lemma first_of_model_nil l :
  first_of_model [] l = [] <-> Forall (fun o => ob_type o <> "MESH") l.
Proof.
  split.
  - intros E. apply Forall_forall. intros o Hin Ht.
    pose proof (first_of_model_covers [] l o Hin Ht) as Hc.
    rewrite E in Hc. by apply elem_of_nil in Hc.
  - intros Hall. destruct (first_of_model [] l) as [|o k] eqn:E; [done|].
    assert (Ho : o ∈ first_of_model [] l) by (rewrite E; by left).
    apply first_of_model_elem in Ho as (Hin & Ht & _).
    rewrite Forall_forall in Hall. by destruct (Hall o Hin).
Qed.

End export_parts_run.

(** X11.  With a blend file that is there and no mesh among the objects,
    Export Parts raises [UnboundLocalError]: the message of its report reads
    [export_path], a variable only the export of a mesh assigns. *)
Theorem X11_export_parts_without_a_mesh_raises `{PyFloat}
    (w : World) (export_root : Path) (w1 : World) :
  get_export_folder (filepath w) w = Ok (Some export_root, w1) ->
  NoDup (map ob_id (objects w)) ->
  Forall (fun o => ob_type o <> "MESH") (objects w) ->
  SAPIENS_OT_export_parts.execute w = Raise UnboundLocalError.
Proof.
  intros Hfolder Hnd Hnone. rewrite (export_parts_run w export_root w1 Hfolder Hnd).
  apply first_of_model_nil in Hnone. by rewrite Hnone.
Qed.

(** The sample project with a camera and an empty only. *)
Lemma X11_export_parts_no_mesh_witness :
  @SAPIENS_OT_export_parts.execute micro no_mesh_scene = Raise UnboundLocalError.
Proof.
  assert (Hv : value (@get_export_folder micro (filepath no_mesh_scene) no_mesh_scene)
               = Ok (Some ["project"; "models"])) by (vm_compute; reflexivity).
  destruct (@get_export_folder micro (filepath no_mesh_scene) no_mesh_scene)
    as [[r w1]|e] eqn:E; [|discriminate Hv].
  injection Hv as ->.
  apply (@X11_export_parts_without_a_mesh_raises micro no_mesh_scene _ w1 E).
  - apply (bool_decide_unpack _). vm_compute. exact I.
  - repeat constructor; discriminate.
Defined.



(** ** The names of models and of empties *)
Section names.

Lemma before_first_append stop s a t :
  stop a = true ->
  before_first stop (before_first stop s +:+ String a t) = before_first stop s.
Proof.
  intros Ha. induction s as [|b s IH]; simpl.
  - by rewrite Ha.
  - destruct (stop b) eqn:E; simpl; [by rewrite Ha|]. by rewrite E, IH.
Qed.

Lemma before_first_idem stop s :
  before_first stop (before_first stop s) = before_first stop s.
Proof.
  induction s as [|b s IH]; simpl; [done|].
  destruct (stop b) eqn:E; simpl; [done|]. by rewrite E, IH.
Qed.

Lemma before_first_free stop p a t :
  (forall c, stop c = true -> Py.contains c p = false) -> stop a = true ->
  before_first stop (p +:+ String a t) = p.
Proof.
  intros Hp Ha. induction p as [|b p IH]; simpl.
  - by rewrite Ha.
  - destruct (stop b) eqn:E.
    + specialize (Hp b E). simpl in Hp. by rewrite Ascii.eqb_refl in Hp.
    + rewrite IH; [done|]. intros c Hc. specialize (Hp c Hc). simpl in Hp.
      by apply orb_false_iff in Hp as [_ ?].
Qed.

Lemma split_item1 c s :
  Py.contains c s = true ->
  Py.item (Py.split c s) 1
  = Ok (before_first (fun a => Ascii.eqb a c) (after_first (fun a => Ascii.eqb a c) s)).
Proof.
  induction s as [|a s IH]; simpl; [done|].
  destruct (Ascii.eqb a c) eqn:E; simpl.
  - intros _. apply split_item0.
  - intros Hc. specialize (IH Hc). revert IH. unfold Py.item.
    destruct (Py.split c s) as [|x xs] eqn:Es; [by apply split_nonempty in Es|]. done.
Qed.

Lemma part_of_free mesh_name :
  Py.contains "." (part_of mesh_name) = false /\ Py.contains "_" (part_of mesh_name) = false.
Proof.
  unfold part_of.
  assert (Hdot : forall stop s, Py.contains "." s = false ->
                   Py.contains "." (before_first stop s) = false
                   /\ Py.contains "." (after_first stop s) = false).
  { intros stop s. induction s as [|a s IH]; simpl; [done|].
    intros [Ha Hs]%orb_false_iff. destruct (stop a); simpl; [done|].
    rewrite Ha. simpl. by apply IH. }
  assert (Hstem : Py.contains "." (before_first (fun a => Ascii.eqb a ".") mesh_name) = false)
    by (by apply before_first_contains).
  destruct (Py.contains "_" _) eqn:E.
  - split; [|by apply before_first_contains].
    by apply Hdot, Hdot.
  - done.
Qed.

Lemma get_empty_name_eq mesh_name counts :
  SAPIENS_OT_export_empties.get_empty_name mesh_name counts
  = Ok (part_of mesh_name +:+ "_" +:+ pretty (count_of counts (part_of mesh_name) + 1)%nat,
        <[part_of mesh_name := (count_of counts (part_of mesh_name) + 1)%nat]> counts).
Proof.
  unfold SAPIENS_OT_export_empties.get_empty_name, part_of, count_of.
  rewrite first_segment. simpl. unfold mbind, result_bind.
  destruct (Py.contains "_" _) eqn:E; [|done].
  by rewrite split_item1.
Qed.

End names.

(** X13.  The model name of a name is a model name of its own, and nothing
    that follows a ["."] or a ["_"] after it counts: a name and its
    duplicates ([chair], [chair.001], [chair_leg.002]) are parts of one
    model. *)
Theorem X13_get_model_name_ignores_what_follows_a_separator (mesh_name : string) :
  exists model,
    SAPIENS_OT_export_parts.get_model_name mesh_name = Ok model
    /\ SAPIENS_OT_export_parts.get_model_name model = Ok model
    /\ forall a rest,
         a = "."%char \/ a = "_"%char ->
         SAPIENS_OT_export_parts.get_model_name (model +:+ String a rest) = Ok model.
Proof.
  exists (before_first is_separator mesh_name). rewrite !get_model_name_eq.
  split; [done|]. split; [by rewrite before_first_idem|].
  intros a rest Ha. rewrite get_model_name_eq, before_first_append; [done|].
  by apply is_separator_true.
Qed.

(** X14.  [get_empty_name] never fails.  It takes the name up to its first
    ["."] and, of that, the text between the first and the second ["_"], or
    all of it when there is no ["_"]; it counts one more use of that part and
    returns the part, ["_"] and the count.  So [chair_seat.001] gives
    [seat_1] the first time, and a name without ["_"] gives itself and a
    number. *)
Theorem X14_get_empty_name_numbers_the_part
    (mesh_name : string) (model_counts : gmap string nat) :
  let part := part_of mesh_name in
  let index := (count_of model_counts part + 1)%nat in
  SAPIENS_OT_export_empties.get_empty_name mesh_name model_counts
  = Ok (part +:+ "_" +:+ pretty index, <[part := index]> model_counts)
  /\ Py.contains "." part = false /\ Py.contains "_" part = false
  /\ part_of (before_first (fun a => Ascii.eqb a ".") mesh_name) = part
  /\ (Py.contains "." mesh_name = false -> Py.contains "_" mesh_name = false ->
      part = mesh_name)
  /\ (forall model s rest,
        Py.contains "_" model = false -> Py.contains "_" s = false ->
        before_first (fun a => Ascii.eqb a ".") mesh_name = model +:+ "_" +:+ s +:+ rest ->
        rest = "" \/ (exists t, rest = String "_" t) ->
        part = s).
Proof.
  intros part index. split; [apply get_empty_name_eq|].
  destruct (part_of_free mesh_name) as [Hdot Hus].
  split; [done|]. split; [done|]. split.
  { unfold part, part_of. by rewrite before_first_idem. }
  split.
  { intros Hd Hu. unfold part, part_of.
    rewrite (contains_false_before_first _ _ Hd). by rewrite Hu. }
  intros model s rest Hm Hs Hstem Hrest. unfold part, part_of. rewrite Hstem.
  assert (Hc : Py.contains "_" (model +:+ "_" +:+ s +:+ rest) = true).
  { clear. induction model as [|b m IH]; simpl; [done|]. by rewrite IH, orb_true_r. }
  rewrite Hc.
  assert (Hafter : after_first (fun a => Ascii.eqb a "_") (model +:+ "_" +:+ s +:+ rest)
                   = s +:+ rest).
  { clear -Hm. induction model as [|b m IH]; simpl; [done|].
    simpl in Hm. apply orb_false_iff in Hm as [Hb Hm]. rewrite Hb. by apply IH. }
  rewrite Hafter. destruct Hrest as [->|[t ->]].
  - assert (E : s +:+ "" = s).
    { clear. induction s as [|b s IH]; [done|].
      change (String b (s +:+ "") = String b s). by rewrite IH. }
    rewrite E. by apply contains_false_before_first.
  - apply before_first_free; [|done].
    intros c Hc'. apply Ascii.eqb_eq in Hc'. by subst c.
Qed.

(** X15.  [get_empty_name] only raises the counts, and as long as the
    counts are not lowered in between, a name it has returned is not
    returned again: the empties of one export get distinct names. *)
Theorem X15_get_empty_name_never_repeats
    (n1 n2 e1 e2 : string) (c1 c1' c2 c2' : gmap string nat) :
  SAPIENS_OT_export_empties.get_empty_name n1 c1 = Ok (e1, c1') ->
  (forall key, (count_of c1' key <= count_of c2 key)%nat) ->
  SAPIENS_OT_export_empties.get_empty_name n2 c2 = Ok (e2, c2') ->
  e1 <> e2
  /\ (forall key, (count_of c1 key <= count_of c1' key)%nat)
  /\ (forall key, (count_of c2 key <= count_of c2' key)%nat).
Proof.
  rewrite !get_empty_name_eq. intros [= <- <-] Hle [= <- <-].
  assert (Hgrow : forall (c : gmap string nat) p key,
            (count_of c key <= count_of (<[p := (count_of c p + 1)%nat]> c) key)%nat).
  { intros c p key. unfold count_of. destruct (decide (p = key)) as [->|Hne].
    - rewrite lookup_insert_eq. simpl. lia.
    - by rewrite lookup_insert_ne. }
  split; [|split; apply Hgrow].
  intros E.
  assert (Hp : part_of n1 = part_of n2).
  { apply (f_equal (before_first (fun a => Ascii.eqb a "_"))) in E.
    change (before_first (fun a => Ascii.eqb a "_")
              (part_of n1 +:+ String "_" (pretty (count_of c1 (part_of n1) + 1)%nat))
            = before_first (fun a => Ascii.eqb a "_")
                (part_of n2 +:+ String "_" (pretty (count_of c2 (part_of n2) + 1)%nat))) in E.
    rewrite !before_first_free in E; try done.
    - intros c ->%Ascii.eqb_eq. apply part_of_free.
    - intros c ->%Ascii.eqb_eq. apply part_of_free. }
  rewrite Hp in E. apply (inj (String.append _)) in E.
  apply (inj (String.append _)) in E. apply (inj pretty) in E.
  specialize (Hle (part_of n2)). unfold count_of in Hle at 1.
  rewrite Hp, lookup_insert_eq in Hle. simpl in Hle. lia.
Qed.

(** Two seats: the second is numbered 2. *)
Lemma X15_get_empty_name_witness :
  exists c1 c2,
    SAPIENS_OT_export_empties.get_empty_name "chair_seat.001" ∅ = Ok ("seat_1", c1)
    /\ SAPIENS_OT_export_empties.get_empty_name "bench_seat_left" c1 = Ok ("seat_2", c2)
    /\ "seat_1" <> "seat_2".
Proof.
  exists (<["seat" := 1%nat]> ∅), (<["seat" := 2%nat]> (<["seat" := 1%nat]> ∅)).
  assert (E1 : SAPIENS_OT_export_empties.get_empty_name "chair_seat.001" ∅
               = Ok ("seat_1", <["seat" := 1%nat]> ∅)).
  { rewrite get_empty_name_eq. reflexivity. }
  assert (E2 : SAPIENS_OT_export_empties.get_empty_name "bench_seat_left"
                 (<["seat" := 1%nat]> ∅)
               = Ok ("seat_2", <["seat" := 2%nat]> (<["seat" := 1%nat]> ∅))).
  { rewrite get_empty_name_eq.
    change (part_of "bench_seat_left") with "seat".
    unfold count_of. rewrite lookup_insert_eq. reflexivity. }
  split; [exact E1|]. split; [exact E2|].
  apply (X15_get_empty_name_never_repeats _ _ _ _ _ _ _ _ E1 (fun _ => le_n _) E2).
Defined.

(** ** Export Empties: what is not restored *)
Section export_empties_selection.
Context `{PyFloat}.
Import SAPIENS_OT_export_empties.







End export_empties_selection.



(** ** Opening and saving the material file *)
Section material_file_run.
Context `{PyFloat}.
Implicit Types (d : list (string * JSON)) (v : JSON).

Lemma ancestors_length (p q : Path) :
  q ∈ pathlib.ancestors p -> (length q <= length p)%nat.
Proof.
  unfold pathlib.ancestors. intros (n & -> & _)%list_elem_of_fmap.
  rewrite length_take. lia.
Qed.

Lemma materials_path_parent w :
  pathlib.parent (materials_path w)
  = pathlib.joinpath
      (pathlib.joinpath (pathlib.parent (pathlib.parent (filepath w))) "hammerstone")
      "shared".
Proof. unfold materials_path, pathlib.parent, pathlib.joinpath. apply removelast_last. Qed.

(** Reading the index from a file that [save] has written. *)
Lemma build_index_of_file w arr :
  fs w !! materials_path w = Some (File (materials_file arr)) ->
  MaterialFile.build_index w
  = match foldl MaterialFile.index_step (Ok []) arr with
    | Ok idx => Ok (idx, w)
    | Raise e => Raise e
    end.
Proof.
  intros Hfile. unfold MaterialFile.build_index, get_material_file_path, load_json.
  munfold. fold (materials_path w). unfold pathlib.read_json. rewrite Hfile.
  unfold materials_file, Json.subscript. rewrite lookup_singleton_eq.
  rewrite lookup_singleton_eq. done.
Qed.

(** [open] with the file in place: nothing is written. *)
Lemma open_of_file w arr :
  fs w !! materials_path w = Some (File (materials_file arr)) ->
  MaterialFile.open w
  = match foldl MaterialFile.index_step (Ok []) arr with
    | Ok idx => Ok ({| MaterialFile.mf_filepath := materials_path w;
                       MaterialFile.index := idx |}, w)
    | Raise e => Raise e
    end.
Proof.
  intros Hfile.
  unfold MaterialFile.open, MaterialFile.get_default_path, MaterialFile.init,
    MaterialFile.ensure_file_exists, path_exists.
  munfold. fold (materials_path w).
  unfold pathlib.exists_. rewrite Hfile.
  rewrite bool_decide_eq_true_2 by (by eexists).
  rewrite (build_index_of_file w arr Hfile).
  by destruct (foldl _ _ _).
Qed.

Lemma dict_set_fresh {V} (k : string) (x : V) (d : list (string * V)) :
  k ∉ map fst d -> Json.dict_set k x d = d ++ [(k, x)].
Proof.
  induction d as [|[k' x'] d IH]; simpl; [done|].
  intros [Hne Hk]%not_elem_of_cons.
  destruct (String.eqb k' k) eqn:E; [apply String.eqb_eq in E; congruence|].
  by rewrite IH.
Qed.

Lemma index_step_record acc v n :
  identifier_of v = Some n ->
  MaterialFile.index_step (Ok acc) v = Ok (Json.dict_set n v acc).
Proof.
  unfold identifier_of, MaterialFile.index_step. destruct v as [| | | | |dv]; try done.
  simpl. unfold mbind, result_bind.
  destruct (dv !! "identifier") as [[| | |s| |]|]; try done. by intros [= ->].
Qed.

(** The records of an index, read again, are the index. *)
Lemma index_fold_records rest :
  forall acc,
    NoDup (map fst (acc ++ rest)) ->
    Forall (fun kv => identifier_of kv.2 = Some kv.1) rest ->
    foldl MaterialFile.index_step (Ok acc) (map snd rest) = Ok (acc ++ rest).
Proof.
  induction rest as [|[k v] rest IH]; intros acc Hnd Hrec; cbn [map foldl snd].
  - by rewrite app_nil_r.
  - apply Forall_cons in Hrec as [Hv Hrec]. simpl in Hv.
    rewrite (index_step_record acc v k Hv).
    rewrite dict_set_fresh.
    + rewrite IH; [by rewrite <- app_assoc| |done]. by rewrite <- app_assoc.
    + rewrite map_app in Hnd. apply NoDup_app in Hnd as (_ & Hdis & _).
      intros Hin. apply (Hdis k Hin). by left.
Qed.

(** A [null] among the entries of the file stops the reading. *)
Lemma index_fold_null arr :
  Forall (fun v => v = JNull \/ is_record v) arr -> JNull ∈ arr ->
  forall acc, foldl MaterialFile.index_step (Ok acc) arr = Raise TypeError.
Proof.
  induction 1 as [|v arr Hv Harr IH]; [by intros ?%elem_of_nil|].
  intros Hin acc. cbn [foldl]. destruct Hv as [->|[n Hn]].
  - apply index_fold_raise.
  - rewrite (index_step_record acc v n Hn). apply IH.
    apply elem_of_cons in Hin as [<-|Hin]; [done|done].
Qed.

Lemma save_run self w :
  MaterialFile.save self w
  = match pathlib.write_json (MaterialFile.mf_filepath self)
            (materials_file (MaterialFile.get_materials self)) (fs w) with
    | Ok fs1 => Ok (tt, with_fs fs1 w)
    | Raise e => Raise e
    end.
Proof.
  unfold MaterialFile.save, MaterialFile.get_default_data, Json.subscript, Json.set_item,
    dump_json.
  munfold. rewrite lookup_singleton_eq. rewrite !insert_singleton_eq. done.
Qed.

Lemma build_index_frame w idx w' :
  MaterialFile.build_index w = Ok (idx, w') -> w' = w.
Proof.
  unfold MaterialFile.build_index, get_material_file_path, load_json.
  intros (path & w1 & (bp & w0 & [-> ->]%gets_ok & [-> ->]%mret_ok)%bind_ok & Hrun)%bind_ok.
  apply bind_ok in Hrun as (data & w2 & Hload & Hrun).
  destruct (pathlib.read_json _ _); [|done]. injection Hload as _ <-.
  apply bind_ok in Hrun as (defs & w3 & [_ ->]%lift_ok & Hrun).
  apply bind_ok in Hrun as (mats & w4 & [_ ->]%lift_ok & Hrun).
  apply bind_ok in Hrun as (items & w5 & [_ ->]%lift_ok & Hrun).
  by apply lift_ok in Hrun as [_ ->].
Qed.

Lemma ensure_file_exists_frame p w u w' :
  MaterialFile.ensure_file_exists p w = Ok (u, w') ->
  w' = with_fs (fs w') w /\ (pathlib.exists_ (fs w) p = true -> w' = w).
Proof.
  unfold MaterialFile.ensure_file_exists, path_exists.
  intros (ex & w0 & [-> ->]%gets_ok & Hrun)%bind_ok.
  destruct (pathlib.exists_ (fs w) p).
  - apply mret_ok in Hrun as [_ ->]. split; [|done]. by destruct w.
  - apply bind_ok in Hrun as ([] & w1 & Hmk & Hdump).
    unfold path_mkdir in Hmk. destruct (pathlib.mkdir _ _); [|done].
    injection Hmk as <-. unfold dump_json in Hdump.
    destruct (pathlib.write_json _ _ _); [|done]. injection Hdump as Hw. subst w'.
    split; [done|]. done.
Qed.

(** What [open] leaves of the world, and where the file it stands for is. *)
Lemma open_frame w self w' :
  MaterialFile.open w = Ok (self, w') ->
  MaterialFile.mf_filepath self = materials_path w
  /\ w' = with_fs (fs w') w
  /\ (pathlib.exists_ (fs w) (materials_path w) = true -> w' = w).
Proof.
  unfold MaterialFile.open, MaterialFile.init, MaterialFile.get_default_path.
  intros (path & w1 & (bp & w0 & [-> ->]%gets_ok & [-> ->]%mret_ok)%bind_ok & Hrun)%bind_ok.
  fold (materials_path w) in Hrun.
  apply bind_ok in Hrun as ([] & w2 & [Hfs Hsame]%ensure_file_exists_frame & Hrun).
  apply bind_ok in Hrun as (idx & w3 & ->%build_index_frame & [-> ->]%mret_ok).
  done.
Qed.

End material_file_run.

Section material_file_facts.
Context `{PyFloat}.
Implicit Types (d : list (string * JSON)) (v : JSON).

Lemma write_json_new (p : Path) (content : JSON) (fs0 : gmap Path entry) :
  fs0 !! p <> Some Dir -> pathlib.parent p <> [] -> fs0 !! pathlib.parent p = Some Dir ->
  pathlib.write_json p content fs0 = Ok (<[p := File content]> fs0).
Proof.
  intros Hp Hne Hdir. unfold pathlib.write_json.
  destruct (pathlib.parent p) as [|a d] eqn:E; [done|].
  destruct (fs0 !! p) as [[|c]|]; [done|..];
    (etrans; [|exact (f_equal (fun r => match r with
                                        | Some Dir => Ok (<[p := File content]> fs0)
                                        | Some (File _) => Raise NotADirectoryError
                                        | None => Raise FileNotFoundError
                                        end) Hdir)]; reflexivity).
Qed.

Lemma exists_false (fs0 : gmap Path entry) p :
  pathlib.exists_ fs0 p = false -> fs0 !! p = None.
Proof.
  unfold pathlib.exists_. intros E%bool_decide_eq_false.
  destruct (fs0 !! p); [|done]. destruct E. by eexists.
Qed.

(** Opening the material file of a project that has none. *)
Lemma open_fresh w fs1 :
  pathlib.exists_ (fs w) (materials_path w) = false ->
  pathlib.mkdir (pathlib.parent (materials_path w)) (fs w) = Ok fs1 ->
  MaterialFile.open w
  = Ok ({| MaterialFile.mf_filepath := materials_path w; MaterialFile.index := [] |},
        with_fs (<[materials_path w := File MaterialFile.get_default_data]> fs1) w).
Proof.
  intros Hex Hmk.
  pose proof (mkdir_ok _ _ _ Hmk) as (Hsub & Hdir & Hrest).
  assert (Hnew : fs1 !! materials_path w = None).
  { rewrite Hrest; [by apply exists_false|].
    intros Hin%ancestors_length. rewrite materials_path_parent in Hin.
    unfold materials_path, pathlib.joinpath in Hin. rewrite !length_app in Hin.
    simpl in Hin. lia. }
  assert (Hpne : pathlib.parent (materials_path w) <> []).
  { rewrite materials_path_parent. unfold pathlib.joinpath. by intros ?%app_nil_r_inv. }
  unfold MaterialFile.open, MaterialFile.get_default_path, MaterialFile.init,
    MaterialFile.ensure_file_exists, path_exists, path_mkdir, dump_json.
  munfold. fold (materials_path w). rewrite Hex, Hmk. cbn [fs with_fs].
  rewrite write_json_new; [|by rewrite Hnew|done|by apply Hdir].
  rewrite (build_index_of_file _ []); [done|].
  cbn [fs with_fs]. apply lookup_insert_eq.
Qed.

(** The loop of Export Materials is a sequence of [write_material] calls. *)
Lemma export_writes ms :
  forall self w,
    NoDup (map mat_id (materials w)) -> (forall m, m ∈ ms -> m ∈ materials w) ->
    foldM (fun material_file material =>
             m ← bpy.mat_get material;
             lift (MaterialFile.write_material material_file m))
          self (map mat_id ms) w
    = match MaterialFile.write_materials self ms with
      | Ok self' => Ok (self', w)
      | Raise e => Raise e
      end.
Proof.
  induction ms as [|m ms IH]; intros self w Hnd Hin; cbn [map foldM MaterialFile.write_materials].
  - done.
  - unfold bpy.mat_get. munfold.
    rewrite (find_material_elem _ m Hnd) by (apply Hin; left).
    destruct (MaterialFile.write_material self m) as [self1|e]; [|done].
    apply IH; [done|]. intros x Hx. apply Hin. by right.
Qed.

(** Export Materials is [open], a [write_material] for every material of
    the file in turn, and [save]. *)
Lemma export_materials_ok w s w' :
  NoDup (map mat_id (materials w)) ->
  SAPIENS_OT_export_materials.execute w = Ok (s, w') ->
  exists self w1 self',
    MaterialFile.open w = Ok (self, w1)
    /\ MaterialFile.write_materials self (materials w) = Ok self'
    /\ MaterialFile.save self' w1 = Ok (tt, w')
    /\ s = FINISHED.
Proof.
  intros Hnd. unfold SAPIENS_OT_export_materials.execute.
  intros (self & w1 & Hopen & Hrun)%bind_ok.
  pose proof (open_frame _ _ _ Hopen) as (_ & Hw1 & _).
  apply bind_ok in Hrun as (mats & w2 & [-> ->]%gets_ok & Hrun).
  apply bind_ok in Hrun as (self' & w3 & Hloop & Hrun).
  assert (Hm : materials w1 = materials w) by (by rewrite Hw1).
  rewrite Hm, export_writes in Hloop; [|by rewrite Hm|by rewrite Hm].
  destruct (MaterialFile.write_materials self (materials w)) as [self1|e] eqn:Ew; [|done].
  injection Hloop as <- <-.
  apply bind_ok in Hrun as ([] & w4 & Hsave & [-> ->]%mret_ok).
  by exists self, w1, self1.
Qed.

Lemma dict_lookup_elem {V} (k : string) (x : V) (d : list (string * V)) :
  Json.dict_lookup k d = Some x -> (k, x) ∈ d.
Proof.
  induction d as [|[k' x'] d IH]; simpl; [done|].
  destruct (String.eqb k' k) eqn:E.
  - apply String.eqb_eq in E. intros [= ->]. subst. by left.
  - intros ?. right. by apply IH.
Qed.

Lemma filter_none {A} (P : A -> Prop) `{!forall x, Decision (P x)} (k : list A) :
  (forall x, x ∈ k -> ~ P x) -> filter P k = [].
Proof.
  induction k as [|x k IH]; intros Hk; [done|].
  rewrite filter_cons_False by (apply Hk; left). apply IH. intros y ?. apply Hk. by right.
Qed.

Lemma last_write_unique (ms : list Material) m :
  NoDup (map mat_name ms) -> m ∈ ms -> last_write (mat_name m) ms = Some m.
Proof.
  unfold last_write. intros Hnd Hin.
  assert (E : filter (fun x => mat_name x = mat_name m) ms = [m]); [|by rewrite E].
  induction ms as [|x ms IH]; [by apply elem_of_nil in Hin|].
  cbn [map] in Hnd. apply NoDup_cons in Hnd as [Hx Hnd].
  apply elem_of_cons in Hin as [->|Hin].
  - rewrite filter_cons_True by done. f_equal.
    apply filter_none. intros y Hy Hname. apply Hx.
    rewrite <- Hname. apply list_elem_of_fmap. by exists y.
  - rewrite filter_cons_False; [by apply IH|].
    intros Hname. apply Hx. rewrite Hname. apply list_elem_of_fmap. by exists m.
Qed.

End material_file_facts.

Section material_operators.
Context `{PyFloat}.

Lemma mat_set_ok i f w u w' :
  bpy.mat_set i f w = Ok (u, w') ->
  w' = with_materials (bpy.update_material i f (materials w)) w.
Proof.
  unfold bpy.mat_set. destruct (bpy.find_material i (materials w)); [|done].
  by intros [= _ <-].
Qed.

Lemma mat_get_ok i w m w' :
  bpy.mat_get i w = Ok (m, w') -> w' = w.
Proof.
  unfold bpy.mat_get. destruct (bpy.find_material i (materials w)); [|done].
  by intros [= _ <-].
Qed.

Lemma same_but_materials_refl w : same_but_materials w w.
Proof. unfold same_but_materials. by destruct w. Qed.

Lemma same_but_materials_trans w1 w2 w3 :
  same_but_materials w1 w2 -> same_but_materials w2 w3 -> same_but_materials w1 w3.
Proof.
  unfold same_but_materials. intros E1 E2. rewrite E2 at 1. rewrite E1 at 1. done.
Qed.

(** [json_to_material] works on the materials only. *)
Lemma json_to_material_frame data w i w' :
  MaterialFile.json_to_material data w = Ok (i, w') -> same_but_materials w w'.
Proof.
  unfold MaterialFile.json_to_material.
  intros (name & w1 & [_ ->]%lift_ok & Hrun)%bind_ok.
  apply bind_ok in Hrun as (color & w2 & [_ ->]%lift_ok & Hrun).
  apply bind_ok in Hrun as (metal & w3 & [_ ->]%lift_ok & Hrun).
  apply bind_ok in Hrun as (roughness & w4 & [_ ->]%lift_ok & Hrun).
  apply bind_ok in Hrun as (name' & w5 & [_ ->]%lift_ok & Hrun).
  apply bind_ok in Hrun as (found & w6 & [-> ->]%gets_ok & Hrun).
  apply bind_ok in Hrun as (material & w7 & Hmat & Hrun).
  assert (H7 : same_but_materials w w7).
  { destruct (bpy.materials_get name' (materials w)).
    - apply mret_ok in Hmat as [_ ->]. apply same_but_materials_refl.
    - apply bind_ok in Hmat as (j & wa & Hnew & Hmat).
      apply bind_ok in Hmat as ([] & wb & ->%mat_set_ok & [_ ->]%mret_ok).
      unfold bpy.materials_new in Hnew. cbv zeta in Hnew. injection Hnew as _ <-.
      reflexivity. }
  apply bind_ok in Hrun as (m & w8 & ->%mat_get_ok & Hrun).
  apply bind_ok in Hrun as (tree & w9 & [_ ->]%lift_ok & Hrun).
  apply bind_ok in Hrun as (tree' & w10 & [_ ->]%lift_ok & Hrun).
  apply bind_ok in Hrun as ([] & w11 & ->%mat_set_ok & [_ ->]%mret_ok).
  eapply same_but_materials_trans; [exact H7|]. reflexivity.
Qed.

End material_operators.

(** X17.  In a project that has no material file yet, [MaterialFile.open]
    makes the directories [hammerstone/shared] beside the directory of the
    blend file where they are missing and writes the file with an empty list
    of materials; the index it reads back is empty, and Import Materials
    finishes there without importing anything. *)
Theorem X17_open_creates_the_material_file `{PyFloat}
    (w : World) (fs1 : gmap Path entry) :
  pathlib.exists_ (fs w) (materials_path w) = false ->
  pathlib.mkdir (pathlib.parent (materials_path w)) (fs w) = Ok fs1 ->
  let w' := with_fs (<[materials_path w := File (materials_file [])]> fs1) w in
  MaterialFile.open w
  = Ok ({| MaterialFile.mf_filepath := materials_path w; MaterialFile.index := [] |}, w')
  /\ SAPIENS_OT_import_materials.execute w = Ok (FINISHED, w')
  /\ fs w ⊆ fs w'.
Proof.
  intros Hex Hmk w'. pose proof (open_fresh w fs1 Hex Hmk) as Hopen.
  split; [exact Hopen|]. split.
  - unfold SAPIENS_OT_import_materials.execute.
    unfold mbind at 1. unfold M_bind at 1. by rewrite Hopen.
  - apply mkdir_ok in Hmk as (Hsub & _ & Hrest).
    etrans; [exact Hsub|]. apply insert_subseteq.
    rewrite Hrest; [by apply exists_false|].
    intros Hin%ancestors_length. rewrite materials_path_parent in Hin.
    unfold materials_path, pathlib.joinpath in Hin. rewrite !length_app in Hin.
    simpl in Hin. lia.
Qed.

(** The sample project, which has no [hammerstone] directory. *)
Lemma X17_open_witness :
  exists fs1,
    @SAPIENS_OT_import_materials.execute micro empty_world
    = Ok (FINISHED,
          with_fs (<[ ["project"; "hammerstone"; "shared"; "blender_materials.json"]
                      := File (materials_file []) ]> fs1) empty_world).
Proof.
  assert (Hv : match pathlib.mkdir (pathlib.parent (@materials_path micro empty_world))
                       (fs empty_world) with
               | Ok _ => true
               | Raise _ => false
               end = true) by (vm_compute; reflexivity).
  destruct (pathlib.mkdir (pathlib.parent (@materials_path micro empty_world))
              (fs empty_world)) as [fs1|e] eqn:E; [|discriminate Hv].
  exists fs1.
  apply (@X17_open_creates_the_material_file micro empty_world fs1); [|exact E].
  vm_compute. reflexivity.
Defined.

Section material_operators_frames.
Context `{PyFloat}.

Lemma foldM_same {A S} (body : S -> A -> M S) (l : list A) :
  (forall s x w s' w', body s x w = Ok (s', w') -> w' = w) ->
  forall s w s' w', foldM body s l w = Ok (s', w') -> w' = w.
Proof.
  intros Hbody. induction l as [|x l IH]; intros s w s' w'; cbn [foldM].
  - by intros [_ ->]%mret_ok.
  - intros (s1 & w1 & ->%Hbody & Hrest)%bind_ok. by eapply IH.
Qed.

Lemma materials_path_new (w : World) (fs1 : gmap Path entry) :
  pathlib.exists_ (fs w) (materials_path w) = false ->
  pathlib.mkdir (pathlib.parent (materials_path w)) (fs w) = Ok fs1 ->
  fs1 !! materials_path w = None.
Proof.
  intros Hex (_ & _ & Hrest)%mkdir_ok.
  rewrite Hrest; [by apply exists_false|].
  intros Hin%ancestors_length. rewrite materials_path_parent in Hin.
  unfold materials_path, pathlib.joinpath in Hin. rewrite !length_app in Hin.
  simpl in Hin. lia.
Qed.

(** [open] keeps what is on the disk. *)
Lemma open_fs w self w' :
  MaterialFile.open w = Ok (self, w') -> fs w ⊆ fs w'.
Proof.
  unfold MaterialFile.open, MaterialFile.init, MaterialFile.get_default_path.
  intros (path & w1 & (bp & w0 & [-> ->]%gets_ok & [-> ->]%mret_ok)%bind_ok & Hrun)%bind_ok.
  fold (materials_path w) in Hrun.
  apply bind_ok in Hrun as ([] & w2 & Hens & Hrun).
  apply bind_ok in Hrun as (idx & w3 & ->%build_index_frame & [_ ->]%mret_ok).
  revert Hens. unfold MaterialFile.ensure_file_exists, path_exists.
  intros (ex & w0 & [-> ->]%gets_ok & Hrun)%bind_ok.
  destruct (pathlib.exists_ (fs w) (materials_path w)) eqn:Hex.
  - by apply mret_ok in Hrun as [_ ->].
  - apply bind_ok in Hrun as ([] & w1 & Hmk & Hdump).
    unfold path_mkdir in Hmk.
    destruct (pathlib.mkdir _ _) as [fs1|] eqn:Emk; [|done].
    injection Hmk as <-. unfold dump_json in Hdump.
    destruct (pathlib.write_json _ _ _) as [fs2|] eqn:Ew; [|done].
    injection Hdump as <-. apply write_json_ok in Ew as ->.
    pose proof (materials_path_new w fs1 Hex Emk) as Hnew.
    apply mkdir_ok in Emk as (Hsub & _). cbn [fs with_fs].
    etrans; [exact Hsub|]. by apply insert_subseteq.
Qed.

(** Export Materials is [open], the writes and [save], whatever the
    identities of the materials. *)
Lemma export_materials_frame w s w' :
  SAPIENS_OT_export_materials.execute w = Ok (s, w') ->
  s = FINISHED /\ w' = with_fs (fs w') w
  /\ forall q, q <> materials_path w -> is_Some (fs w !! q) -> fs w' !! q = fs w !! q.
Proof.
  unfold SAPIENS_OT_export_materials.execute.
  intros (self & w1 & Hopen & Hrun)%bind_ok.
  pose proof (open_frame _ _ _ Hopen) as (Hpath & Hw1 & _).
  pose proof (open_fs _ _ _ Hopen) as Hsub.
  apply bind_ok in Hrun as (mats & w2 & [-> ->]%gets_ok & Hrun).
  apply bind_ok in Hrun as (self' & w3 & Hloop & Hrun).
  assert (Hpath' : MaterialFile.mf_filepath self' = MaterialFile.mf_filepath self
                   /\ w3 = w1).
  { revert Hloop. generalize (map mat_id (materials w1)). clear.
    intros ids. revert self w1.
    induction ids as [|i ids IH]; intros self w1; cbn [foldM].
    - by intros [-> ->]%mret_ok.
    - intros (self1 & wa & (m & wb & ->%mat_get_ok & [Hw ->]%lift_ok)%bind_ok & Hrest)%bind_ok.
      apply IH in Hrest as [-> ->]. split; [|done].
      by apply write_material_ok in Hw as (_ & _ & _ & -> & _). }
  destruct Hpath' as [Hpath' ->].
  apply bind_ok in Hrun as ([] & w4 & Hsave & [-> ->]%mret_ok).
  rewrite save_run in Hsave.
  destruct (pathlib.write_json _ _ _) as [fs2|] eqn:Ew; [|done].
  injection Hsave as <-. apply write_json_ok in Ew as ->.
  split; [done|]. split; [by rewrite Hw1|].
  intros q Hq [x Hx]. cbn [fs with_fs]. rewrite Hpath', Hpath.
  rewrite lookup_insert_ne by done. rewrite Hx. by eapply lookup_weaken.
Qed.

(** Import Materials calls [json_to_material] for the entries of the
    index. *)
Lemma import_materials_frame w s w' :
  SAPIENS_OT_import_materials.execute w = Ok (s, w') ->
  s = FINISHED
  /\ same_but_materials (with_fs (fs w') w) w'
  /\ fs w ⊆ fs w'
  /\ (pathlib.exists_ (fs w) (materials_path w) = true -> fs w' = fs w).
Proof.
  unfold SAPIENS_OT_import_materials.execute.
  intros (self & w1 & Hopen & Hrun)%bind_ok.
  pose proof (open_frame _ _ _ Hopen) as (Hpath & Hw1 & Hsame).
  pose proof (open_fs _ _ _ Hopen) as Hsub.
  apply bind_ok in Hrun as ([] & w2 & Hloop & [-> ->]%mret_ok).
  assert (Hinv : same_but_materials w1 w2).
  { revert Hloop. apply (for_inv (same_but_materials w1)); [|apply same_but_materials_refl].
    intros data wa wb _ Hwa (i & wc & Hj%json_to_material_frame & [_ ->]%mret_ok)%bind_ok.
    by eapply same_but_materials_trans. }
  assert (Hfs : fs w2 = fs w1) by (by rewrite Hinv).
  split; [done|]. split.
  - rewrite Hfs, <- Hw1. exact Hinv.
  - rewrite Hfs. split; [done|]. intros Hex. by rewrite (Hsame Hex).
Qed.

End material_operators_frames.



(** X19.  Import Materials, when it returns, returns [FINISHED] and has
    worked on the materials only: the objects and their material slots, the
    collections, the selection, the active object and the exports are as
    they were.  The disk holds all it held before, and is not written to at
    all when the material file is there. *)
Theorem X19_import_materials_changes_the_materials_only `{PyFloat}
    (w w' : World) (s : status) :
  SAPIENS_OT_import_materials.execute w = Ok (s, w') ->
  s = FINISHED
  /\ objects w' = objects w /\ collections w' = collections w /\ active w' = active w
  /\ exports w' = exports w /\ reports w' = reports w /\ filepath w' = filepath w
  /\ fs w ⊆ fs w'
  /\ (pathlib.exists_ (fs w) (materials_path w) = true -> fs w' = fs w).
Proof.
  intros (-> & Hsame & Hsub & Hfs)%import_materials_frame.
  unfold same_but_materials in Hsame.
  split; [done|]. rewrite Hsame. by split_and!.
Qed.

(** Import Materials in the sample project, whose file holds one record. *)
Lemma X19_import_materials_witness :
  exists w',
    @SAPIENS_OT_import_materials.execute micro project_with_materials = Ok (FINISHED, w')
    /\ objects w' = objects project_with_materials
    /\ fs w' = fs project_with_materials.
Proof.
  assert (Hv : value (@SAPIENS_OT_import_materials.execute micro project_with_materials)
               = Ok FINISHED) by (vm_compute; reflexivity).
  destruct (@SAPIENS_OT_import_materials.execute micro project_with_materials)
    as [[s w']|e] eqn:E; [|discriminate Hv].
  injection Hv as ->. exists w'. split; [reflexivity|].
  destruct (@X19_import_materials_changes_the_materials_only micro _ w' FINISHED E)
    as (_ & Hobjs & _ & _ & _ & _ & _ & _ & Hfs).
  split; [exact Hobjs|]. apply Hfs.
  unfold pathlib.exists_. apply bool_decide_eq_true_2.
  eexists. apply lookup_insert_eq.
Defined.

(** X20.  What [save] writes, [open] reads back: for an index whose keys
    are distinct and whose entries are records filed under their identifier,
    saved to the material file of the project, [open] then returns that
    index, in the same order, and leaves the disk as [save] left it. *)
Theorem X20_save_then_open_gives_the_index_back `{PyFloat}
    (w w' : World) (index : list (string * JSON)) :
  NoDup (map fst index) ->
  Forall (fun kv => identifier_of kv.2 = Some kv.1) index ->
  MaterialFile.save {| MaterialFile.mf_filepath := materials_path w;
                       MaterialFile.index := index |} w = Ok (tt, w') ->
  MaterialFile.open w'
  = Ok ({| MaterialFile.mf_filepath := materials_path w; MaterialFile.index := index |}, w').
Proof.
  intros Hnd Hrec Hsave.
  pose proof (save_ok _ _ _ _ Hsave) as Hfile. cbn [MaterialFile.mf_filepath] in Hfile.
  rewrite save_run in Hsave.
  destruct (pathlib.write_json _ _ _) as [fs2|]; [|done]. injection Hsave as <-.
  change (materials_path w) with (materials_path (with_fs fs2 w)) in Hfile.
  etrans; [exact (open_of_file _ _ Hfile)|].
  unfold MaterialFile.get_materials. cbn [MaterialFile.index].
  by rewrite (index_fold_records index [] Hnd Hrec).
Qed.

(** Saving the sample record in the sample project and opening the file. *)
Lemma X20_save_then_open_witness :
  exists w',
    @MaterialFile.save micro
      {| MaterialFile.mf_filepath := materials_path project_with_materials;
         MaterialFile.index := [("bone", JObj sample_record)] |}
      project_with_materials = Ok (tt, w')
    /\ MaterialFile.open w'
       = Ok ({| MaterialFile.mf_filepath := materials_path project_with_materials;
                MaterialFile.index := [("bone", JObj sample_record)] |}, w').
Proof.
  assert (Hv : value (@MaterialFile.save micro
                        {| MaterialFile.mf_filepath := materials_path project_with_materials;
                           MaterialFile.index := [("bone", JObj sample_record)] |}
                        project_with_materials)
               = Ok tt) by (vm_compute; reflexivity).
  destruct (@MaterialFile.save micro
              {| MaterialFile.mf_filepath := materials_path project_with_materials;
                 MaterialFile.index := [("bone", JObj sample_record)] |}
              project_with_materials) as [[[] w']|e] eqn:E; [|discriminate Hv].
  exists w'. split; [reflexivity|].
  apply (@X20_save_then_open_gives_the_index_back micro project_with_materials w');
    [apply NoDup_singleton| |exact E].
  apply Forall_singleton. unfold sample_record, MaterialFile.mat_data, identifier_of.
  cbn [snd fst]. by rewrite lookup_insert_eq.
Defined.

Section export_materials_facts.
Context `{PyFloat}.

(** The file Export Materials leaves, in terms of the index it was opened
    with and of the materials it has written. *)
Lemma export_materials_file w s w' :
  NoDup (map mat_id (materials w)) ->
  SAPIENS_OT_export_materials.execute w = Ok (s, w') ->
  exists self w1 self',
    MaterialFile.open w = Ok (self, w1)
    /\ MaterialFile.write_materials self (materials w) = Ok self'
    /\ keyed (MaterialFile.index self')
    /\ materials_path w' = materials_path w
    /\ fs w' !! materials_path w
       = Some (File (materials_file (MaterialFile.get_materials self'))).
Proof.
  intros Hnd Hrun.
  pose proof (export_materials_frame _ _ _ Hrun) as (_ & Hw' & _).
  apply export_materials_ok in Hrun as (self & w1 & self' & Hopen & Hw & Hsave & _); [|done].
  exists self, w1, self'. split; [done|]. split; [done|].
  pose proof (open_keyed _ _ _ Hopen) as Hk.
  pose proof (open_frame _ _ _ Hopen) as (Hpath & _).
  apply (write_materials_keyed _ _ _ Hw) in Hk as [Hk Hpath'].
  split; [done|]. split; [by rewrite Hw'|].
  apply save_ok in Hsave. by rewrite Hpath', Hpath in Hsave.
Qed.

End export_materials_facts.

(** X21.  A material without a Principled BSDF spoils the material file.
    [write_material] files the [None] that [material_to_json] returns for it,
    [save] writes it as a [null] entry, and [build_index] subscripts every
    entry: once Export Materials has finished in a blend file that holds such
    a material (names and identities being distinct), opening the material
    file raises [TypeError], and so do Import Materials and Export Materials
    themselves. *)
Theorem X21_a_material_without_shader_spoils_the_file `{PyFloat}
    (w w' : World) (s : status) (m : Material) :
  NoDup (map mat_id (materials w)) -> NoDup (map mat_name (materials w)) ->
  m ∈ materials w ->
  use_nodes m = false \/
  (exists tree, node_tree m = Some tree /\ Forall not_principled (nodes tree)) ->
  SAPIENS_OT_export_materials.execute w = Ok (s, w') ->
  (exists arr, fs w' !! materials_path w' = Some (File (materials_file arr)) /\ JNull ∈ arr)
  /\ MaterialFile.open w' = Raise TypeError
  /\ SAPIENS_OT_import_materials.execute w' = Raise TypeError
  /\ SAPIENS_OT_export_materials.execute w' = Raise TypeError.
Proof.
  intros Hnd Hnames Hm Hnull Hrun.
  apply export_materials_file in Hrun
    as (self & w1 & self' & Hopen & Hw & Hk & Hpath & Hfile); [|done].
  rewrite <- Hpath in Hfile.
  assert (Hin : JNull ∈ MaterialFile.get_materials self').
  { destruct (write_materials_last (mat_name m) _ _ _ m Hw (last_write_unique _ _ Hnames Hm))
      as (v & Hv & Hlook).
    rewrite (material_to_json_null m Hnull) in Hv. injection Hv as <-.
    apply dict_lookup_elem in Hlook. unfold MaterialFile.get_materials.
    apply list_elem_of_fmap. by exists (mat_name m, JNull). }
  assert (Hopen' : MaterialFile.open w' = Raise TypeError).
  { rewrite (open_of_file _ _ Hfile). rewrite index_fold_null; [done| |done].
    destruct Hk as [_ Hk]. unfold MaterialFile.get_materials.
    apply Forall_fmap. eapply Forall_impl; [exact Hk|].
    intros [k v] [?|?]; [by left|right; by exists k]. }
  split; [by eexists|]. split; [done|]. split.
  - unfold SAPIENS_OT_import_materials.execute.
    unfold mbind at 1. unfold M_bind at 1. by rewrite Hopen'.
  - unfold SAPIENS_OT_export_materials.execute.
    unfold mbind at 1. unfold M_bind at 1. by rewrite Hopen'.
Qed.

(** Export Materials in the sample project, where [wood] has no nodes:
    the export finishes, and the file cannot be opened any more. *)
Lemma X21_spoiled_file_witness :
  exists w',
    @SAPIENS_OT_export_materials.execute micro project_with_two_materials = Ok (FINISHED, w')
    /\ MaterialFile.open w' = Raise TypeError
    /\ SAPIENS_OT_import_materials.execute w' = Raise TypeError.
Proof.
  assert (Hv : value (@SAPIENS_OT_export_materials.execute micro project_with_two_materials)
               = Ok FINISHED) by (vm_compute; reflexivity).
  destruct (@SAPIENS_OT_export_materials.execute micro project_with_two_materials)
    as [[s w']|e] eqn:E; [|discriminate Hv].
  injection Hv as ->. exists w'. split; [reflexivity|].
  destruct (@X21_a_material_without_shader_spoils_the_file micro
              project_with_two_materials w' FINISHED
              {| mat_id := 1; mat_name := "wood"; use_nodes := false; node_tree := None |})
    as (_ & Hopen & Himport & _).
  - apply (bool_decide_unpack _). vm_compute. exact I.
  - apply (bool_decide_unpack _). vm_compute. exact I.
  - right. left.
  - left. reflexivity.
  - exact E.
  - split; [exact Hopen|exact Himport].
Defined.

(** X22.  Export Materials adds to the material file and replaces in it; it
    does not drop what it finds there.  A record the file held under a name
    that no material of the blend file bears is in the file that is written. *)
Theorem X22_export_keeps_the_records_of_other_names `{PyFloat}
    (w w1 w' : World) (s : status) (self : MaterialFile.t) (n : string) (v : JSON) :
  NoDup (map mat_id (materials w)) ->
  MaterialFile.open w = Ok (self, w1) ->
  Json.dict_lookup n (MaterialFile.index self) = Some v ->
  Forall (fun m => mat_name m <> n) (materials w) ->
  SAPIENS_OT_export_materials.execute w = Ok (s, w') ->
  exists arr,
    fs w' !! materials_path w = Some (File (materials_file arr)) /\ v ∈ arr.
Proof.
  intros Hnd Hopen Hlook Hother Hrun.
  apply export_materials_file in Hrun
    as (self0 & w0 & self' & Hopen0 & Hw & _ & _ & Hfile); [|done].
  rewrite Hopen in Hopen0. injection Hopen0 as <- <-.
  eexists. split; [exact Hfile|].
  rewrite <- (write_materials_other n _ _ _ Hw Hother) in Hlook.
  apply dict_lookup_elem in Hlook. unfold MaterialFile.get_materials.
  apply list_elem_of_fmap. by exists (n, v).
Qed.

(** Export Materials in the sample project, whose file holds the record of
    [bone] and whose blend file holds [steel] only. *)
Lemma X22_export_keeps_witness :
  exists w' arr,
    @SAPIENS_OT_export_materials.execute micro project_with_steel = Ok (FINISHED, w')
    /\ fs w' !! materials_path project_with_steel = Some (File (materials_file arr))
    /\ JObj sample_record ∈ arr.
Proof.
  assert (Hv : value (@SAPIENS_OT_export_materials.execute micro project_with_steel)
               = Ok FINISHED) by (vm_compute; reflexivity).
  destruct (@SAPIENS_OT_export_materials.execute micro project_with_steel)
    as [[s w']|e] eqn:E; [|discriminate Hv].
  injection Hv as ->.
  assert (Hid : identifier_of (JObj sample_record) = Some "bone").
  { unfold sample_record, MaterialFile.mat_data, identifier_of. by rewrite lookup_insert_eq. }
  assert (Hopen : @MaterialFile.open micro project_with_steel
                  = Ok ({| MaterialFile.mf_filepath := materials_path project_with_steel;
                           MaterialFile.index := [("bone", JObj sample_record)] |},
                        project_with_steel)).
  { rewrite (open_of_file project_with_steel [JObj sample_record]).
    - cbn [foldl]. by rewrite (index_step_record [] _ "bone" Hid).
    - apply lookup_insert_eq. }
  destruct (@X22_export_keeps_the_records_of_other_names micro project_with_steel
              project_with_steel w' FINISHED
              {| MaterialFile.mf_filepath := materials_path project_with_steel;
                 MaterialFile.index := [("bone", JObj sample_record)] |}
              "bone" (JObj sample_record))
    as (arr & Hfile & Hin).
  - apply (bool_decide_unpack _). vm_compute. exact I.
  - exact Hopen.
  - reflexivity.
  - apply Forall_singleton. discriminate.
  - exact E.
  - exists w', arr. split; [reflexivity|]. split; [exact Hfile|exact Hin].
Defined.

(** ** Reading a record into a material *)
Section reading.
Context `{PyFloat}.

Lemma get_with_defaults (d : gmap string JSON) key default :
  default_record !! key = Some default ->
  Json.get (JObj (d ∪ default_record)) key default = Json.get (JObj d) key default.
Proof.
  intros Hdef. unfold Json.get. f_equal. rewrite lookup_union.
  destruct (d !! key) as [x|]; rewrite Hdef; done.
Qed.

Lemma default_record_lookup :
  default_record !! "identifier" = Some (JStr "Material")
  /\ default_record !! "color" = Some (JArr [JNum (dec 1000); JNum (dec 1000); JNum (dec 1000)])
  /\ default_record !! "metal" = Some (JNum (dec 0))
  /\ default_record !! "roughness" = Some (JNum (dec 500)).
Proof.
  unfold default_record, MaterialFile.mat_data. split_and!.
  - by rewrite lookup_insert_eq.
  - rewrite lookup_insert_ne by done. by rewrite lookup_insert_eq.
  - do 2 rewrite lookup_insert_ne by done. by rewrite lookup_insert_eq.
  - do 3 rewrite lookup_insert_ne by done. by rewrite lookup_insert_eq.
Qed.



End reading.

(** X23.  [json_to_material] reads a record with defaults: a key the
    dictionary lacks counts as the identifier ["Material"], the colour
    [[1.0, 1.0, 1.0]], the metal [0.0] or the roughness [0.5]; keys it does
    not know are ignored.  What is not a dictionary at all raises
    [AttributeError] on the first [get]. *)
Theorem X23_json_to_material_reads_missing_keys_as_defaults `{PyFloat}
    (d : gmap string JSON) (w : World) :
  MaterialFile.json_to_material (JObj d) w
  = MaterialFile.json_to_material (JObj (d ∪ default_record)) w
  /\ (forall extra,
        extra ∉ ["identifier"; "color"; "metal"; "roughness"] ->
        forall v, MaterialFile.json_to_material (JObj (<[extra := v]> d)) w
                  = MaterialFile.json_to_material (JObj d) w)
  /\ (forall data, (forall d', data <> JObj d') ->
        MaterialFile.json_to_material data w = Raise AttributeError).
Proof.
  destruct default_record_lookup as (H1 & H2 & H3 & H4). split_and!.
  - unfold MaterialFile.json_to_material.
    by rewrite !get_with_defaults.
  - intros extra Hextra v. unfold MaterialFile.json_to_material, Json.get.
    rewrite !lookup_insert_ne; [done|..]; intros ->; apply Hextra;
      rewrite !elem_of_cons; tauto.
  - intros data Hdata. unfold MaterialFile.json_to_material. munfold.
    destruct data; try done. by destruct (Hdata d0).
Qed.



(** ** Remove Duplicates: what stays *)
Section remove_duplicates_keeps.
Context `{PyFloat}.
Import SAPIENS_OT_remove_duplicate_materials.



End remove_duplicates_keeps.



(** ** Export Empties, forwards *)
Section collections_loops.
Context `{PyFloat}.




End collections_loops.

Section replace_forwards.
Context `{PyFloat}.
Import SAPIENS_OT_export_empties.















End replace_forwards.

Section export_empties_selected.
Context `{PyFloat}.



End export_empties_selected.


